(** * ai-dev-kit: the Databricks MCP tool layer and the pipeline lifecycle

    A shallow embedding of
    - [databricks_mcp_core/spark_declarative_pipelines/pipelines.py]
    - [databricks_mcp_server/models/{base,common,pipelines,unity_catalog,compute}.py]
    - [databricks_mcp_server/tools/{spark_declarative_pipelines,unity_catalog,compute}.py]

    Python dictionaries are finite maps ([gmap string _]); a Python
    computation that may raise and that talks to the remote platform is a
    function from the log of remote calls made so far to an outcome
    (returned value or raised exception) and the extended log.  The remote
    platform is a stub collaborator: a record of response functions, with
    every request appended to the log. *)

From stdpp Require Import gmap strings list fin_maps.
From Stdlib Require Import ZArith String Ascii DecimalString.

#[local] Set Warnings "-register-all,-clear-no-such-hyp".
#[local] Open Scope string_scope.
#[local] Open Scope Z_scope.

(** ** Python values and strings *)

(** The values a tool argument mapping can hold once the JSON request is
    decoded: [None], booleans, integers, strings, lists and dictionaries.
    Fractional numbers are not represented. *)
Inductive pyval : Type :=
  | VNone
  | VBool (b : bool)
  | VInt (z : Z)
  | VStr (s : string)
  | VList (l : list pyval)
  | VDict (d : gmap string pyval).

(** Python truthiness, as used by [if x:] and [not x]. *)
Class Truthy (A : Type) := truthy : A → bool.

#[global] Instance truthy_bool : Truthy bool := λ b, b.
#[global] Instance truthy_Z : Truthy Z := λ z, negb (z =? 0).
#[global] Instance truthy_string : Truthy string :=
  λ s, match s with EmptyString => false | String _ _ => true end.
#[global] Instance truthy_list {A} : Truthy (list A) :=
  λ l, match l with [] => false | _ :: _ => true end.
#[global] Instance truthy_option {A} `{Truthy A} : Truthy (option A) :=
  λ o, match o with None => false | Some a => truthy a end.

(** [x is not None] *)
Definition is_not_None {A} (o : option A) : bool :=
  match o with None => false | Some _ => true end.

(** [str(b)] and [str(n)], as interpolated by f-strings. *)
Definition str_of_bool (b : bool) : string := if b then "True" else "False".
Definition str_of_Z (z : Z) : string := NilZero.string_of_int (Z.to_int z).
Definition str_of_nat (n : nat) : string := str_of_Z (Z.of_nat n).

(** [str(x)] for an optional string: [None] prints as its name. *)
Definition str_of_optional (o : option string) : string := default "None" o.

(** [s.endswith(suffix)] *)
Fixpoint endswith (s suffix : string) : bool :=
  String.eqb s suffix ||
  match s with
  | EmptyString => false
  | String _ s' => endswith s' suffix
  end.

(** [sep.join(l)] *)
Fixpoint join (sep : string) (l : list string) : string :=
  match l with
  | [] => ""
  | [x] => x
  | x :: l' => x ++ sep ++ join sep l'
  end.

(** Strings are held as the UTF-8 bytes of the Python strings.
    [white_space] lists the encodings of the code points that
    [str_strip_whitespace] removes, those with the Unicode property
    White_Space: U+0009 to U+000D, U+0020, U+0085, U+00A0, U+1680, U+2000
    to U+200A, U+2028, U+2029, U+202F, U+205F and U+3000. *)
Definition bytes (l : list nat) : string :=
  foldr (λ n s, String (ascii_of_nat n) s) EmptyString l.

Definition white_space : list string :=
  bytes <$>
    [ [9]; [10]; [11]; [12]; [13]; [32];
      [194; 133]; [194; 160];
      [225; 154; 128];
      [226; 128; 128]; [226; 128; 129]; [226; 128; 130]; [226; 128; 131];
      [226; 128; 132]; [226; 128; 133]; [226; 128; 134]; [226; 128; 135];
      [226; 128; 136]; [226; 128; 137]; [226; 128; 138];
      [226; 128; 168]; [226; 128; 169]; [226; 128; 175];
      [226; 129; 159];
      [227; 128; 128] ]%nat.

(** Whether [s] is one whitespace character. *)
Definition is_white_space (s : string) : bool := bool_decide (s ∈ white_space).

(** Removes the whitespace characters at the start: an encoding has one,
    two or three bytes. *)
Fixpoint lstrip (s : string) : string :=
  match s with
  | EmptyString => EmptyString
  | String a s1 =>
      if is_white_space (String a EmptyString) then lstrip s1
      else
        match s1 with
        | EmptyString => s
        | String b s2 =>
            if is_white_space (String a (String b EmptyString)) then lstrip s2
            else
              match s2 with
              | EmptyString => s
              | String c s3 =>
                  if is_white_space (String a (String b (String c EmptyString)))
                  then lstrip s3
                  else s
              end
        end
  end.

(** Removes the whitespace characters at the end: going backwards, what
    is kept so far is dropped whenever it is one whitespace character. *)
Fixpoint rstrip (s : string) : string :=
  match s with
  | EmptyString => EmptyString
  | String a s' =>
      let kept := String a (rstrip s') in
      if is_white_space kept then EmptyString else kept
  end.

Definition strip (s : string) : string := rstrip (lstrip s).

(** ASCII lower-casing, used when a string is read as a boolean. *)
Definition lower_ascii (a : ascii) : ascii :=
  let n := nat_of_ascii a in
  if ((65 <=? n)%nat && (n <=? 90)%nat) then ascii_of_nat (n + 32) else a.

Fixpoint lower (s : string) : string :=
  match s with
  | EmptyString => EmptyString
  | String a s' => String (lower_ascii a) (lower s')
  end.

(** Substring test (Python's [needle in haystack]). *)
Fixpoint startswith (s p : string) : bool :=
  match p, s with
  | EmptyString, _ => true
  | String b p', String a s' => Ascii.eqb a b && startswith s' p'
  | String _ _, EmptyString => false
  end.

Fixpoint contains (hay needle : string) : bool :=
  startswith hay needle ||
  match hay with
  | EmptyString => false
  | String _ h' => contains h' needle
  end.

(** ** Exceptions, outcomes and the remote call log *)

(** One entry of pydantic's [ValidationError.errors()]: the location (field
    names and list indices), the message and the error type. *)
Inductive locitem : Type :=
  | LField (name : string)
  | LIndex (i : nat).

Record ErrorDetails : Type := mkError {
  loc : list locitem;
  msg : string;
  type : string;
}.

(** The exceptions below [Exception]: pydantic's [ValidationError], and any
    other exception, of which the handlers only read [str(e)]. *)
Inductive exn : Type :=
  | ValidationError (errors : list ErrorDetails)
  | OtherException (message : string).

Inductive outcome (A : Type) : Type :=
  | Returned (a : A)
  | Raised (e : exn).
Arguments Returned {A} a.
Arguments Raised {A} e.

(** [LanguageEnum] of [models/common.py]. *)
Inductive LanguageEnum : Type := PYTHON | SQL | SCALA | R.

(** SDK objects built and sent by the pipeline functions. *)
Record NotebookLibrary : Type := mkNotebookLibrary { path : string }.
Record PipelineLibrary : Type := mkPipelineLibrary { notebook : option NotebookLibrary }.

(** Keyword arguments of [w.pipelines.create]. *)
Record CreateArgs : Type := mkCreateArgs {
  create_name : string;
  create_storage : string;
  create_target : string;
  create_libraries : list PipelineLibrary;
  create_continuous : bool;
  create_serverless : bool;
}.

(** Values of the [kwargs] dictionary of [update_pipeline]. *)
Inductive kwval : Type :=
  | KStr (s : string)
  | KBool (b : bool)
  | KLibraries (l : list PipelineLibrary).

(** Keyword arguments of [w.pipelines.start_update]. *)
Record StartUpdateArgs : Type := mkStartUpdateArgs {
  su_pipeline_id : string;
  su_refresh_selection : option (list string);
  su_full_refresh : bool;
  su_full_refresh_selection : option (list string);
  su_validate_only : bool;
}.

(** SDK response objects, with the attributes the code reads; [as_dict]
    is the object's [as_dict()].  A state is the string that the status
    handler looks up in its table and prints. *)
Record CreatePipelineResponse : Type := mkCreatePipelineResponse {
  cpr_pipeline_id : string;
}.
Record PipelineSpec : Type := mkPipelineSpec {
  ps_target : option string;
}.
Record GetPipelineResponse : Type := mkGetPipelineResponse {
  gpr_name : option string;
  gpr_state : option string;
  gpr_spec : option PipelineSpec;
  gpr_as_dict : pyval;
}.
Record StartUpdateResponse : Type := mkStartUpdateResponse {
  sur_update_id : string;
}.
Record UpdateInfo : Type := mkUpdateInfo {
  ui_state : string;
}.
Record GetUpdateResponse : Type := mkGetUpdateResponse {
  gur_update : option UpdateInfo;
  gur_as_dict : pyval;
}.
Record PipelineEvent : Type := mkPipelineEvent {
  event_type : option string;
  pe_as_dict : pyval;
}.
Record SchemaInfo : Type := mkSchemaInfo {
  si_name : string;
  si_full_name : string;
  si_catalog_name : string;
  si_owner : string;
  si_comment : option string;
  si_created_at : option Z;
  si_updated_at : option Z;
  si_storage_location : option string;
}.
Record ExecutionResult : Type := mkExecutionResult {
  er_success : bool;
  er_output : string;
  er_error : string;
}.

(** Every request that reaches the remote platform. *)
Inductive Call : Type :=
  | CallPipelinesCreate (a : CreateArgs)
  | CallPipelinesGet (pipeline_id : string)
  | CallPipelinesUpdate (kwargs : gmap string kwval)
  | CallPipelinesDelete (pipeline_id : string)
  | CallPipelinesStop (pipeline_id : string)
  | CallPipelinesStartUpdate (a : StartUpdateArgs)
  | CallPipelinesGetUpdate (pipeline_id update_id : string)
  | CallPipelinesListEvents (pipeline_id : string) (max_results : Z)
  | CallGetSchema (full_schema_name : pyval)
  | CallExecuteWithContext (cluster_id context_id code : string)
  | CallDestroyContext (cluster_id context_id : string)
  | CallExecuteDatabricksCommand (cluster_id : string) (language : LanguageEnum)
      (code : string) (timeout : Z).

(** The stub collaborator: what the remote platform answers to each
    request.  [pipelines_*] stand for the methods of
    [WorkspaceClient().pipelines]; [schemas_get_schema] and [execution_*]
    for the functions of [databricks_mcp_core.unity_catalog.schemas] and
    [databricks_mcp_core.compute.execution]. *)
Record Remote : Type := mkRemote {
  pipelines_create : CreateArgs → outcome CreatePipelineResponse;
  pipelines_get : string → outcome GetPipelineResponse;
  pipelines_update : gmap string kwval → outcome unit;
  pipelines_delete : string → outcome unit;
  pipelines_stop : string → outcome unit;
  pipelines_start_update : StartUpdateArgs → outcome StartUpdateResponse;
  pipelines_get_update : string → string → outcome GetUpdateResponse;
  pipelines_list_pipeline_events : string → Z → outcome (list PipelineEvent);
  schemas_get_schema : pyval → outcome SchemaInfo;
  execution_execute_command_with_context :
    string → string → string → outcome ExecutionResult;
  execution_destroy_context : string → string → outcome unit;
  execution_execute_databricks_command :
    string → LanguageEnum → string → Z → outcome ExecutionResult;
}.

(** A Python computation: it reads and extends the log of remote calls and
    either returns or raises. *)
Definition Py (A : Type) : Type := list Call → outcome A * list Call.

#[global] Instance Py_ret : MRet Py := λ A a log, (Returned a, log).
#[global] Instance Py_bind : MBind Py := λ A B f m log,
  match m log with
  | (Returned a, log') => f a log'
  | (Raised e, log') => (Raised e, log')
  end.

(** A remote call: logged, then answered by the collaborator. *)
Definition remote_call {A} (c : Call) (answer : outcome A) : Py A :=
  λ log, (answer, (log ++ [c])%list).

(** A local computation that may raise. *)
Definition lift {A} (o : outcome A) : Py A := λ log, (o, log).

(** [try: body / except ValidationError as e: on_validation e /
    except Exception as e: on_exception e] *)
Definition try_except {A} (body : Py A)
    (on_validation : list ErrorDetails → Py A)
    (on_exception : exn → Py A) : Py A :=
  λ log,
    match body log with
    | (Returned a, log') => (Returned a, log')
    | (Raised (ValidationError errs), log') => on_validation errs log'
    | (Raised e, log') => on_exception e log'
    end.

(** [try: body / except Exception as e: on_exception e] *)
Definition try_except_Exception {A} (body : Py A)
    (on_exception : exn → Py A) : Py A :=
  λ log,
    match body log with
    | (Returned a, log') => (Returned a, log')
    | (Raised e, log') => on_exception e log'
    end.

(** [str(e)]: the message of the exception; for a [ValidationError] it is
    pydantic's own rendering, [validation_str]. *)
Definition str_of_exn (validation_str : list ErrorDetails → string) (e : exn) : string :=
  match e with
  | ValidationError errs => validation_str errs
  | OtherException m => m
  end.

(** ** [databricks_mcp_core.spark_declarative_pipelines.pipelines] *)

Module pipelines.

Definition libraries_of (workspace_notebook_paths : list string) : list PipelineLibrary :=
  (λ p, mkPipelineLibrary (Some (mkNotebookLibrary p))) <$> workspace_notebook_paths.

Definition create_pipeline (w : Remote) (name root_path catalog schema : string)
    (workspace_notebook_paths : list string) (serverless : bool)
    : Py CreatePipelineResponse :=
  let libraries := libraries_of workspace_notebook_paths in
  let a := {| create_name := name;
              create_storage := root_path;
              create_target := catalog ++ "." ++ schema;
              create_libraries := libraries;
              create_continuous := false;
              create_serverless := serverless |} in
  remote_call (CallPipelinesCreate a) (pipelines_create w a).

Definition get_pipeline (w : Remote) (pipeline_id : string) : Py GetPipelineResponse :=
  remote_call (CallPipelinesGet pipeline_id) (pipelines_get w pipeline_id).

(** The [kwargs] dictionary built by [update_pipeline]. *)
Definition update_kwargs (pipeline_id : string)
    (name root_path catalog schema : option string)
    (workspace_notebook_paths : option (list string))
    (serverless : option bool) : gmap string kwval :=
  let kwargs : gmap string kwval := {[ "pipeline_id" := KStr pipeline_id ]} in
  let kwargs :=
    if truthy name then <["name" := KStr (default "" name)]> kwargs else kwargs in
  let kwargs :=
    if truthy root_path then <["storage" := KStr (default "" root_path)]> kwargs
    else kwargs in
  let kwargs :=
    if truthy catalog && truthy schema
    then <["target" := KStr (default "" catalog ++ "." ++ default "" schema)]> kwargs
    else kwargs in
  let kwargs :=
    if truthy workspace_notebook_paths
    then <["libraries" := KLibraries (libraries_of (default [] workspace_notebook_paths))]> kwargs
    else kwargs in
  let kwargs :=
    if is_not_None serverless
    then <["serverless" := KBool (default false serverless)]> kwargs
    else kwargs in
  kwargs.

Definition update_pipeline (w : Remote) (pipeline_id : string)
    (name root_path catalog schema : option string)
    (workspace_notebook_paths : option (list string))
    (serverless : option bool) : Py unit :=
  let kwargs := update_kwargs pipeline_id name root_path catalog schema
                  workspace_notebook_paths serverless in
  remote_call (CallPipelinesUpdate kwargs) (pipelines_update w kwargs).

Definition delete_pipeline (w : Remote) (pipeline_id : string) : Py unit :=
  remote_call (CallPipelinesDelete pipeline_id) (pipelines_delete w pipeline_id).

Definition start_update (w : Remote) (pipeline_id : string)
    (refresh_selection : option (list string)) (full_refresh : bool)
    (full_refresh_selection : option (list string)) (validate_only : bool)
    : Py string :=
  let a := {| su_pipeline_id := pipeline_id;
              su_refresh_selection := refresh_selection;
              su_full_refresh := full_refresh;
              su_full_refresh_selection := full_refresh_selection;
              su_validate_only := validate_only |} in
  response ← remote_call (CallPipelinesStartUpdate a) (pipelines_start_update w a);
  mret (sur_update_id response).

Definition get_update (w : Remote) (pipeline_id update_id : string)
    : Py GetUpdateResponse :=
  remote_call (CallPipelinesGetUpdate pipeline_id update_id)
              (pipelines_get_update w pipeline_id update_id).

Definition stop_pipeline (w : Remote) (pipeline_id : string) : Py unit :=
  remote_call (CallPipelinesStop pipeline_id) (pipelines_stop w pipeline_id).

Definition get_pipeline_events (w : Remote) (pipeline_id : string) (max_results : Z)
    : Py (list PipelineEvent) :=
  remote_call (CallPipelinesListEvents pipeline_id max_results)
              (pipelines_list_pipeline_events w pipeline_id max_results).

End pipelines.

(** ** pydantic: field validators and model construction

    [MCPInputModel] configures [extra="ignore"] (keys that are not fields
    are never looked at), [str_strip_whitespace=True] (every validated
    string is stripped) and [use_enum_values=True].  A validator maps a raw
    value to the validated one or to its error entries, whose locations are
    relative to the value. *)

Definition validated (A : Type) : Type := (list ErrorDetails + A)%type.
Definition validator (A : Type) : Type := pyval → validated A.

Definition error (t m : string) : ErrorDetails :=
  {| loc := []; msg := m; type := t |}.

Definition at_loc (l : locitem) (e : ErrorDetails) : ErrorDetails :=
  {| loc := l :: loc e; msg := msg e; type := type e |}.

Definition errors_of {A} (r : validated A) : list ErrorDetails :=
  match r with inl es => es | inr _ => [] end.

Definition str_validator : validator string := λ v,
  match v with
  | VStr s => inr (strip s)
  | _ => inl [error "string_type" "Input should be a valid string"]
  end.

Definition bool_of_str (s : string) : option bool :=
  let s := lower s in
  if bool_decide (s ∈ ["0"; "off"; "f"; "false"; "n"; "no"]) then Some false
  else if bool_decide (s ∈ ["1"; "on"; "t"; "true"; "y"; "yes"]) then Some true
  else None.

Definition bool_parsing_error : ErrorDetails :=
  error "bool_parsing" "Input should be a valid boolean, unable to interpret input".

Definition bool_validator : validator bool := λ v,
  match v with
  | VBool b => inr b
  | VInt 0 => inr false
  | VInt 1 => inr true
  | VInt _ => inl [bool_parsing_error]
  | VStr s =>
      match bool_of_str s with
      | Some b => inr b
      | None => inl [bool_parsing_error]
      end
  | _ => inl [error "bool_type" "Input should be a valid boolean"]
  end.

(** [Optional[T]]: [None] is accepted as it is. *)
Definition optional {A} (f : validator A) : validator (option A) := λ v,
  match v with
  | VNone => inr None
  | _ => match f v with inl es => inl es | inr a => inr (Some a) end
  end.

(** The items of a list, validated in order; the errors of item [i] are
    located at index [i]. *)
Fixpoint list_items {A} (f : validator A) (i : nat) (l : list pyval)
    : list ErrorDetails * list A :=
  match l with
  | [] => ([], [])
  | v :: l' =>
      let '(es, xs) := list_items f (S i) l' in
      match f v with
      | inl e => ((at_loc (LIndex i) <$> e) ++ es, xs)%list
      | inr x => (es, x :: xs)
      end
  end.

(** [List[T]] with [min_length]. *)
Definition list_validator {A} (f : validator A) (min_length : nat) : validator (list A) := λ v,
  match v with
  | VList l =>
      match list_items f 0 l with
      | ([], xs) =>
          if (List.length xs <? min_length)%nat
          then inl [error "too_short"
                      ("List should have at least " ++ str_of_nat min_length ++
                       " item" ++ (if (min_length =? 1)%nat then "" else "s") ++
                       " after validation, not " ++ str_of_nat (List.length xs))]
          else inr xs
      | (es, _) => inl es
      end
  | _ => inl [error "list_type" "Input should be a valid list"]
  end.

(** A required field ([Field(...)]). *)
Definition required {A} (name : string) (f : validator A)
    (arguments : gmap string pyval) : validated A :=
  match arguments !! name with
  | None => inl [ {| loc := [LField name]; msg := "Field required"; type := "missing" |} ]
  | Some v =>
      match f v with
      | inl es => inl (at_loc (LField name) <$> es)
      | inr a => inr a
      end
  end.

(** A field with a default ([Field(default, ...)]); the default is not
    validated. *)
Definition with_default {A} (name : string) (f : validator A) (dflt : A)
    (arguments : gmap string pyval) : validated A :=
  match arguments !! name with
  | None => inr dflt
  | Some v =>
      match f v with
      | inl es => inl (at_loc (LField name) <$> es)
      | inr a => inr a
      end
  end.

(** A [ValueError] raised by a [model_validator(mode='after')]. *)
Definition value_error (message : string) : ErrorDetails :=
  error "value_error" ("Value error, " ++ message).

(** Calling the model class on the unpacked arguments: the instance, or
    [ValidationError]. *)
Definition construct {A} (r : validated A) : outcome A :=
  match r with
  | inl es => Raised (ValidationError es)
  | inr a => Returned a
  end.

(** *** [models/common.py] *)

Inductive TableTypeEnum : Type := MANAGED | EXTERNAL.

Definition TableTypeEnum_validator : validator TableTypeEnum := λ v,
  match v with
  | VStr "MANAGED" => inr MANAGED
  | VStr "EXTERNAL" => inr EXTERNAL
  | _ => inl [error "enum" "Input should be 'MANAGED' or 'EXTERNAL'"]
  end.

Definition LanguageEnum_validator : validator LanguageEnum := λ v,
  match v with
  | VStr "python" => inr PYTHON
  | VStr "sql" => inr SQL
  | VStr "scala" => inr SCALA
  | VStr "r" => inr R
  | _ => inl [error "enum" "Input should be 'python', 'sql', 'scala' or 'r'"]
  end.

Module ColumnModel.
Record t : Type := mk {
  name : string;
  type_name : string;
  comment : option string;
}.

Definition fields (arguments : gmap string pyval) : validated t :=
  match required "name" str_validator arguments,
        required "type_name" str_validator arguments,
        with_default "comment" (optional str_validator) None arguments with
  | inr a, inr b, inr c => inr (mk a b c)
  | a, b, c => inl (errors_of a ++ errors_of b ++ errors_of c)%list
  end.

Definition validate : validator t := λ v,
  match v with
  | VDict d => fields d
  | _ => inl [error "model_type"
                "Input should be a valid dictionary or instance of ColumnModel"]
  end.
End ColumnModel.

(** [int] with [ge]/[le] bounds.  How pydantic reads a string as an integer
    is left to [int_of_str]. *)
Definition int_validator (int_of_str : string → option Z) (ge le : Z) : validator Z := λ v,
  let bounded (z : Z) : validated Z :=
    if z <? ge
    then inl [error "greater_than_equal"
                ("Input should be greater than or equal to " ++ str_of_Z ge)]
    else if le <? z
    then inl [error "less_than_equal"
                ("Input should be less than or equal to " ++ str_of_Z le)]
    else inr z in
  match v with
  | VInt z => bounded z
  | VBool b => bounded (if b then 1 else 0)
  | VStr s =>
      match int_of_str s with
      | Some z => bounded z
      | None => inl [error "int_parsing"
                       "Input should be a valid integer, unable to parse string as an integer"]
      end
  | _ => inl [error "int_type" "Input should be a valid integer"]
  end.

(** *** [models/pipelines.py] *)

Module CreatePipelineInput.
Record t : Type := mk {
  name : string;
  root_path : string;
  catalog : string;
  schema : string;
  workspace_notebook_paths : list string;
  serverless : bool;
}.

Definition validate (arguments : gmap string pyval) : validated t :=
  match required "name" str_validator arguments,
        required "root_path" str_validator arguments,
        required "catalog" str_validator arguments,
        required "schema" str_validator arguments,
        required "workspace_notebook_paths" (list_validator str_validator 1) arguments,
        with_default "serverless" bool_validator true arguments with
  | inr a, inr b, inr c, inr d, inr e, inr f => inr (mk a b c d e f)
  | a, b, c, d, e, f =>
      inl (errors_of a ++ errors_of b ++ errors_of c ++ errors_of d ++
           errors_of e ++ errors_of f)%list
  end.
End CreatePipelineInput.

Module GetPipelineInput.
Record t : Type := mk {
  pipeline_id : string;
}.

Definition validate (arguments : gmap string pyval) : validated t :=
  match required "pipeline_id" str_validator arguments with
  | inr a => inr (mk a)
  | inl es => inl es
  end.
End GetPipelineInput.

Module UpdatePipelineInput.
Record t : Type := mk {
  pipeline_id : string;
  name : option string;
  root_path : option string;
  catalog : option string;
  schema : option string;
  workspace_notebook_paths : option (list string);
  serverless : option bool;
}.

Definition validate (arguments : gmap string pyval) : validated t :=
  match required "pipeline_id" str_validator arguments,
        with_default "name" (optional str_validator) None arguments,
        with_default "root_path" (optional str_validator) None arguments,
        with_default "catalog" (optional str_validator) None arguments,
        with_default "schema" (optional str_validator) None arguments,
        with_default "workspace_notebook_paths"
          (optional (list_validator str_validator 0)) None arguments,
        with_default "serverless" (optional bool_validator) None arguments with
  | inr a, inr b, inr c, inr d, inr e, inr f, inr g => inr (mk a b c d e f g)
  | a, b, c, d, e, f, g =>
      inl (errors_of a ++ errors_of b ++ errors_of c ++ errors_of d ++
           errors_of e ++ errors_of f ++ errors_of g)%list
  end.
End UpdatePipelineInput.

Module DeletePipelineInput.
Record t : Type := mk {
  pipeline_id : string;
}.

Definition validate (arguments : gmap string pyval) : validated t :=
  match required "pipeline_id" str_validator arguments with
  | inr a => inr (mk a)
  | inl es => inl es
  end.
End DeletePipelineInput.

Module StartPipelineUpdateInput.
Record t : Type := mk {
  pipeline_id : string;
  refresh_selection : option (list string);
  full_refresh : bool;
  full_refresh_selection : option (list string);
}.

Definition validate (arguments : gmap string pyval) : validated t :=
  match required "pipeline_id" str_validator arguments,
        with_default "refresh_selection"
          (optional (list_validator str_validator 0)) None arguments,
        with_default "full_refresh" bool_validator false arguments,
        with_default "full_refresh_selection"
          (optional (list_validator str_validator 0)) None arguments with
  | inr a, inr b, inr c, inr d => inr (mk a b c d)
  | a, b, c, d =>
      inl (errors_of a ++ errors_of b ++ errors_of c ++ errors_of d)%list
  end.
End StartPipelineUpdateInput.

Module ValidatePipelineInput.
Record t : Type := mk {
  pipeline_id : string;
  refresh_selection : option (list string);
  full_refresh : bool;
  full_refresh_selection : option (list string);
}.

Definition validate (arguments : gmap string pyval) : validated t :=
  match required "pipeline_id" str_validator arguments,
        with_default "refresh_selection"
          (optional (list_validator str_validator 0)) None arguments,
        with_default "full_refresh" bool_validator false arguments,
        with_default "full_refresh_selection"
          (optional (list_validator str_validator 0)) None arguments with
  | inr a, inr b, inr c, inr d => inr (mk a b c d)
  | a, b, c, d =>
      inl (errors_of a ++ errors_of b ++ errors_of c ++ errors_of d)%list
  end.
End ValidatePipelineInput.

Module GetPipelineUpdateStatusInput.
Record t : Type := mk {
  pipeline_id : string;
  update_id : string;
}.

Definition validate (arguments : gmap string pyval) : validated t :=
  match required "pipeline_id" str_validator arguments,
        required "update_id" str_validator arguments with
  | inr a, inr b => inr (mk a b)
  | a, b => inl (errors_of a ++ errors_of b)%list
  end.
End GetPipelineUpdateStatusInput.

Module StopPipelineInput.
Record t : Type := mk {
  pipeline_id : string;
}.

Definition validate (arguments : gmap string pyval) : validated t :=
  match required "pipeline_id" str_validator arguments with
  | inr a => inr (mk a)
  | inl es => inl es
  end.
End StopPipelineInput.

Module GetPipelineEventsInput.
Record t : Type := mk {
  pipeline_id : string;
  max_results : Z;
}.

Definition validate (int_of_str : string → option Z)
    (arguments : gmap string pyval) : validated t :=
  match required "pipeline_id" str_validator arguments,
        with_default "max_results" (int_validator int_of_str 1 1000) 100 arguments with
  | inr a, inr b => inr (mk a b)
  | a, b => inl (errors_of a ++ errors_of b)%list
  end.
End GetPipelineEventsInput.

(** *** [models/unity_catalog.py] *)

Definition at_least_one_message : string :=
  "At least one of 'new_name' or 'comment' must be provided".

Module UpdateCatalogInput.
Record t : Type := mk {
  catalog_name : string;
  new_name : option string;
  comment : option string;
}.

Definition fields (arguments : gmap string pyval) : validated t :=
  match required "catalog_name" str_validator arguments,
        with_default "new_name" (optional str_validator) None arguments,
        with_default "comment" (optional str_validator) None arguments with
  | inr a, inr b, inr c => inr (mk a b c)
  | a, b, c => inl (errors_of a ++ errors_of b ++ errors_of c)%list
  end.

(** [any([self.new_name, self.comment])] *)
Definition validate_at_least_one_update (self : t) : validated t :=
  if negb (truthy (new_name self) || truthy (comment self))
  then inl [value_error at_least_one_message]
  else inr self.

(** The after-validator runs on the instance, hence only when every
    field validated. *)
Definition validate (arguments : gmap string pyval) : validated t :=
  match fields arguments with
  | inl es => inl es
  | inr self => validate_at_least_one_update self
  end.
End UpdateCatalogInput.

Module UpdateSchemaInput.
Record t : Type := mk {
  catalog_name : string;
  schema_name : string;
  new_name : option string;
  comment : option string;
}.

Definition fields (arguments : gmap string pyval) : validated t :=
  match required "catalog_name" str_validator arguments,
        required "schema_name" str_validator arguments,
        with_default "new_name" (optional str_validator) None arguments,
        with_default "comment" (optional str_validator) None arguments with
  | inr a, inr b, inr c, inr d => inr (mk a b c d)
  | a, b, c, d =>
      inl (errors_of a ++ errors_of b ++ errors_of c ++ errors_of d)%list
  end.

Definition validate_at_least_one_update (self : t) : validated t :=
  if negb (truthy (new_name self) || truthy (comment self))
  then inl [value_error at_least_one_message]
  else inr self.

Definition validate (arguments : gmap string pyval) : validated t :=
  match fields arguments with
  | inl es => inl es
  | inr self => validate_at_least_one_update self
  end.
End UpdateSchemaInput.

Module CreateTableInput.
Record t : Type := mk {
  catalog_name : string;
  schema_name : string;
  table_name : string;
  columns : list ColumnModel.t;
  table_type : TableTypeEnum;
  comment : option string;
  storage_location : option string;
}.

Definition fields (arguments : gmap string pyval) : validated t :=
  match required "catalog_name" str_validator arguments,
        required "schema_name" str_validator arguments,
        required "table_name" str_validator arguments,
        required "columns" (list_validator ColumnModel.validate 1) arguments,
        with_default "table_type" TableTypeEnum_validator MANAGED arguments,
        with_default "comment" (optional str_validator) None arguments,
        with_default "storage_location" (optional str_validator) None arguments with
  | inr a, inr b, inr c, inr d, inr e, inr f, inr g => inr (mk a b c d e f g)
  | a, b, c, d, e, f, g =>
      inl (errors_of a ++ errors_of b ++ errors_of c ++ errors_of d ++
           errors_of e ++ errors_of f ++ errors_of g)%list
  end.

Definition validate_external_storage (self : t) : validated t :=
  if match table_type self with EXTERNAL => true | MANAGED => false end
     && negb (truthy (storage_location self))
  then inl [value_error "storage_location is required for EXTERNAL tables"]
  else inr self.

Definition validate (arguments : gmap string pyval) : validated t :=
  match fields arguments with
  | inl es => inl es
  | inr self => validate_external_storage self
  end.
End CreateTableInput.

(** *** [models/compute.py] *)

Module ExecuteCommandWithContextInput.
Record t : Type := mk {
  cluster_id : string;
  context_id : string;
  code : string;
}.

Definition validate (arguments : gmap string pyval) : validated t :=
  match required "cluster_id" str_validator arguments,
        required "context_id" str_validator arguments,
        required "code" str_validator arguments with
  | inr a, inr b, inr c => inr (mk a b c)
  | a, b, c => inl (errors_of a ++ errors_of b ++ errors_of c)%list
  end.
End ExecuteCommandWithContextInput.

Module DestroyContextInput.
Record t : Type := mk {
  cluster_id : string;
  context_id : string;
}.

Definition validate (arguments : gmap string pyval) : validated t :=
  match required "cluster_id" str_validator arguments,
        required "context_id" str_validator arguments with
  | inr a, inr b => inr (mk a b)
  | a, b => inl (errors_of a ++ errors_of b)%list
  end.
End DestroyContextInput.

Module DatabricksCommandInput.
Record t : Type := mk {
  cluster_id : string;
  language : LanguageEnum;
  code : string;
  timeout : Z;
}.

Definition validate (int_of_str : string → option Z)
    (arguments : gmap string pyval) : validated t :=
  match required "cluster_id" str_validator arguments,
        with_default "language" LanguageEnum_validator PYTHON arguments,
        required "code" str_validator arguments,
        with_default "timeout" (int_validator int_of_str 1 3600) 120 arguments with
  | inr a, inr b, inr c, inr d => inr (mk a b c d)
  | a, b, c, d =>
      inl (errors_of a ++ errors_of b ++ errors_of c ++ errors_of d)%list
  end.
End DatabricksCommandInput.

(** ** [models/base.py]: the response envelope and the validation wrapper *)

Definition nl : string := String (ascii_of_nat 10) EmptyString.

(** [{"type": "text", "text": text}] *)
Definition text_content (text : string) : pyval :=
  VDict {[ "type" := VStr "text"; "text" := VStr text ]}.

(** [{"content": [{"type": "text", "text": text}]}] *)
Definition success_envelope (text : string) : gmap string pyval :=
  {[ "content" := VList [text_content text] ]}.

(** [{"content": [{"type": "text", "text": text}], "isError": True}] *)
Definition error_envelope (text : string) : gmap string pyval :=
  {[ "content" := VList [text_content text]; "isError" := VBool true ]}.

Definition str_of_locitem (l : locitem) : string :=
  match l with
  | LField n => n
  | LIndex i => str_of_nat i
  end.

Module MCPValidationError.
Definition to_mcp_response (errors : list ErrorDetails) : gmap string pyval :=
  let error_msgs :=
    (λ error,
       let field := join "." (str_of_locitem <$> loc error) in
       "  - " ++ field ++ ": " ++ msg error ++ " (type: " ++ type error ++ ")")
    <$> errors in
  error_envelope ("âŒ Validation Error:" ++ nl ++ join nl error_msgs).
End MCPValidationError.

(** [except ValidationError as e: ...] alone: any other exception
    propagates. *)
Definition try_except_ValidationError {A} (body : Py A)
    (on_validation : list ErrorDetails → Py A) : Py A :=
  λ log,
    match body log with
    | (Raised (ValidationError errs), log') => on_validation errs log'
    | r => r
    end.

(** The decorator [validate_input(model)]: [wrapper(arguments)]. *)
Definition validate_input {I} (model : gmap string pyval → validated I)
    (func : I → Py (gmap string pyval)) (arguments : gmap string pyval)
    : Py (gmap string pyval) :=
  try_except_ValidationError
    (validated_input ← lift (construct (model arguments));
     func validated_input)
    (λ errs, mret (MCPValidationError.to_mcp_response errs)).

(** ** The tool handlers *)

Section Tools.

(** The remote platform. *)
Variable w : Remote.

(** Library functions taken as they are: [json.dumps(_, indent=2)],
    pydantic's reading of a string as an integer, and [str(e)] for a
    pydantic [ValidationError]. *)
Variable json_dumps : pyval → string.
Variable int_of_str : string → option Z.
Variable str_of_ValidationError : list ErrorDetails → string.

#[local] Abbreviation str := (str_of_exn str_of_ValidationError).

(** *** [tools/spark_declarative_pipelines.py] *)

Definition create_pipeline_tool (arguments : gmap string pyval)
    : Py (gmap string pyval) :=
  try_except
    (input ← lift (construct (CreatePipelineInput.validate arguments));
     result ← pipelines.create_pipeline w
                (CreatePipelineInput.name input)
                (CreatePipelineInput.root_path input)
                (CreatePipelineInput.catalog input)
                (CreatePipelineInput.schema input)
                (CreatePipelineInput.workspace_notebook_paths input)
                (CreatePipelineInput.serverless input);
     let pipeline_id := cpr_pipeline_id result in
     mret (success_envelope
             ("✅ Pipeline created successfully!" ++ nl ++ nl ++
              "Pipeline ID: " ++ pipeline_id ++ nl ++
              "Name: " ++ CreatePipelineInput.name input ++ nl ++
              "Target: " ++ CreatePipelineInput.catalog input ++ "." ++
                            CreatePipelineInput.schema input ++ nl ++
              "Storage: " ++ CreatePipelineInput.root_path input ++ nl ++
              "Serverless: " ++ str_of_bool (CreatePipelineInput.serverless input))))
    (λ errs, mret (MCPValidationError.to_mcp_response errs))
    (λ e, mret (error_envelope ("❌ Error creating pipeline: " ++ str e))).

Definition get_pipeline_tool (arguments : gmap string pyval)
    : Py (gmap string pyval) :=
  try_except
    (input ← lift (construct (GetPipelineInput.validate arguments));
     result ← pipelines.get_pipeline w (GetPipelineInput.pipeline_id input);
     let name := if truthy (gpr_name result) then default "" (gpr_name result)
                 else "unknown" in
     let state := if truthy (gpr_state result) then default "" (gpr_state result)
                  else "unknown" in
     let target :=
       match gpr_spec result with
       | Some spec => str_of_optional (ps_target spec)
       | None => "unknown"
       end in
     mret (success_envelope
             ("📊 Pipeline Details" ++ nl ++ nl ++
              "Name: " ++ name ++ nl ++
              "State: " ++ state ++ nl ++
              "Target: " ++ target ++ nl ++
              "Pipeline ID: " ++ GetPipelineInput.pipeline_id input ++ nl ++ nl ++
              "Full configuration:" ++ nl ++ json_dumps (gpr_as_dict result))))
    (λ errs, mret (MCPValidationError.to_mcp_response errs))
    (λ e, mret (error_envelope ("❌ Error getting pipeline: " ++ str e))).

Definition update_pipeline_config_tool (arguments : gmap string pyval)
    : Py (gmap string pyval) :=
  try_except
    (input ← lift (construct (UpdatePipelineInput.validate arguments));
     _ ← pipelines.update_pipeline w
           (UpdatePipelineInput.pipeline_id input)
           (UpdatePipelineInput.name input)
           (UpdatePipelineInput.root_path input)
           (UpdatePipelineInput.catalog input)
           (UpdatePipelineInput.schema input)
           (UpdatePipelineInput.workspace_notebook_paths input)
           (UpdatePipelineInput.serverless input);
     mret (success_envelope
             ("✅ Pipeline configuration updated successfully!" ++ nl ++ nl ++
              "Pipeline ID: " ++ UpdatePipelineInput.pipeline_id input)))
    (λ errs, mret (MCPValidationError.to_mcp_response errs))
    (λ e, mret (error_envelope ("❌ Error updating pipeline: " ++ str e))).

Definition delete_pipeline_tool (arguments : gmap string pyval)
    : Py (gmap string pyval) :=
  try_except
    (input ← lift (construct (DeletePipelineInput.validate arguments));
     _ ← pipelines.delete_pipeline w (DeletePipelineInput.pipeline_id input);
     mret (success_envelope
             ("✅ Pipeline deleted successfully!" ++ nl ++ nl ++
              "Pipeline ID: " ++ DeletePipelineInput.pipeline_id input)))
    (λ errs, mret (MCPValidationError.to_mcp_response errs))
    (λ e, mret (error_envelope ("❌ Error deleting pipeline: " ++ str e))).

Definition start_pipeline_update_tool (arguments : gmap string pyval)
    : Py (gmap string pyval) :=
  try_except
    (input ← lift (construct (StartPipelineUpdateInput.validate arguments));
     update_id ← pipelines.start_update w
                   (StartPipelineUpdateInput.pipeline_id input)
                   (StartPipelineUpdateInput.refresh_selection input)
                   (StartPipelineUpdateInput.full_refresh input)
                   (StartPipelineUpdateInput.full_refresh_selection input)
                   false;
     mret (success_envelope
             ("✅ Pipeline update started!" ++ nl ++ nl ++
              "Pipeline ID: " ++ StartPipelineUpdateInput.pipeline_id input ++ nl ++
              "Update ID: " ++ update_id ++ nl ++
              "Full Refresh: " ++
                str_of_bool (StartPipelineUpdateInput.full_refresh input) ++ nl ++ nl ++
              "Use get_pipeline_update_status to poll.")))
    (λ errs, mret (MCPValidationError.to_mcp_response errs))
    (λ e, mret (error_envelope ("❌ Error starting update: " ++ str e))).

Definition validate_pipeline_tool (arguments : gmap string pyval)
    : Py (gmap string pyval) :=
  try_except
    (input ← lift (construct (ValidatePipelineInput.validate arguments));
     update_id ← pipelines.start_update w
                   (ValidatePipelineInput.pipeline_id input)
                   (ValidatePipelineInput.refresh_selection input)
                   (ValidatePipelineInput.full_refresh input)
                   (ValidatePipelineInput.full_refresh_selection input)
                   true;
     mret (success_envelope
             ("✅ Pipeline validation started (dry-run mode)!" ++ nl ++ nl ++
              "Pipeline ID: " ++ ValidatePipelineInput.pipeline_id input ++ nl ++
              "Update ID: " ++ update_id ++ nl ++ nl ++
              "Use get_pipeline_update_status to check results.")))
    (λ errs, mret (MCPValidationError.to_mcp_response errs))
    (λ e, mret (error_envelope ("❌ Error starting validation: " ++ str e))).

(** The [emoji] dictionary lookup, [{...}.get(state, "❓")]. *)
Definition state_emoji (state : string) : string :=
  default "❓"
    (({[ "QUEUED" := "⏳"; "RUNNING" := "🔄"; "COMPLETED" := "✅";
         "FAILED" := "❌"; "CANCELED" := "🚫" ]} : gmap string string) !! state).

Definition get_pipeline_update_status_tool (arguments : gmap string pyval)
    : Py (gmap string pyval) :=
  try_except
    (input ← lift (construct (GetPipelineUpdateStatusInput.validate arguments));
     result ← pipelines.get_update w
                (GetPipelineUpdateStatusInput.pipeline_id input)
                (GetPipelineUpdateStatusInput.update_id input);
     let state :=
       match gur_update result with
       | Some update => ui_state update
       | None => "unknown"
       end in
     let emoji := state_emoji state in
     mret (success_envelope
             (emoji ++ " Pipeline Update Status" ++ nl ++ nl ++
              "State: " ++ state ++ nl ++
              "Pipeline ID: " ++ GetPipelineUpdateStatusInput.pipeline_id input ++ nl ++
              "Update ID: " ++ GetPipelineUpdateStatusInput.update_id input ++ nl ++ nl ++
              "Full status:" ++ nl ++ json_dumps (gur_as_dict result))))
    (λ errs, mret (MCPValidationError.to_mcp_response errs))
    (λ e, mret (error_envelope ("❌ Error getting update status: " ++ str e))).

Definition stop_pipeline_tool (arguments : gmap string pyval)
    : Py (gmap string pyval) :=
  try_except
    (input ← lift (construct (StopPipelineInput.validate arguments));
     _ ← pipelines.stop_pipeline w (StopPipelineInput.pipeline_id input);
     mret (success_envelope
             ("✅ Pipeline stop request sent!" ++ nl ++ nl ++
              "Pipeline ID: " ++ StopPipelineInput.pipeline_id input)))
    (λ errs, mret (MCPValidationError.to_mcp_response errs))
    (λ e, mret (error_envelope ("❌ Error stopping pipeline: " ++ str e))).

(** [e.event_type and e.event_type.endswith("_failed")] *)
Definition is_error_event (e : PipelineEvent) : bool :=
  truthy (event_type e) &&
  from_option (λ t, endswith t "_failed") false (event_type e).

(** [sum(1 for e in events if ...)] *)
Definition error_count (events : list PipelineEvent) : nat :=
  list_sum ((λ _, 1%nat) <$> List.filter is_error_event events).

Definition get_pipeline_events_tool (arguments : gmap string pyval)
    : Py (gmap string pyval) :=
  try_except
    (input ← lift (construct (GetPipelineEventsInput.validate int_of_str arguments));
     events ← pipelines.get_pipeline_events w
                (GetPipelineEventsInput.pipeline_id input)
                (GetPipelineEventsInput.max_results input);
     let event_count := List.length events in
     let error_count := error_count events in
     let events_dict := pe_as_dict <$> events in
     mret (success_envelope
             ("📋 Pipeline Events" ++ nl ++ nl ++
              "Pipeline ID: " ++ GetPipelineEventsInput.pipeline_id input ++ nl ++
              "Total Events: " ++ str_of_nat event_count ++ nl ++
              "Error Events: " ++ str_of_nat error_count ++ nl ++ nl ++
              "Events:" ++ nl ++ json_dumps (VList events_dict))))
    (λ errs, mret (MCPValidationError.to_mcp_response errs))
    (λ e, mret (error_envelope ("❌ Error getting pipeline events: " ++ str e))).

(** *** [tools/unity_catalog.py] *)

Definition get_schema_tool (arguments : gmap string pyval)
    : Py (gmap string pyval) :=
  try_except_Exception
    (let full_schema_name := default VNone (arguments !! "full_schema_name") in
     schema ← remote_call (CallGetSchema full_schema_name)
                (schemas_get_schema w full_schema_name);
     let output := "📁 Schema: " ++ si_name schema ++ nl in
     let output := output ++ "   Full Name: " ++ si_full_name schema ++ nl in
     let output := output ++ "   Catalog: " ++ si_catalog_name schema ++ nl in
     let output := output ++ "   Owner: " ++ si_owner schema ++ nl in
     let output :=
       output ++ "   Comment: " ++
       (if truthy (si_comment schema) then default "" (si_comment schema) else "N/A")
       ++ nl in
     let output :=
       if truthy (si_created_at schema)
       then output ++ "   Created: " ++ str_of_Z (default 0 (si_created_at schema)) ++ nl
       else output in
     let output :=
       if truthy (si_updated_at schema)
       then output ++ "   Updated: " ++ str_of_Z (default 0 (si_updated_at schema)) ++ nl
       else output in
     let output :=
       if truthy (si_storage_location schema)
       then output ++ "   Storage Location: " ++
            default "" (si_storage_location schema) ++ nl
       else output in
     mret (success_envelope output))
    (λ e, mret (error_envelope ("Error: " ++ str e))).

(** *** [tools/compute.py] *)

Definition execute_command_with_context_tool
    : gmap string pyval → Py (gmap string pyval) :=
  validate_input ExecuteCommandWithContextInput.validate (λ input,
    try_except_Exception
      (let cluster_id := ExecuteCommandWithContextInput.cluster_id input in
       let context_id := ExecuteCommandWithContextInput.context_id input in
       let code := ExecuteCommandWithContextInput.code input in
       result ← remote_call (CallExecuteWithContext cluster_id context_id code)
                  (execution_execute_command_with_context w cluster_id context_id code);
       if er_success result
       then mret (success_envelope (er_output result))
       else mret (error_envelope ("Error: " ++ er_error result)))
      (λ e, mret (error_envelope ("Error: " ++ str e)))).

Definition destroy_context_tool
    : gmap string pyval → Py (gmap string pyval) :=
  validate_input DestroyContextInput.validate (λ input,
    try_except_Exception
      (let cluster_id := DestroyContextInput.cluster_id input in
       let context_id := DestroyContextInput.context_id input in
       _ ← remote_call (CallDestroyContext cluster_id context_id)
             (execution_destroy_context w cluster_id context_id);
       mret (success_envelope
               ("Context " ++ context_id ++ " destroyed successfully!")))
      (λ e, mret (error_envelope ("Error destroying context: " ++ str e)))).

Definition databricks_command_tool
    : gmap string pyval → Py (gmap string pyval) :=
  validate_input (DatabricksCommandInput.validate int_of_str) (λ input,
    try_except_Exception
      (let cluster_id := DatabricksCommandInput.cluster_id input in
       let language := DatabricksCommandInput.language input in
       let code := DatabricksCommandInput.code input in
       let timeout := DatabricksCommandInput.timeout input in
       result ← remote_call
                  (CallExecuteDatabricksCommand cluster_id language code timeout)
                  (execution_execute_databricks_command w cluster_id language code timeout);
       if er_success result
       then mret (success_envelope (er_output result))
       else mret (error_envelope ("Error: " ++ er_error result)))
      (λ e, mret (error_envelope ("Error: " ++ str e)))).

End Tools.

(** ** Reading an envelope *)

(** The [isError] flag: set when the key is present and true. *)
Definition isError (env : gmap string pyval) : bool :=
  match env !! "isError" with
  | Some (VBool true) => true
  | _ => false
  end.

Definition is_text_content (v : pyval) : Prop :=
  ∃ text, v = text_content text.

(** The envelope shape [{content: [{type: "text", text}], isError?: true}]. *)
Definition well_formed (env : gmap string pyval) : Prop :=
  (∃ segments, env !! "content" = Some (VList segments) ∧
               Forall is_text_content segments) ∧
  (env !! "isError" = None ∨ env !! "isError" = Some (VBool true)) ∧
  dom env ⊆ {[ "content"; "isError" ]}.

Definition raised {A} (o : outcome A) : bool :=
  match o with Raised _ => true | Returned _ => false end.

(** An execution that raised, or that came back with [success] false. *)
Definition unsuccessful (o : outcome ExecutionResult) : bool :=
  match o with Raised _ => true | Returned r => negb (er_success r) end.

(** Whether the collaborator failed the request [c]. *)
Definition call_failed (w : Remote) (c : Call) : bool :=
  match c with
  | CallPipelinesCreate a => raised (pipelines_create w a)
  | CallPipelinesGet p => raised (pipelines_get w p)
  | CallPipelinesUpdate kwargs => raised (pipelines_update w kwargs)
  | CallPipelinesDelete p => raised (pipelines_delete w p)
  | CallPipelinesStop p => raised (pipelines_stop w p)
  | CallPipelinesStartUpdate a => raised (pipelines_start_update w a)
  | CallPipelinesGetUpdate p u => raised (pipelines_get_update w p u)
  | CallPipelinesListEvents p n => raised (pipelines_list_pipeline_events w p n)
  | CallGetSchema n => raised (schemas_get_schema w n)
  | CallExecuteWithContext cl cx code =>
      unsuccessful (execution_execute_command_with_context w cl cx code)
  | CallDestroyContext cl cx => raised (execution_destroy_context w cl cx)
  | CallExecuteDatabricksCommand cl lang code t =>
      unsuccessful (execution_execute_databricks_command w cl lang code t)
  end.

Definition rejected {I} (r : validated I) : bool :=
  match r with inl _ => true | inr _ => false end.

(** What every handler owes its caller: it returns (never raises) a
    well-formed envelope, flagged as an error exactly when validation
    rejected the arguments or the collaborator failed a request; rejected
    arguments give the itemized validation envelope and reach no
    collaborator. *)
Definition envelope_contract {I} (w : Remote)
    (model : gmap string pyval → validated I)
    (handler : gmap string pyval → Py (gmap string pyval)) : Prop :=
  ∀ arguments log, ∃ env calls,
    handler arguments log = (Returned env, (log ++ calls)%list) ∧
    well_formed env ∧
    (isError env = true ↔
       rejected (model arguments) = true ∨ Exists (λ c, call_failed w c = true) calls) ∧
    (∀ errs, model arguments = inl errs →
       env = MCPValidationError.to_mcp_response errs ∧ calls = []).

(** A handler that validates nothing. *)
Definition no_model (arguments : gmap string pyval) : validated unit := inr tt.

(** An event whose [event_type] ends with the literal suffix [_failed]. *)
Definition ends_with_failed (e : PipelineEvent) : Prop :=
  ∃ prefix, event_type e = Some (prefix ++ "_failed").

(** ** Stub collaborators and sample data *)

Module Stub.

(** A platform that accepts every request.  The update id it hands out
    tells a dry run from a normal run, and its status payload reports
    the [validate_only] flag of the update. *)
Definition accepting : Remote := {|
  pipelines_create := λ _, Returned (mkCreatePipelineResponse "p-1");
  pipelines_get := λ _,
    Returned (mkGetPipelineResponse (Some "daily") (Some "IDLE")
                (Some (mkPipelineSpec (Some "main.sales"))) (VDict ∅));
  pipelines_update := λ _, Returned tt;
  pipelines_delete := λ _, Returned tt;
  pipelines_stop := λ _, Returned tt;
  pipelines_start_update := λ a,
    Returned (mkStartUpdateResponse (if su_validate_only a then "u-dry" else "u-run"));
  pipelines_get_update := λ _ update_id,
    Returned (mkGetUpdateResponse (Some (mkUpdateInfo "COMPLETED"))
                (VDict {[ "validate_only" := VBool (String.eqb update_id "u-dry") ]}));
  pipelines_list_pipeline_events := λ _ _,
    Returned [ mkPipelineEvent (Some "flow_failed") (VDict ∅);
               mkPipelineEvent (Some "flow_progress") (VDict ∅);
               mkPipelineEvent (Some "update_failed") (VDict ∅) ];
  schemas_get_schema := λ _, Raised (OtherException "schema not found");
  execution_execute_command_with_context := λ _ _ _,
    Returned (mkExecutionResult false "" "division by zero");
  execution_destroy_context := λ _ _, Returned tt;
  execution_execute_databricks_command := λ _ _ _ _,
    Returned (mkExecutionResult true "1" "");
|}.

(** A stand-in for the JSON printer. *)
Definition json_dumps (v : pyval) : string :=
  match v with
  | VDict d =>
      match d !! "validate_only" with
      | Some (VBool true) => "{validate_only: true}"
      | Some (VBool false) => "{validate_only: false}"
      | _ => "{}"
      end
  | VList _ => "[...]"
  | _ => "null"
  end.
Definition int_of_str (s : string) : option Z := None.
Definition str_of_ValidationError (errs : list ErrorDetails) : string :=
  str_of_nat (List.length errs) ++ " validation errors".

Definition three_events : list PipelineEvent :=
  [ mkPipelineEvent (Some "flow_failed") (VDict ∅);
    mkPipelineEvent (Some "flow_progress") (VDict ∅);
    mkPipelineEvent (Some "update_failed") (VDict ∅) ].

(** A creation request that also asks for continuous mode. *)
Definition create_arguments : gmap string pyval :=
  {[ "name" := VStr "daily"; "root_path" := VStr "dbfs:/pipelines/daily";
     "catalog" := VStr "main"; "schema" := VStr "sales";
     "workspace_notebook_paths" := VList [VStr "/Workspace/etl.py"];
     "continuous" := VBool true ]}.

Definition create_input : CreatePipelineInput.t :=
  CreatePipelineInput.mk "daily" "dbfs:/pipelines/daily" "main" "sales"
    ["/Workspace/etl.py"] true.

Definition start_arguments : gmap string pyval :=
  {[ "pipeline_id" := VStr "pid" ]}.


(** An EXTERNAL table with no storage location. *)
Definition external_table_without_storage : gmap string pyval :=
  {[ "catalog_name" := VStr "main"; "schema_name" := VStr "sales";
     "table_name" := VStr "orders";
     "columns" := VList [ VDict {[ "name" := VStr "id"; "type_name" := VStr "INT" ]} ];
     "table_type" := VStr "EXTERNAL" ]}.

Definition status_arguments (update_id : string) : gmap string pyval :=
  {[ "pipeline_id" := VStr "pid"; "update_id" := VStr update_id ]}.

(** A dry run with full refresh, then a status poll of that update. *)
Definition dry_run_then_poll : Py (gmap string pyval) :=
  _ ← validate_pipeline_tool accepting str_of_ValidationError
        {[ "pipeline_id" := VStr "pid"; "full_refresh" := VBool true ]};
  get_pipeline_update_status_tool accepting json_dumps str_of_ValidationError
    (status_arguments "u-dry").

(** The same as a normal run. *)
Definition normal_run_then_poll : Py (gmap string pyval) :=
  _ ← start_pipeline_update_tool accepting str_of_ValidationError
        {[ "pipeline_id" := VStr "pid"; "full_refresh" := VBool true ]};
  get_pipeline_update_status_tool accepting json_dumps str_of_ValidationError
    (status_arguments "u-run").

(** An EXTERNAL table whose storage location is the given value. *)
Definition external_table (storage_location : pyval) : gmap string pyval :=
  {[ "catalog_name" := VStr "main"; "schema_name" := VStr "sales";
     "table_name" := VStr "orders";
     "columns" := VList [ VDict {[ "name" := VStr "id"; "type_name" := VStr "INT" ]} ];
     "table_type" := VStr "EXTERNAL";
     "storage_location" := storage_location ]}.

End Stub.

(** ** Stripped strings *)

(** A string that neither starts nor ends with a whitespace character. *)
Definition stripped (s : string) : Prop :=
  ∀ ws rest, is_white_space ws = true → s ≠ ws ++ rest ∧ s ≠ rest ++ ws.

(** The states that the status handler has an emoji for. *)
Definition known_states : list string :=
  ["QUEUED"; "RUNNING"; "COMPLETED"; "FAILED"; "CANCELED"].

(** The line of the validation envelope for one error. *)
Definition error_line (error : ErrorDetails) : string :=
  "  - " ++ join "." (str_of_locitem <$> loc error) ++ ": " ++ msg error ++
  " (type: " ++ type error ++ ")".

(** The text segment of an envelope with one segment. *)
Definition envelope_text (env : gmap string pyval) : option string :=
  match env !! "content" with
  | Some (VList [VDict d]) =>
      match d !! "text" with
      | Some (VStr t) => Some t
      | _ => None
      end
  | _ => None
  end.

(** The field names of the pipeline update contract. *)
Definition UpdatePipelineInput_fields : list string :=
  ["pipeline_id"; "name"; "root_path"; "catalog"; "schema";
   "workspace_notebook_paths"; "serverless"].

(** The exception with which the collaborator answers the request [c],
    if it raises. *)
Definition exception_of {A} (o : outcome A) : option exn :=
  match o with Raised e => Some e | Returned _ => None end.

Definition raised_exn (w : Remote) (c : Call) : option exn :=
  match c with
  | CallPipelinesCreate a => exception_of (pipelines_create w a)
  | CallPipelinesGet p => exception_of (pipelines_get w p)
  | CallPipelinesUpdate kwargs => exception_of (pipelines_update w kwargs)
  | CallPipelinesDelete p => exception_of (pipelines_delete w p)
  | CallPipelinesStop p => exception_of (pipelines_stop w p)
  | CallPipelinesStartUpdate a => exception_of (pipelines_start_update w a)
  | CallPipelinesGetUpdate p u => exception_of (pipelines_get_update w p u)
  | CallPipelinesListEvents p n => exception_of (pipelines_list_pipeline_events w p n)
  | CallGetSchema n => exception_of (schemas_get_schema w n)
  | CallExecuteWithContext cl cx code =>
      exception_of (execution_execute_command_with_context w cl cx code)
  | CallDestroyContext cl cx => exception_of (execution_destroy_context w cl cx)
  | CallExecuteDatabricksCommand cl lang code t =>
      exception_of (execution_execute_databricks_command w cl lang code t)
  end.

(** A handler that, when the one request it made was answered by an
    exception [e], returns the envelope [report e]. *)
Definition reports_exceptions (w : Remote)
    (handler : gmap string pyval → Py (gmap string pyval))
    (report : exn → gmap string pyval) : Prop :=
  ∀ arguments log c e,
    (handler arguments log).2 = (log ++ [c])%list →
    raised_exn w c = Some e →
    (handler arguments log).1 = Returned (report e).

(** The two [except] clauses of a pipeline handler, and the single one of
    the other handlers. *)
Definition two_clauses (prefix : string) (e : exn) : gmap string pyval :=
  match e with
  | ValidationError errs => MCPValidationError.to_mcp_response errs
  | OtherException m => error_envelope (prefix ++ m)
  end.

Definition one_clause (str_of_ValidationError : list ErrorDetails → string)
    (prefix : string) (e : exn) : gmap string pyval :=
  error_envelope (prefix ++ str_of_exn str_of_ValidationError e).

Module Outage.

(** A platform that fails every request with the same message. *)
Definition unreachable (message : string) : Remote := {|
  pipelines_create := λ _, Raised (OtherException message);
  pipelines_get := λ _, Raised (OtherException message);
  pipelines_update := λ _, Raised (OtherException message);
  pipelines_delete := λ _, Raised (OtherException message);
  pipelines_stop := λ _, Raised (OtherException message);
  pipelines_start_update := λ _, Raised (OtherException message);
  pipelines_get_update := λ _ _, Raised (OtherException message);
  pipelines_list_pipeline_events := λ _ _, Raised (OtherException message);
  schemas_get_schema := λ _, Raised (OtherException message);
  execution_execute_command_with_context := λ _ _ _, Raised (OtherException message);
  execution_destroy_context := λ _ _, Raised (OtherException message);
  execution_execute_databricks_command := λ _ _ _ _, Raised (OtherException message);
|}.

(** A platform whose own data fails a pydantic check on the way. *)
Definition misconfigured (errs : list ErrorDetails) : Remote := {|
  pipelines_create := λ _, Raised (ValidationError errs);
  pipelines_get := λ _, Raised (ValidationError errs);
  pipelines_update := λ _, Raised (ValidationError errs);
  pipelines_delete := λ _, Raised (ValidationError errs);
  pipelines_stop := λ _, Raised (ValidationError errs);
  pipelines_start_update := λ _, Raised (ValidationError errs);
  pipelines_get_update := λ _ _, Raised (ValidationError errs);
  pipelines_list_pipeline_events := λ _ _, Raised (ValidationError errs);
  schemas_get_schema := λ _, Raised (ValidationError errs);
  execution_execute_command_with_context := λ _ _ _, Raised (ValidationError errs);
  execution_destroy_context := λ _ _, Raised (ValidationError errs);
  execution_execute_databricks_command := λ _ _ _ _, Raised (ValidationError errs);
|}.

(** A platform that reports an update state it has no name for yet. *)
Definition with_state (state : string) : Remote := {|
  pipelines_create := λ _, Raised (OtherException "down");
  pipelines_get := λ _, Raised (OtherException "down");
  pipelines_update := λ _, Raised (OtherException "down");
  pipelines_delete := λ _, Raised (OtherException "down");
  pipelines_stop := λ _, Raised (OtherException "down");
  pipelines_start_update := λ _, Raised (OtherException "down");
  pipelines_get_update := λ _ _,
    Returned (mkGetUpdateResponse (Some (mkUpdateInfo state)) (VDict ∅));
  pipelines_list_pipeline_events := λ _ _, Raised (OtherException "down");
  schemas_get_schema := λ _, Raised (OtherException "down");
  execution_execute_command_with_context := λ _ _ _, Raised (OtherException "down");
  execution_destroy_context := λ _ _, Raised (OtherException "down");
  execution_execute_databricks_command := λ _ _ _ _, Raised (OtherException "down");
|}.

Definition pid_arguments : gmap string pyval := {[ "pipeline_id" := VStr "pid" ]}.

Definition events_arguments (max_results : Z) : gmap string pyval :=
  {[ "pipeline_id" := VStr "pid"; "max_results" := VInt max_results ]}.

Definition command_arguments : gmap string pyval :=
  {[ "cluster_id" := VStr "c1"; "code" := VStr "  print(1)  " ]}.

(** The code starts with a no-break space (U+00A0). *)
Definition execute_arguments : gmap string pyval :=
  {[ "cluster_id" := VStr "c1"; "context_id" := VStr "ctx";
     "code" := VStr (bytes [194; 160]%nat ++ " print(1)  ") ]}.

(** The name starts with a no-break space and the schema ends with an
    ideographic space (U+3000). *)
Definition padded_create_arguments : gmap string pyval :=
  {[ "name" := VStr (bytes [194; 160]%nat ++ " daily ");
     "root_path" := VStr "dbfs:/pipelines/daily";
     "catalog" := VStr "main"; "schema" := VStr (" sales" ++ bytes [227; 128; 128]%nat);
     "workspace_notebook_paths" := VList [VStr "/Workspace/a.py "; VStr "/Workspace/b.py"] ]}.

Definition padded_create_input : CreatePipelineInput.t :=
  CreatePipelineInput.mk "daily" "dbfs:/pipelines/daily" "main" "sales"
    ["/Workspace/a.py"; "/Workspace/b.py"] true.

Definition two_errors : list ErrorDetails :=
  [ {| loc := [LField "pipeline_id"]; msg := "Field required"; type := "missing" |};
    {| loc := [LField "columns"; LIndex 0; LField "name"];
       msg := "Input should be a valid string"; type := "string_type" |} ].

End Outage.

(** ** Unity Catalog, workspace files and execution contexts

    The handlers below talk to [databricks_mcp_core.unity_catalog], to
    [databricks_mcp_core.spark_declarative_pipelines.workspace_files] and,
    for [create_context_tool], to [databricks_mcp_core.compute.execution];
    the requests they make are logged apart from the pipeline requests. *)

Inductive TableType : Type := TableType_MANAGED | TableType_EXTERNAL.

(** [table_type_to_sdk]; its last branch, for a value that is neither
    member, cannot be reached from a validated input. *)
Definition table_type_to_sdk (table_type : TableTypeEnum) : TableType :=
  match table_type with
  | MANAGED => TableType_MANAGED
  | EXTERNAL => TableType_EXTERNAL
  end.

Record ColumnInfo : Type := mkColumnInfo {
  ci_name : string;
  ci_type_name : string;
  ci_comment : option string;
}.

Record TableInfo : Type := mkTableInfo {
  ti_name : string;
  ti_full_name : string;
  ti_catalog_name : string;
  ti_schema_name : string;
  ti_table_type : string;
  ti_owner : string;
  ti_comment : option string;
  ti_columns : option (list ColumnInfo);
  ti_created_at : option Z;
  ti_updated_at : option Z;
  ti_storage_location : option string;
}.

Record CatalogInfo : Type := mkCatalogInfo {
  cat_name : string;
  cat_full_name : string;
  cat_owner : string;
  cat_comment : option string;
  cat_created_at : option Z;
  cat_updated_at : option Z;
  cat_storage_location : option string;
}.

Record ObjectInfo : Type := mkObjectInfo {
  oi_path : string;
  oi_object_type : string;
  oi_language : option string;
  oi_size : option Z;
}.

(** The [language] field of [CreateContextInput]: the default stays the
    enumeration member, a supplied value is turned into its string by
    [use_enum_values]. *)
Inductive language_field : Type :=
  | LanguageMember (l : LanguageEnum)
  | LanguageValue (l : LanguageEnum).

Definition language_of (f : language_field) : LanguageEnum :=
  match f with LanguageMember l | LanguageValue l => l end.

Definition LanguageEnum_value (l : LanguageEnum) : string :=
  match l with PYTHON => "python" | SQL => "sql" | SCALA => "scala" | R => "r" end.

Inductive StoreCall : Type :=
  | CallUpdateSchema (full_schema_name : string) (new_name comment owner : option string)
  | CallDeleteSchema (full_schema_name : string)
  | CallCreateTable (catalog_name schema_name table_name : string)
      (columns : list ColumnInfo) (table_type : TableType)
      (comment storage_location : option string)
  | CallWriteFile (path content language : string) (overwrite : bool)
  | CallDeletePath (path : string) (recursive : bool)
  | CallListCatalogs
  | CallGetCatalog (catalog_name : string)
  | CallListSchemas (catalog_name : string)
  | CallCreateSchema (catalog_name schema_name : string) (comment : option string)
  | CallListTables (catalog_name schema_name : string)
  | CallGetTable (full_table_name : pyval)
  | CallDeleteTable (full_table_name : pyval)
  | CallListFiles (path : string)
  | CallGetFileStatus (path : string)
  | CallReadFile (path : string)
  | CallCreateDirectory (path : string)
  | CallCreateContext (cluster_id : string) (language : LanguageEnum).

Record Store : Type := mkStore {
  schemas_update_schema :
    string → option string → option string → option string → outcome SchemaInfo;
  schemas_delete_schema : string → outcome unit;
  tables_create_table :
    string → string → string → list ColumnInfo → TableType →
    option string → option string → outcome TableInfo;
  workspace_files_write_file : string → string → string → bool → outcome unit;
  workspace_files_delete_path : string → bool → outcome unit;
  catalogs_list_catalogs : outcome (list CatalogInfo);
  catalogs_get_catalog : string → outcome CatalogInfo;
  schemas_list_schemas : string → outcome (list SchemaInfo);
  schemas_create_schema : string → string → option string → outcome SchemaInfo;
  tables_list_tables : string → string → outcome (list TableInfo);
  tables_get_table : pyval → outcome TableInfo;
  tables_delete_table : pyval → outcome unit;
  workspace_files_list_files : string → outcome (list ObjectInfo);
  workspace_files_get_file_status : string → outcome ObjectInfo;
  workspace_files_read_file : string → outcome string;
  workspace_files_create_directory : string → outcome unit;
  execution_create_context : string → LanguageEnum → outcome string;
}.

(** A Python computation that logs its requests to the store. *)
Definition PyStore (A : Type) : Type := list StoreCall → outcome A * list StoreCall.

#[global] Instance PyStore_ret : MRet PyStore := λ A a log, (Returned a, log).
#[global] Instance PyStore_bind : MBind PyStore := λ A B f m log,
  match m log with
  | (Returned a, log') => f a log'
  | (Raised e, log') => (Raised e, log')
  end.

Definition store_call {A} (c : StoreCall) (answer : outcome A) : PyStore A :=
  λ log, (answer, (log ++ [c])%list).

Definition store_lift {A} (o : outcome A) : PyStore A := λ log, (o, log).

(** [try: body / except ValidationError as e: ... / except Exception as e: ...] *)
Definition store_try_except {A} (body : PyStore A)
    (on_validation : list ErrorDetails → PyStore A)
    (on_exception : exn → PyStore A) : PyStore A :=
  λ log,
    match body log with
    | (Returned a, log') => (Returned a, log')
    | (Raised (ValidationError errs), log') => on_validation errs log'
    | (Raised e, log') => on_exception e log'
    end.

(** [try: body / except Exception as e: ...] *)
Definition store_try_except_Exception {A} (body : PyStore A)
    (on_exception : exn → PyStore A) : PyStore A :=
  λ log,
    match body log with
    | (Returned a, log') => (Returned a, log')
    | (Raised e, log') => on_exception e log'
    end.

(** [except ValidationError as e: ...] alone. *)
Definition store_try_except_ValidationError {A} (body : PyStore A)
    (on_validation : list ErrorDetails → PyStore A) : PyStore A :=
  λ log,
    match body log with
    | (Raised (ValidationError errs), log') => on_validation errs log'
    | r => r
    end.

(** The decorator [validate_input(model)], for a handler of the store. *)
Definition store_validate_input {I} (model : gmap string pyval → validated I)
    (func : I → PyStore (gmap string pyval)) (arguments : gmap string pyval)
    : PyStore (gmap string pyval) :=
  store_try_except_ValidationError
    (validated_input ← store_lift (construct (model arguments));
     func validated_input)
    (λ errs, mret (MCPValidationError.to_mcp_response errs)).

(** [[f(x) for x in l]], stopping at the first exception. *)
Fixpoint comprehension {A B} (f : A → outcome B) (l : list A) : outcome (list B) :=
  match l with
  | [] => Returned []
  | x :: l' =>
      match f x with
      | Raised e => Raised e
      | Returned y =>
          match comprehension f l' with
          | Raised e => Raised e
          | Returned ys => Returned (y :: ys)
          end
      end
  end.

(** [ColumnModel.to_sdk]; [ColumnTypeName] is the constructor of the SDK
    enumeration, which raises on a value that is not a member. *)
Definition ColumnModel_to_sdk (ColumnTypeName : string → outcome string)
    (self : ColumnModel.t) : outcome ColumnInfo :=
  match ColumnTypeName (ColumnModel.type_name self) with
  | Raised e => Raised e
  | Returned type_name =>
      Returned {| ci_name := ColumnModel.name self;
                  ci_type_name := type_name;
                  ci_comment := ColumnModel.comment self |}
  end.

Module DeleteSchemaInput.
Record t : Type := mk {
  catalog_name : string;
  schema_name : string;
  force : bool;
}.

Definition validate (arguments : gmap string pyval) : validated t :=
  match required "catalog_name" str_validator arguments,
        required "schema_name" str_validator arguments,
        with_default "force" bool_validator false arguments with
  | inr a, inr b, inr c => inr (mk a b c)
  | a, b, c => inl (errors_of a ++ errors_of b ++ errors_of c)%list
  end.
End DeleteSchemaInput.

(** The contracts with one string field. *)
Module GetCatalogInput.
Record t : Type := mk { catalog_name : string }.

Definition validate (arguments : gmap string pyval) : validated t :=
  match required "catalog_name" str_validator arguments with
  | inr a => inr (mk a)
  | inl es => inl es
  end.
End GetCatalogInput.

Module ListSchemasInput.
Record t : Type := mk { catalog_name : string }.

Definition validate (arguments : gmap string pyval) : validated t :=
  match required "catalog_name" str_validator arguments with
  | inr a => inr (mk a)
  | inl es => inl es
  end.
End ListSchemasInput.

Module PathInput.
(** [ListPipelineFilesInput], [GetPipelineFileStatusInput],
    [ReadPipelineFileInput] and [CreatePipelineDirectoryInput] all have the
    one field [path]. *)
Record t : Type := mk { path : string }.

Definition validate (arguments : gmap string pyval) : validated t :=
  match required "path" str_validator arguments with
  | inr a => inr (mk a)
  | inl es => inl es
  end.
End PathInput.

(** [ListCatalogsInput] has no field: every argument mapping is accepted. *)
Module ListCatalogsInput.
Record t : Type := mk { }.

Definition validate (arguments : gmap string pyval) : validated t := inr mk.
End ListCatalogsInput.

Module CreateSchemaInput.
Record t : Type := mk {
  catalog_name : string;
  schema_name : string;
  comment : option string;
}.

Definition validate (arguments : gmap string pyval) : validated t :=
  match required "catalog_name" str_validator arguments,
        required "schema_name" str_validator arguments,
        with_default "comment" (optional str_validator) None arguments with
  | inr a, inr b, inr c => inr (mk a b c)
  | a, b, c => inl (errors_of a ++ errors_of b ++ errors_of c)%list
  end.
End CreateSchemaInput.

Module ListTablesInput.
Record t : Type := mk {
  catalog_name : string;
  schema_name : string;
}.

Definition validate (arguments : gmap string pyval) : validated t :=
  match required "catalog_name" str_validator arguments,
        required "schema_name" str_validator arguments with
  | inr a, inr b => inr (mk a b)
  | a, b => inl (errors_of a ++ errors_of b)%list
  end.
End ListTablesInput.

Module CreateContextInput.
Record t : Type := mk {
  cluster_id : string;
  language : language_field;
}.

Definition language_validator : validator language_field := λ v,
  match LanguageEnum_validator v with
  | inl es => inl es
  | inr l => inr (LanguageValue l)
  end.

Definition validate (arguments : gmap string pyval) : validated t :=
  match required "cluster_id" str_validator arguments,
        with_default "language" language_validator (LanguageMember PYTHON) arguments with
  | inr a, inr b => inr (mk a b)
  | a, b => inl (errors_of a ++ errors_of b)%list
  end.
End CreateContextInput.

Module WritePipelineFileInput.
Record t : Type := mk {
  path : string;
  content : string;
  language : string;
  overwrite : bool;
}.

Definition validate (arguments : gmap string pyval) : validated t :=
  match required "path" str_validator arguments,
        required "content" str_validator arguments,
        with_default "language" str_validator "PYTHON" arguments,
        with_default "overwrite" bool_validator true arguments with
  | inr a, inr b, inr c, inr d => inr (mk a b c d)
  | a, b, c, d =>
      inl (errors_of a ++ errors_of b ++ errors_of c ++ errors_of d)%list
  end.
End WritePipelineFileInput.

Module DeletePipelinePathInput.
Record t : Type := mk {
  path : string;
  recursive : bool;
}.

Definition validate (arguments : gmap string pyval) : validated t :=
  match required "path" str_validator arguments,
        with_default "recursive" bool_validator false arguments with
  | inr a, inr b => inr (mk a b)
  | a, b => inl (errors_of a ++ errors_of b)%list
  end.
End DeletePipelinePathInput.

(** One entry of [get_tool_definitions()]: the name of the tool, and the
    [properties] (name and type) and [required] keys of its
    [inputSchema]. *)
Record ToolDefinition : Type := mkToolDefinition {
  td_name : string;
  td_description : string;
  td_properties : list (string * string);
  td_required : list string;
}.

Definition update_schema_definition : ToolDefinition := {|
  td_name := "update_schema";
  td_description := "Update an existing schema";
  td_properties := [ ("full_schema_name", "string"); ("new_name", "string");
                     ("comment", "string"); ("owner", "string") ];
  td_required := ["full_schema_name"];
|}.

Definition delete_schema_definition : ToolDefinition := {|
  td_name := "delete_schema";
  td_description := "Delete a schema from Unity Catalog";
  td_properties := [ ("full_schema_name", "string") ];
  td_required := ["full_schema_name"];
|}.

(** The error of a required field that the arguments do not hold. *)
Definition missing (name : string) : ErrorDetails :=
  {| loc := [LField name]; msg := "Field required"; type := "missing" |}.

(** An argument mapping that uses only the keys a definition advertises
    and has all those it requires. *)
Definition follows (d : ToolDefinition) (arguments : gmap string pyval) : Prop :=
  dom arguments ⊆ list_to_set (td_properties d).*1 ∧
  Forall (λ k, is_Some (arguments !! k)) (td_required d).

Section StoreTools.

Variable st : Store.
Variable ColumnTypeName : string → outcome string.
Variable str_of_ValidationError : list ErrorDetails → string.

(** Python's formatting of an arbitrary value and of an enumeration
    member inside an f-string. *)
Variable format_value : pyval → string.
Variable format_LanguageEnum : LanguageEnum → string.

#[local] Abbreviation str := (str_of_exn str_of_ValidationError).

Definition list_catalogs_tool (arguments : gmap string pyval)
    : PyStore (gmap string pyval) :=
  store_try_except
    (input ← store_lift (construct (ListCatalogsInput.validate arguments));
     catalog_list ← store_call CallListCatalogs (catalogs_list_catalogs st);
     let output :=
       "Found " ++ str_of_nat (List.length catalog_list) ++ " catalogs:" ++ nl ++ nl in
     let output :=
       foldl (λ output catalog,
                let output := output ++ "📚 " ++ cat_name catalog ++ nl in
                let output :=
                  if truthy (cat_comment catalog)
                  then output ++ "   Comment: " ++ default "" (cat_comment catalog) ++ nl
                  else output in
                let output := output ++ "   Owner: " ++ cat_owner catalog ++ nl in
                if truthy (cat_created_at catalog)
                then output ++ "   Created: " ++
                     str_of_Z (default 0 (cat_created_at catalog)) ++ nl ++ nl
                else output)
             output catalog_list in
     mret (success_envelope output))
    (λ errs, mret (MCPValidationError.to_mcp_response errs))
    (λ e, mret (error_envelope ("Error: " ++ str e))).

Definition get_catalog_tool (arguments : gmap string pyval)
    : PyStore (gmap string pyval) :=
  store_try_except
    (input ← store_lift (construct (GetCatalogInput.validate arguments));
     catalog ← store_call (CallGetCatalog (GetCatalogInput.catalog_name input))
                 (catalogs_get_catalog st (GetCatalogInput.catalog_name input));
     let output := "📚 Catalog: " ++ cat_name catalog ++ nl in
     let output := output ++ "   Full Name: " ++ cat_full_name catalog ++ nl in
     let output := output ++ "   Owner: " ++ cat_owner catalog ++ nl in
     let output :=
       output ++ "   Comment: " ++
       (if truthy (cat_comment catalog) then default "" (cat_comment catalog) else "N/A")
       ++ nl in
     let output :=
       if truthy (cat_created_at catalog)
       then output ++ "   Created: " ++ str_of_Z (default 0 (cat_created_at catalog)) ++ nl
       else output in
     let output :=
       if truthy (cat_updated_at catalog)
       then output ++ "   Updated: " ++ str_of_Z (default 0 (cat_updated_at catalog)) ++ nl
       else output in
     let output :=
       if truthy (cat_storage_location catalog)
       then output ++ "   Storage Location: " ++
            default "" (cat_storage_location catalog) ++ nl
       else output in
     mret (success_envelope output))
    (λ errs, mret (MCPValidationError.to_mcp_response errs))
    (λ e, mret (error_envelope ("Error: " ++ str e))).

Definition list_schemas_tool (arguments : gmap string pyval)
    : PyStore (gmap string pyval) :=
  store_try_except
    (input ← store_lift (construct (ListSchemasInput.validate arguments));
     schema_list ← store_call (CallListSchemas (ListSchemasInput.catalog_name input))
                     (schemas_list_schemas st (ListSchemasInput.catalog_name input));
     let output :=
       "Found " ++ str_of_nat (List.length schema_list) ++ " schemas in '" ++
       ListSchemasInput.catalog_name input ++ "':" ++ nl ++ nl in
     let output :=
       foldl (λ output schema,
                let output := output ++ "📁 " ++ si_name schema ++ nl in
                let output :=
                  if truthy (si_comment schema)
                  then output ++ "   Comment: " ++ default "" (si_comment schema) ++ nl
                  else output in
                let output := output ++ "   Owner: " ++ si_owner schema ++ nl in
                output ++ "   Full Name: " ++ si_full_name schema ++ nl ++ nl)
             output schema_list in
     mret (success_envelope output))
    (λ errs, mret (MCPValidationError.to_mcp_response errs))
    (λ e, mret (error_envelope ("Error: " ++ str e))).

Definition create_schema_tool (arguments : gmap string pyval)
    : PyStore (gmap string pyval) :=
  store_try_except
    (input ← store_lift (construct (CreateSchemaInput.validate arguments));
     schema ← store_call
                (CallCreateSchema (CreateSchemaInput.catalog_name input)
                   (CreateSchemaInput.schema_name input)
                   (CreateSchemaInput.comment input))
                (schemas_create_schema st (CreateSchemaInput.catalog_name input)
                   (CreateSchemaInput.schema_name input)
                   (CreateSchemaInput.comment input));
     let output := "✅ Schema created successfully!" ++ nl ++ nl in
     let output := output ++ "📁 Schema: " ++ si_name schema ++ nl in
     let output := output ++ "   Full Name: " ++ si_full_name schema ++ nl in
     let output := output ++ "   Catalog: " ++ si_catalog_name schema ++ nl in
     let output := output ++ "   Owner: " ++ si_owner schema ++ nl in
     let output :=
       if truthy (si_comment schema)
       then output ++ "   Comment: " ++ default "" (si_comment schema) ++ nl
       else output in
     mret (success_envelope output))
    (λ errs, mret (MCPValidationError.to_mcp_response errs))
    (λ e, mret (error_envelope ("Error creating schema: " ++ str e))).

Definition list_tables_tool (arguments : gmap string pyval)
    : PyStore (gmap string pyval) :=
  store_try_except
    (input ← store_lift (construct (ListTablesInput.validate arguments));
     table_list ← store_call
                    (CallListTables (ListTablesInput.catalog_name input)
                       (ListTablesInput.schema_name input))
                    (tables_list_tables st (ListTablesInput.catalog_name input)
                       (ListTablesInput.schema_name input));
     let output := "Found " ++ str_of_nat (List.length table_list) ++ " tables in " in
     let output :=
       output ++ ListTablesInput.catalog_name input ++ "." ++
       ListTablesInput.schema_name input ++ ":" ++ nl ++ nl in
     let output :=
       foldl (λ output table,
                let output := output ++ "📊 " ++ ti_name table ++ nl in
                let output := output ++ "   Type: " ++ ti_table_type table ++ nl in
                let output :=
                  if truthy (ti_comment table)
                  then output ++ "   Comment: " ++ default "" (ti_comment table) ++ nl
                  else output in
                let output := output ++ "   Owner: " ++ ti_owner table ++ nl in
                output ++ "   Full Name: " ++ ti_full_name table ++ nl ++ nl)
             output table_list in
     mret (success_envelope output))
    (λ errs, mret (MCPValidationError.to_mcp_response errs))
    (λ e, mret (error_envelope ("Error: " ++ str e))).

Definition get_table_tool (arguments : gmap string pyval)
    : PyStore (gmap string pyval) :=
  store_try_except_Exception
    (let full_table_name := default VNone (arguments !! "full_table_name") in
     table ← store_call (CallGetTable full_table_name)
               (tables_get_table st full_table_name);
     let output := "📊 Table: " ++ ti_name table ++ nl in
     let output := output ++ "   Full Name: " ++ ti_full_name table ++ nl in
     let output := output ++ "   Catalog: " ++ ti_catalog_name table ++ nl in
     let output := output ++ "   Schema: " ++ ti_schema_name table ++ nl in
     let output := output ++ "   Type: " ++ ti_table_type table ++ nl in
     let output := output ++ "   Owner: " ++ ti_owner table ++ nl in
     let output :=
       output ++ "   Comment: " ++
       (if truthy (ti_comment table) then default "" (ti_comment table) else "N/A")
       ++ nl in
     let output :=
       if truthy (ti_created_at table)
       then output ++ "   Created: " ++ str_of_Z (default 0 (ti_created_at table)) ++ nl
       else output in
     let output :=
       if truthy (ti_updated_at table)
       then output ++ "   Updated: " ++ str_of_Z (default 0 (ti_updated_at table)) ++ nl
       else output in
     let output :=
       if truthy (ti_storage_location table)
       then output ++ "   Storage Location: " ++
            default "" (ti_storage_location table) ++ nl
       else output in
     let output :=
       if truthy (ti_columns table)
       then
         let output :=
           output ++ nl ++ "   Columns (" ++
           str_of_nat (List.length (default [] (ti_columns table))) ++ "):" ++ nl in
         foldl (λ output col,
                  let output :=
                    output ++ "     - " ++ ci_name col ++ ": " ++ ci_type_name col ++ nl in
                  if truthy (ci_comment col)
                  then output ++ "       " ++ default "" (ci_comment col) ++ nl
                  else output)
               output (default [] (ti_columns table))
       else output in
     mret (success_envelope output))
    (λ e, mret (error_envelope ("Error: " ++ str e))).

Definition delete_table_tool (arguments : gmap string pyval)
    : PyStore (gmap string pyval) :=
  store_try_except_Exception
    (let full_table_name := default VNone (arguments !! "full_table_name") in
     _ ← store_call (CallDeleteTable full_table_name)
           (tables_delete_table st full_table_name);
     let output :=
       "✅ Table '" ++ format_value full_table_name ++ "' deleted successfully!" in
     mret (success_envelope output))
    (λ e, mret (error_envelope ("Error deleting table: " ++ str e))).

Definition list_pipeline_files_tool (arguments : gmap string pyval)
    : PyStore (gmap string pyval) :=
  store_try_except
    (input ← store_lift (construct (PathInput.validate arguments));
     files ← store_call (CallListFiles (PathInput.path input))
               (workspace_files_list_files st (PathInput.path input));
     let file_count := List.length files in
     mret (success_envelope
             ("📁 Files in " ++ PathInput.path input ++ nl ++ nl ++
              "Total: " ++ str_of_nat file_count ++ nl ++ nl ++
              join nl ((λ f, "- " ++ oi_path f ++ " (" ++ oi_object_type f ++ ")")
                       <$> files))))
    (λ errs, mret (MCPValidationError.to_mcp_response errs))
    (λ e, mret (error_envelope ("❌ Error listing files: " ++ str e))).

Definition get_pipeline_file_status_tool (arguments : gmap string pyval)
    : PyStore (gmap string pyval) :=
  store_try_except
    (input ← store_lift (construct (PathInput.validate arguments));
     status ← store_call (CallGetFileStatus (PathInput.path input))
                (workspace_files_get_file_status st (PathInput.path input));
     mret (success_envelope
             ("📄 File Status" ++ nl ++ nl ++
              "Path: " ++ oi_path status ++ nl ++
              "Type: " ++ oi_object_type status ++ nl ++
              "Language: " ++
                (if truthy (oi_language status) then default "" (oi_language status)
                 else "N/A") ++ nl ++
              "Size: " ++
                (if truthy (oi_size status) then str_of_Z (default 0 (oi_size status))
                 else "N/A") ++ " bytes")))
    (λ errs, mret (MCPValidationError.to_mcp_response errs))
    (λ e, mret (error_envelope ("❌ Error getting file status: " ++ str e))).

Definition read_pipeline_file_tool (arguments : gmap string pyval)
    : PyStore (gmap string pyval) :=
  store_try_except
    (input ← store_lift (construct (PathInput.validate arguments));
     content ← store_call (CallReadFile (PathInput.path input))
                 (workspace_files_read_file st (PathInput.path input));
     mret (success_envelope
             ("📄 File: " ++ PathInput.path input ++ nl ++ nl ++
              "```" ++ nl ++ content ++ nl ++ "```")))
    (λ errs, mret (MCPValidationError.to_mcp_response errs))
    (λ e, mret (error_envelope ("❌ Error reading file: " ++ str e))).

Definition create_pipeline_directory_tool (arguments : gmap string pyval)
    : PyStore (gmap string pyval) :=
  store_try_except
    (input ← store_lift (construct (PathInput.validate arguments));
     _ ← store_call (CallCreateDirectory (PathInput.path input))
           (workspace_files_create_directory st (PathInput.path input));
     mret (success_envelope
             ("✅ Directory created successfully!" ++ nl ++ nl ++
              "Path: " ++ PathInput.path input)))
    (λ errs, mret (MCPValidationError.to_mcp_response errs))
    (λ e, mret (error_envelope ("❌ Error creating directory: " ++ str e))).

Definition create_context_tool
    : gmap string pyval → PyStore (gmap string pyval) :=
  store_validate_input CreateContextInput.validate (λ input,
    store_try_except_Exception
      (let cluster_id := CreateContextInput.cluster_id input in
       let language := CreateContextInput.language input in
       context_id ← store_call (CallCreateContext cluster_id (language_of language))
                      (execution_create_context st cluster_id (language_of language));
       mret (success_envelope
               ("Context created successfully!" ++ nl ++ nl ++
                "Context ID: " ++ context_id ++ nl ++
                "Cluster ID: " ++ cluster_id ++ nl ++
                "Language: " ++
                  match language with
                  | LanguageMember l => format_LanguageEnum l
                  | LanguageValue l => LanguageEnum_value l
                  end ++ nl ++ nl ++
                "Use this context_id for subsequent commands.")))
      (λ e, mret (error_envelope ("Error creating context: " ++ str e)))).

Definition update_schema_tool (arguments : gmap string pyval)
    : PyStore (gmap string pyval) :=
  store_try_except
    (input ← store_lift (construct (UpdateSchemaInput.validate arguments));
     let full_schema_name :=
       UpdateSchemaInput.catalog_name input ++ "." ++
       UpdateSchemaInput.schema_name input in
     schema ← store_call
                (CallUpdateSchema full_schema_name
                   (UpdateSchemaInput.new_name input)
                   (UpdateSchemaInput.comment input) None)
                (schemas_update_schema st full_schema_name
                   (UpdateSchemaInput.new_name input)
                   (UpdateSchemaInput.comment input) None);
     let output := "✅ Schema updated successfully!" ++ nl ++ nl in
     let output := output ++ "📁 Schema: " ++ si_name schema ++ nl in
     let output := output ++ "   Full Name: " ++ si_full_name schema ++ nl in
     let output := output ++ "   Owner: " ++ si_owner schema ++ nl in
     mret (success_envelope output))
    (λ errs, mret (MCPValidationError.to_mcp_response errs))
    (λ e, mret (error_envelope ("Error updating schema: " ++ str e))).

Definition delete_schema_tool (arguments : gmap string pyval)
    : PyStore (gmap string pyval) :=
  store_try_except
    (input ← store_lift (construct (DeleteSchemaInput.validate arguments));
     let full_schema_name :=
       DeleteSchemaInput.catalog_name input ++ "." ++
       DeleteSchemaInput.schema_name input in
     _ ← store_call (CallDeleteSchema full_schema_name)
           (schemas_delete_schema st full_schema_name);
     let output := "✅ Schema '" ++ full_schema_name ++ "' deleted successfully!" in
     mret (success_envelope output))
    (λ errs, mret (MCPValidationError.to_mcp_response errs))
    (λ e, mret (error_envelope ("Error deleting schema: " ++ str e))).

Definition create_table_tool (arguments : gmap string pyval)
    : PyStore (gmap string pyval) :=
  store_try_except
    (input ← store_lift (construct (CreateTableInput.validate arguments));
     columns ← store_lift
                 (comprehension (ColumnModel_to_sdk ColumnTypeName)
                    (CreateTableInput.columns input));
     let table_type := table_type_to_sdk (CreateTableInput.table_type input) in
     table ← store_call
               (CallCreateTable
                  (CreateTableInput.catalog_name input)
                  (CreateTableInput.schema_name input)
                  (CreateTableInput.table_name input)
                  columns table_type
                  (CreateTableInput.comment input)
                  (CreateTableInput.storage_location input))
               (tables_create_table st
                  (CreateTableInput.catalog_name input)
                  (CreateTableInput.schema_name input)
                  (CreateTableInput.table_name input)
                  columns table_type
                  (CreateTableInput.comment input)
                  (CreateTableInput.storage_location input));
     let output := "✅ Table created successfully!" ++ nl ++ nl in
     let output := output ++ "📊 Table: " ++ ti_name table ++ nl in
     let output := output ++ "   Full Name: " ++ ti_full_name table ++ nl in
     let output := output ++ "   Catalog: " ++ ti_catalog_name table ++ nl in
     let output := output ++ "   Schema: " ++ ti_schema_name table ++ nl in
     let output := output ++ "   Type: " ++ ti_table_type table ++ nl in
     let output := output ++ "   Owner: " ++ ti_owner table ++ nl in
     let output :=
       if truthy (ti_comment table)
       then output ++ "   Comment: " ++ default "" (ti_comment table) ++ nl
       else output in
     let output :=
       if truthy (ti_columns table)
       then
         let output :=
           output ++ nl ++ "   Columns (" ++
           str_of_nat (List.length (default [] (ti_columns table))) ++ "):" ++ nl in
         foldl (λ output col,
                  output ++ "     - " ++ ci_name col ++ ": " ++ ci_type_name col ++ nl)
               output (default [] (ti_columns table))
       else output in
     mret (success_envelope output))
    (λ errs, mret (MCPValidationError.to_mcp_response errs))
    (λ e, mret (error_envelope ("Error creating table: " ++ str e))).

Definition write_pipeline_file_tool (arguments : gmap string pyval)
    : PyStore (gmap string pyval) :=
  store_try_except
    (input ← store_lift (construct (WritePipelineFileInput.validate arguments));
     _ ← store_call
           (CallWriteFile (WritePipelineFileInput.path input)
              (WritePipelineFileInput.content input)
              (WritePipelineFileInput.language input)
              (WritePipelineFileInput.overwrite input))
           (workspace_files_write_file st (WritePipelineFileInput.path input)
              (WritePipelineFileInput.content input)
              (WritePipelineFileInput.language input)
              (WritePipelineFileInput.overwrite input));
     mret (success_envelope
             ("✅ File written successfully!" ++ nl ++ nl ++
              "Path: " ++ WritePipelineFileInput.path input ++ nl ++
              "Language: " ++ WritePipelineFileInput.language input)))
    (λ errs, mret (MCPValidationError.to_mcp_response errs))
    (λ e, mret (error_envelope ("❌ Error writing file: " ++ str e))).

Definition delete_pipeline_path_tool (arguments : gmap string pyval)
    : PyStore (gmap string pyval) :=
  store_try_except
    (input ← store_lift (construct (DeletePipelinePathInput.validate arguments));
     _ ← store_call
           (CallDeletePath (DeletePipelinePathInput.path input)
              (DeletePipelinePathInput.recursive input))
           (workspace_files_delete_path st (DeletePipelinePathInput.path input)
              (DeletePipelinePathInput.recursive input));
     mret (success_envelope
             ("✅ Path deleted successfully!" ++ nl ++ nl ++
              "Path: " ++ DeletePipelinePathInput.path input)))
    (λ errs, mret (MCPValidationError.to_mcp_response errs))
    (λ e, mret (error_envelope ("❌ Error deleting path: " ++ str e))).

End StoreTools.

(** Whether the store failed the request [c]. *)
Definition store_call_failed (st : Store) (c : StoreCall) : bool :=
  match c with
  | CallUpdateSchema f n c o => raised (schemas_update_schema st f n c o)
  | CallDeleteSchema f => raised (schemas_delete_schema st f)
  | CallCreateTable c s t cols ty com loc =>
      raised (tables_create_table st c s t cols ty com loc)
  | CallWriteFile p content l o => raised (workspace_files_write_file st p content l o)
  | CallDeletePath p r => raised (workspace_files_delete_path st p r)
  | CallListCatalogs => raised (catalogs_list_catalogs st)
  | CallGetCatalog c => raised (catalogs_get_catalog st c)
  | CallListSchemas c => raised (schemas_list_schemas st c)
  | CallCreateSchema c s com => raised (schemas_create_schema st c s com)
  | CallListTables c s => raised (tables_list_tables st c s)
  | CallGetTable f => raised (tables_get_table st f)
  | CallDeleteTable f => raised (tables_delete_table st f)
  | CallListFiles p => raised (workspace_files_list_files st p)
  | CallGetFileStatus p => raised (workspace_files_get_file_status st p)
  | CallReadFile p => raised (workspace_files_read_file st p)
  | CallCreateDirectory p => raised (workspace_files_create_directory st p)
  | CallCreateContext cl l => raised (execution_create_context st cl l)
  end.

(** What an invocation that validated its arguments to [validation] and
    ended in [result] owes its caller.  It returned (it did not raise) a
    well-formed envelope, flagged as an error exactly when validation
    rejected the arguments, or the conversion of the accepted input to the
    SDK's types failed, or the store failed a request; rejected arguments
    give the itemized validation envelope, and neither they nor an input
    that cannot be converted reach the store. *)
Definition meets_contract {I} (st : Store) (validation : validated I)
    (conversion_fails : I → bool) (log : list StoreCall)
    (result : outcome (gmap string pyval) * list StoreCall) : Prop :=
  ∃ env calls,
    result = (Returned env, (log ++ calls)%list) ∧
    well_formed env ∧
    (isError env = true ↔
       rejected validation = true ∨
       (∃ input, validation = inr input ∧ conversion_fails input = true) ∨
       Exists (λ c, store_call_failed st c = true) calls) ∧
    (∀ errs, validation = inl errs →
       env = MCPValidationError.to_mcp_response errs ∧ calls = []) ∧
    (∀ input, validation = inr input → conversion_fails input = true → calls = []).

Definition store_envelope_contract {I} (st : Store)
    (model : gmap string pyval → validated I) (conversion_fails : I → bool)
    (handler : gmap string pyval → PyStore (gmap string pyval)) : Prop :=
  ∀ arguments log,
    meets_contract st (model arguments) conversion_fails log (handler arguments log).

(** A handler that converts nothing between validation and its request. *)
Definition converts_nothing {I} (input : I) : bool := false.

(** [create_table_tool] converts the validated columns with [to_sdk]. *)
Definition columns_conversion_fails (ColumnTypeName : string → outcome string)
    (input : CreateTableInput.t) : bool :=
  raised (comprehension (ColumnModel_to_sdk ColumnTypeName)
            (CreateTableInput.columns input)).

Module Shelf.

(** A store that accepts every request. *)
Definition accepting : Store := {|
  schemas_update_schema := λ full _ _ _,
    Returned (mkSchemaInfo "sales" full "main" "owner" None None None None);
  schemas_delete_schema := λ _, Returned tt;
  tables_create_table := λ c s t cols _ _ _,
    Returned (mkTableInfo t (c ++ "." ++ s ++ "." ++ t) c s "EXTERNAL" "owner" None
                (Some cols) None None None);
  workspace_files_write_file := λ _ _ _ _, Returned tt;
  workspace_files_delete_path := λ _ _, Returned tt;
  catalogs_list_catalogs := Returned [];
  catalogs_get_catalog := λ c,
    Returned (mkCatalogInfo c c "owner" None None None None);
  schemas_list_schemas := λ _, Returned [];
  schemas_create_schema := λ c s comment,
    Returned (mkSchemaInfo s (c ++ "." ++ s) c "owner" comment None None None);
  tables_list_tables := λ _ _, Returned [];
  tables_get_table := λ _,
    Returned (mkTableInfo "orders" "main.sales.orders" "main" "sales" "MANAGED" "owner"
                None None None None None);
  tables_delete_table := λ _, Returned tt;
  workspace_files_list_files := λ _, Returned [];
  workspace_files_get_file_status := λ p, Returned (mkObjectInfo p "FILE" None (Some 0));
  workspace_files_read_file := λ _, Returned "x = 1";
  workspace_files_create_directory := λ _, Returned tt;
  execution_create_context := λ _ _, Returned "ctx-1";
|}.

(** An enumeration of column types with two members. *)
Definition ColumnTypeName (value : string) : outcome string :=
  if bool_decide (value ∈ ["INT"; "STRING"])
  then Returned ("ColumnTypeName." ++ value)
  else Raised (OtherException ("'" ++ value ++ "' is not a valid ColumnTypeName")).

Definition advertised_update : gmap string pyval :=
  {[ "full_schema_name" := VStr "main.sales"; "comment" := VStr "curated" ]}.

Definition schema_arguments : gmap string pyval :=
  {[ "catalog_name" := VStr "main"; "schema_name" := VStr "sales" ]}.

Definition rename_arguments : gmap string pyval :=
  {[ "catalog_name" := VStr "main"; "schema_name" := VStr "sales";
     "new_name" := VStr "orders" ]}.

(** The names padded with a no-break space (U+00A0) and an ideographic
    space (U+3000). *)
Definition padded_rename_arguments : gmap string pyval :=
  {[ "catalog_name" := VStr (bytes [194; 160]%nat ++ "main");
     "schema_name" := VStr ("sales" ++ bytes [227; 128; 128]%nat);
     "new_name" := VStr " orders" ]}.

Definition write_arguments : gmap string pyval :=
  {[ "path" := VStr "/Workspace/etl.py";
     "content" := VStr (bytes [194; 160; 10]%nat ++ "x = 1" ++ bytes [10]%nat) ]}.

Definition bad_column_table : gmap string pyval :=
  {[ "catalog_name" := VStr "main"; "schema_name" := VStr "sales";
     "table_name" := VStr "orders";
     "columns" := VList [ VDict {[ "name" := VStr "id"; "type_name" := VStr "INTEGER" ]} ] ]}.

End Shelf.


(** * Properties *)

(** ** Strings *)

Lemma endswith_nil (suffix : string) :
  endswith "" suffix = String.eqb "" suffix || false.
Proof. reflexivity. Qed.

Lemma endswith_cons (a : ascii) (s suffix : string) :
  endswith (String a s) suffix = String.eqb (String a s) suffix || endswith s suffix.
Proof. reflexivity. Qed.

Lemma endswith_spec (s suffix : string) :
  endswith s suffix = true ↔ ∃ prefix, s = prefix ++ suffix.
Proof.
  induction s as [|a s IH].
  - rewrite endswith_nil, orb_false_r, String.eqb_eq. split.
    + intros <-. by exists "".
    + intros [p Hp]. destruct p; simpl in Hp; [done | discriminate].
  - rewrite endswith_cons, orb_true_iff, String.eqb_eq, IH. split.
    + intros [<- | [p ->]]; [by exists "" | by exists (String a p)].
    + intros [[|b p] Hp]; simpl in Hp; [by left | right].
      injection Hp as -> ->. by exists p.
Qed.

Lemma is_error_event_spec (e : PipelineEvent) :
  is_error_event e = true ↔ ends_with_failed e.
Proof.
  unfold is_error_event, ends_with_failed.
  destruct (event_type e) as [t|]; simpl.
  - rewrite andb_true_iff, endswith_spec. split.
    + intros [_ [p ->]]. by exists p.
    + intros [p [= ->]]. split; [| by exists p].
      destruct p; done.
  - split; [done | by intros [? ?]].
Qed.

#[global] Instance ends_with_failed_dec (e : PipelineEvent) : Decision (ends_with_failed e).
Proof.
  destruct (is_error_event e) eqn:H.
  - left. by apply is_error_event_spec.
  - right. intros H'. apply is_error_event_spec in H'. congruence.
Defined.

Lemma list_sum_ones {A} (l : list A) : list_sum ((λ _, 1%nat) <$> l) = List.length l.
Proof. induction l; simpl; [done | by f_equal]. Qed.

Lemma filter_is_error_event (events : list PipelineEvent) :
  List.filter is_error_event events = filter ends_with_failed events.
Proof.
  induction events as [|e events IH]; [done |].
  rewrite filter_cons. simpl. rewrite IH.
  destruct (is_error_event e) eqn:H; case_decide as H'; try done.
  - destruct H'. by apply is_error_event_spec.
  - apply is_error_event_spec in H'. congruence.
Qed.

Lemma error_count_spec (events : list PipelineEvent) :
  error_count events = List.length (filter ends_with_failed events).
Proof. unfold error_count. by rewrite list_sum_ones, filter_is_error_event. Qed.

(** ** Envelopes *)

Lemma well_formed_success (text : string) : well_formed (success_envelope text).
Proof.
  unfold well_formed, success_envelope. split_and!.
  - exists [text_content text]. split; [by rewrite lookup_singleton_eq |].
    constructor; [by exists text | constructor].
  - left. by rewrite lookup_singleton_ne.
  - rewrite dom_singleton_L. set_solver.
Qed.

Lemma well_formed_error (text : string) : well_formed (error_envelope text).
Proof.
  unfold well_formed, error_envelope. split_and!.
  - exists [text_content text]. split; [by rewrite lookup_insert_eq |].
    constructor; [by exists text | constructor].
  - right. by rewrite lookup_insert_ne, lookup_singleton_eq.
  - rewrite dom_insert_L, dom_singleton_L. set_solver.
Qed.

Lemma isError_success (text : string) : isError (success_envelope text) = false.
Proof. unfold isError, success_envelope. by rewrite lookup_singleton_ne. Qed.

Lemma isError_error (text : string) : isError (error_envelope text) = true.
Proof.
  unfold isError, error_envelope.
  by rewrite lookup_insert_ne, lookup_singleton_eq.
Qed.

Lemma well_formed_to_mcp_response (errs : list ErrorDetails) :
  well_formed (MCPValidationError.to_mcp_response errs).
Proof. apply well_formed_error. Qed.

Lemma isError_to_mcp_response (errs : list ErrorDetails) :
  isError (MCPValidationError.to_mcp_response errs) = true.
Proof. apply isError_error. Qed.

Create HintDb envelope.
#[local] Hint Resolve well_formed_success well_formed_error
  well_formed_to_mcp_response : envelope.

(** The three ways a handler can end, once its remote calls are known. *)
Lemma contract_rejected {I} (w : Remote) (errs : list ErrorDetails) (log : list Call) :
  ∃ env calls,
    (Returned (MCPValidationError.to_mcp_response errs), log)
      = (Returned env, (log ++ calls)%list) ∧
    well_formed env ∧
    (isError env = true ↔
       rejected (inl errs : validated I) = true ∨
       Exists (λ c, call_failed w c = true) calls) ∧
    (∀ errs', (inl errs : validated I) = inl errs' →
       env = MCPValidationError.to_mcp_response errs' ∧ calls = []).
Proof.
  exists (MCPValidationError.to_mcp_response errs), [].
  rewrite app_nil_r. split_and!; auto with envelope.
  - rewrite isError_to_mcp_response. simpl. naive_solver.
  - by intros ? [= ->].
Qed.

Lemma contract_flagged {I} (w : Remote) (i : I) (text : string)
    (c : Call) (log : list Call) :
  call_failed w c = true →
  ∃ env calls,
    (Returned (error_envelope text), (log ++ [c])%list)
      = (Returned env, (log ++ calls)%list) ∧
    well_formed env ∧
    (isError env = true ↔
       rejected (inr i : validated I) = true ∨
       Exists (λ c, call_failed w c = true) calls) ∧
    (∀ errs', (inr i : validated I) = inl errs' →
       env = MCPValidationError.to_mcp_response errs' ∧ calls = []).
Proof.
  intros Hc. exists (error_envelope text), [c].
  split_and!; auto with envelope.
  - rewrite isError_error. split; [| done]. intros _. right. by constructor.
  - by intros ? [=].
Qed.

Lemma contract_success {I} (w : Remote) (i : I) (text : string)
    (c : Call) (log : list Call) :
  call_failed w c = false →
  ∃ env calls,
    (Returned (success_envelope text), (log ++ [c])%list)
      = (Returned env, (log ++ calls)%list) ∧
    well_formed env ∧
    (isError env = true ↔
       rejected (inr i : validated I) = true ∨
       Exists (λ c, call_failed w c = true) calls) ∧
    (∀ errs', (inr i : validated I) = inl errs' →
       env = MCPValidationError.to_mcp_response errs' ∧ calls = []).
Proof.
  intros Hc. exists (success_envelope text), [c].
  split_and!; auto with envelope.
  - rewrite isError_success. split; [done |].
    intros [? | H]; [done |].
    apply Exists_cons in H as [H | H]; [congruence | by apply Exists_nil in H].
  - by intros ? [=].
Qed.

(** Unfolds a handler down to the answer of the collaborator. *)
Ltac run_handler :=
  unfold validate_input;
  unfold try_except, try_except_Exception, try_except_ValidationError,
    pipelines.create_pipeline, pipelines.get_pipeline, pipelines.update_pipeline,
    pipelines.delete_pipeline, pipelines.stop_pipeline, pipelines.start_update,
    pipelines.get_update, pipelines.get_pipeline_events,
    mbind, Py_bind, mret, Py_ret, lift, construct, remote_call;
  cbv beta iota zeta.

(** Settles the contract of a handler whose validation result and
    collaborator answer have been destructed. *)
Ltac use_answer :=
  simpl;
  repeat (match goal with H : ?x = _ |- context [?x] => rewrite H end; simpl);
  done.

Ltac settle_contract :=
  cbv beta iota zeta;
  lazymatch goal with
  | |- ∃ env calls, (Returned (success_envelope _), _) = _ ∧ _ =>
      apply contract_success; use_answer
  | |- ∃ env calls, (Returned (error_envelope _), _) = _ ∧ _ =>
      apply contract_flagged; use_answer
  | |- ∃ env calls,
         (Returned (MCPValidationError.to_mcp_response _), (_ ++ [_])%list) = _ ∧ _ =>
      unfold MCPValidationError.to_mcp_response; apply contract_flagged; use_answer
  | |- ∃ env calls, (Returned (MCPValidationError.to_mcp_response _), _) = _ ∧ _ =>
      apply contract_rejected
  end.

Section Contracts.

Variable w : Remote.
Variable json_dumps : pyval → string.
Variable int_of_str : string → option Z.
Variable str_of_ValidationError : list ErrorDetails → string.

Lemma create_pipeline_tool_contract :
  envelope_contract w CreatePipelineInput.validate
    (create_pipeline_tool w str_of_ValidationError).
Proof.
  intros arguments log. unfold create_pipeline_tool. run_handler.
  destruct (CreatePipelineInput.validate arguments) as [errs|input] eqn:V;
    [settle_contract |].
  match goal with |- context [pipelines_create w ?a] =>
    destruct (pipelines_create w a) as [r|[errs|m]] eqn:A end;
    settle_contract.
Qed.

Lemma get_pipeline_tool_contract :
  envelope_contract w GetPipelineInput.validate
    (get_pipeline_tool w json_dumps str_of_ValidationError).
Proof.
  intros arguments log. unfold get_pipeline_tool. run_handler.
  destruct (GetPipelineInput.validate arguments) as [errs|input] eqn:V;
    [settle_contract |].
  match goal with |- context [pipelines_get w ?a] =>
    destruct (pipelines_get w a) as [r|[errs|m]] eqn:A end;
    settle_contract.
Qed.

Lemma delete_pipeline_tool_contract :
  envelope_contract w DeletePipelineInput.validate
    (delete_pipeline_tool w str_of_ValidationError).
Proof.
  intros arguments log. unfold delete_pipeline_tool. run_handler.
  destruct (DeletePipelineInput.validate arguments) as [errs|input] eqn:V;
    [settle_contract |].
  match goal with |- context [pipelines_delete w ?a] =>
    destruct (pipelines_delete w a) as [r|[errs|m]] eqn:A end;
    settle_contract.
Qed.

Lemma stop_pipeline_tool_contract :
  envelope_contract w StopPipelineInput.validate
    (stop_pipeline_tool w str_of_ValidationError).
Proof.
  intros arguments log. unfold stop_pipeline_tool. run_handler.
  destruct (StopPipelineInput.validate arguments) as [errs|input] eqn:V;
    [settle_contract |].
  match goal with |- context [pipelines_stop w ?a] =>
    destruct (pipelines_stop w a) as [r|[errs|m]] eqn:A end;
    settle_contract.
Qed.

Lemma update_pipeline_config_tool_contract :
  envelope_contract w UpdatePipelineInput.validate
    (update_pipeline_config_tool w str_of_ValidationError).
Proof.
  intros arguments log. unfold update_pipeline_config_tool. run_handler.
  destruct (UpdatePipelineInput.validate arguments) as [errs|input] eqn:V;
    [settle_contract |].
  match goal with |- context [pipelines_update w ?a] =>
    destruct (pipelines_update w a) as [r|[errs|m]] eqn:A end;
    settle_contract.
Qed.

Lemma start_pipeline_update_tool_contract :
  envelope_contract w StartPipelineUpdateInput.validate
    (start_pipeline_update_tool w str_of_ValidationError).
Proof.
  intros arguments log. unfold start_pipeline_update_tool. run_handler.
  destruct (StartPipelineUpdateInput.validate arguments) as [errs|input] eqn:V;
    [settle_contract |].
  match goal with |- context [pipelines_start_update w ?a] =>
    destruct (pipelines_start_update w a) as [r|[errs|m]] eqn:A end;
    settle_contract.
Qed.

Lemma validate_pipeline_tool_contract :
  envelope_contract w ValidatePipelineInput.validate
    (validate_pipeline_tool w str_of_ValidationError).
Proof.
  intros arguments log. unfold validate_pipeline_tool. run_handler.
  destruct (ValidatePipelineInput.validate arguments) as [errs|input] eqn:V;
    [settle_contract |].
  match goal with |- context [pipelines_start_update w ?a] =>
    destruct (pipelines_start_update w a) as [r|[errs|m]] eqn:A end;
    settle_contract.
Qed.

Lemma get_pipeline_update_status_tool_contract :
  envelope_contract w GetPipelineUpdateStatusInput.validate
    (get_pipeline_update_status_tool w json_dumps str_of_ValidationError).
Proof.
  intros arguments log. unfold get_pipeline_update_status_tool. run_handler.
  destruct (GetPipelineUpdateStatusInput.validate arguments) as [errs|input] eqn:V;
    [settle_contract |].
  match goal with |- context [pipelines_get_update w ?a ?b] =>
    destruct (pipelines_get_update w a b) as [r|[errs|m]] eqn:A end;
    settle_contract.
Qed.

Lemma get_pipeline_events_tool_contract :
  envelope_contract w (GetPipelineEventsInput.validate int_of_str)
    (get_pipeline_events_tool w json_dumps int_of_str str_of_ValidationError).
Proof.
  intros arguments log. unfold get_pipeline_events_tool. run_handler.
  destruct (GetPipelineEventsInput.validate int_of_str arguments)
    as [errs|input] eqn:V; [settle_contract |].
  match goal with |- context [pipelines_list_pipeline_events w ?a ?b] =>
    destruct (pipelines_list_pipeline_events w a b) as [r|[errs|m]] eqn:A end;
    settle_contract.
Qed.

Lemma get_schema_tool_contract :
  envelope_contract w no_model (get_schema_tool w str_of_ValidationError).
Proof.
  intros arguments log. unfold get_schema_tool, no_model. run_handler.
  match goal with |- context [schemas_get_schema w ?a] =>
    destruct (schemas_get_schema w a) as [r|e] eqn:A end;
    settle_contract.
Qed.

Lemma execute_command_with_context_tool_contract :
  envelope_contract w ExecuteCommandWithContextInput.validate
    (execute_command_with_context_tool w str_of_ValidationError).
Proof.
  intros arguments log. unfold execute_command_with_context_tool. run_handler.
  destruct (ExecuteCommandWithContextInput.validate arguments)
    as [errs|input] eqn:V; [settle_contract |].
  match goal with |- context [execution_execute_command_with_context w ?a ?b ?c] =>
    destruct (execution_execute_command_with_context w a b c) as [r|e] eqn:A end;
    [destruct (er_success r) eqn:S |]; settle_contract.
Qed.

Lemma destroy_context_tool_contract :
  envelope_contract w DestroyContextInput.validate
    (destroy_context_tool w str_of_ValidationError).
Proof.
  intros arguments log. unfold destroy_context_tool. run_handler.
  destruct (DestroyContextInput.validate arguments) as [errs|input] eqn:V;
    [settle_contract |].
  match goal with |- context [execution_destroy_context w ?a ?b] =>
    destruct (execution_destroy_context w a b) as [r|e] eqn:A end;
    settle_contract.
Qed.

Lemma databricks_command_tool_contract :
  envelope_contract w (DatabricksCommandInput.validate int_of_str)
    (databricks_command_tool w int_of_str str_of_ValidationError).
Proof.
  intros arguments log. unfold databricks_command_tool. run_handler.
  destruct (DatabricksCommandInput.validate int_of_str arguments)
    as [errs|input] eqn:V; [settle_contract |].
  match goal with |- context [execution_execute_databricks_command w ?a ?b ?c ?d] =>
    destruct (execution_execute_databricks_command w a b c d) as [r|e] eqn:A end;
    [destruct (er_success r) eqn:S |]; settle_contract.
Qed.

(** The decorator lets no [ValidationError] of the model escape, and
    adds no failure of its own: when the wrapped function always returns,
    so does the wrapper. *)
Lemma validate_input_returns {I} (model : gmap string pyval → validated I)
    (func : I → Py (gmap string pyval)) :
  (∀ input log, ∃ env log', func input log = (Returned env, log')) →
  ∀ arguments log, ∃ env log',
    validate_input model func arguments log = (Returned env, log').
Proof.
  intros Hfunc arguments log. run_handler.
  destruct (model arguments) as [errs|input]; [by eexists _, _ |].
  destruct (Hfunc input log) as (env & log' & ->). by eexists _, _.
Qed.

End Contracts.

(** ** Event classification (C5) *)

(** C5. For every sequence of pipeline events returned by the platform, the
    events handler reports as total the length of the sequence and as
    error count the number of events whose [event_type] ends with the
    literal suffix [_failed]; for the three events [flow_failed],
    [flow_progress], [update_failed] the total is 3 and the error count
    is 2. *)
Theorem event_classification (w : Remote) (json_dumps : pyval → string)
    (int_of_str : string → option Z)
    (str_of_ValidationError : list ErrorDetails → string)
    (arguments : gmap string pyval) (input : GetPipelineEventsInput.t)
    (events : list PipelineEvent) (log : list Call) :
  GetPipelineEventsInput.validate int_of_str arguments = inr input →
  pipelines_list_pipeline_events w
    (GetPipelineEventsInput.pipeline_id input)
    (GetPipelineEventsInput.max_results input) = Returned events →
  get_pipeline_events_tool w json_dumps int_of_str str_of_ValidationError arguments log
  = (Returned
       (success_envelope
          ("📋 Pipeline Events" ++ nl ++ nl ++
           "Pipeline ID: " ++ GetPipelineEventsInput.pipeline_id input ++ nl ++
           "Total Events: " ++ str_of_nat (List.length events) ++ nl ++
           "Error Events: " ++
             str_of_nat (List.length (filter ends_with_failed events)) ++ nl ++ nl ++
           "Events:" ++ nl ++ json_dumps (VList (pe_as_dict <$> events)))),
     (log ++ [CallPipelinesListEvents
                (GetPipelineEventsInput.pipeline_id input)
                (GetPipelineEventsInput.max_results input)])%list)
  ∧ error_count events = List.length (filter ends_with_failed events)
  ∧ ∀ d1 d2 d3,
      let three := [ mkPipelineEvent (Some "flow_failed") d1;
                     mkPipelineEvent (Some "flow_progress") d2;
                     mkPipelineEvent (Some "update_failed") d3 ] in
      List.length three = 3%nat ∧ error_count three = 2%nat.
Proof.
  intros V A. split_and!.
  - unfold get_pipeline_events_tool. run_handler.
    rewrite V. cbv beta iota zeta. rewrite A. cbv beta iota zeta.
    by rewrite error_count_spec.
  - apply error_count_spec.
  - intros d1 d2 d3. split; reflexivity.
Qed.

Lemma event_classification_witness :
  get_pipeline_events_tool Stub.accepting Stub.json_dumps Stub.int_of_str
    Stub.str_of_ValidationError {[ "pipeline_id" := VStr "pid" ]} []
  = (Returned
       (success_envelope
          ("📋 Pipeline Events" ++ nl ++ nl ++
           "Pipeline ID: pid" ++ nl ++
           "Total Events: 3" ++ nl ++
           "Error Events: 2" ++ nl ++ nl ++
           "Events:" ++ nl ++ "[...]")),
     [CallPipelinesListEvents "pid" 100]).
Proof.
  exact (proj1 (event_classification Stub.accepting Stub.json_dumps Stub.int_of_str
                  Stub.str_of_ValidationError {[ "pipeline_id" := VStr "pid" ]}
                  (GetPipelineEventsInput.mk "pid" 100) Stub.three_events []
                  eq_refl eq_refl)).
Defined.

(** ** Fields that are not supplied *)

Lemma with_default_absent {A} (name : string) (f : validator A) (dflt : A)
    (arguments : gmap string pyval) :
  arguments !! name = None → with_default name f dflt arguments = inr dflt.
Proof. intros H. unfold with_default. by rewrite H. Qed.

Lemma required_insert_ne {A} (name k : string) (f : validator A) (v : pyval)
    (arguments : gmap string pyval) :
  k ≠ name → required name f (<[k := v]> arguments) = required name f arguments.
Proof. intros H. unfold required. by rewrite lookup_insert_ne. Qed.

Lemma with_default_insert_ne {A} (name k : string) (f : validator A) (dflt : A)
    (v : pyval) (arguments : gmap string pyval) :
  k ≠ name →
  with_default name f dflt (<[k := v]> arguments) = with_default name f dflt arguments.
Proof. intros H. unfold with_default. by rewrite lookup_insert_ne. Qed.

(** A key that is not a field of the model is ignored. *)
Lemma CreatePipelineInput_ignores_continuous (v : pyval) (arguments : gmap string pyval) :
  CreatePipelineInput.validate (<["continuous" := v]> arguments)
  = CreatePipelineInput.validate arguments.
Proof.
  unfold CreatePipelineInput.validate.
  by rewrite !required_insert_ne, !with_default_insert_ne.
Qed.

Lemma StartPipelineUpdateInput_ignores_validate_only (v : pyval)
    (arguments : gmap string pyval) :
  StartPipelineUpdateInput.validate (<["validate_only" := v]> arguments)
  = StartPipelineUpdateInput.validate arguments.
Proof.
  unfold StartPipelineUpdateInput.validate.
  by rewrite !required_insert_ne, !with_default_insert_ne.
Qed.

(** The instance holds, field by field, what the field validators gave. *)
Lemma UpdatePipelineInput_validate_inr (arguments : gmap string pyval)
    (input : UpdatePipelineInput.t) :
  UpdatePipelineInput.validate arguments = inr input →
  required "pipeline_id" str_validator arguments
    = inr (UpdatePipelineInput.pipeline_id input) ∧
  with_default "name" (optional str_validator) None arguments
    = inr (UpdatePipelineInput.name input) ∧
  with_default "root_path" (optional str_validator) None arguments
    = inr (UpdatePipelineInput.root_path input) ∧
  with_default "catalog" (optional str_validator) None arguments
    = inr (UpdatePipelineInput.catalog input) ∧
  with_default "schema" (optional str_validator) None arguments
    = inr (UpdatePipelineInput.schema input) ∧
  with_default "workspace_notebook_paths"
    (optional (list_validator str_validator 0)) None arguments
    = inr (UpdatePipelineInput.workspace_notebook_paths input) ∧
  with_default "serverless" (optional bool_validator) None arguments
    = inr (UpdatePipelineInput.serverless input).
Proof.
  unfold UpdatePipelineInput.validate. intros H.
  repeat case_match; simplify_eq. done.
Qed.

Lemma absent_field_is_None {A} (name : string) (f : validator A)
    (arguments : gmap string pyval) (o : option A) :
  with_default name (optional f) None arguments = inr o →
  arguments !! name = None → o = None.
Proof. intros H Habs. rewrite with_default_absent in H by done. by simplify_eq. Qed.

(** ** The [kwargs] of [update_pipeline], key by key *)

Lemma dom_insert_if (c : bool) (k : string) (v : kwval) (m : gmap string kwval)
    (keys : gset string) :
  dom m ⊆ keys → k ∈ keys → dom (if c then <[k := v]> m else m) ⊆ keys.
Proof. destruct c; [rewrite dom_insert_L |]; set_solver. Qed.

Section UpdateKwargs.

Variables (pipeline_id : string) (name root_path catalog schema : option string).
Variables (paths : option (list string)) (serverless : option bool).

Let kwargs : gmap string kwval :=
  pipelines.update_kwargs pipeline_id name root_path catalog schema paths serverless.

Lemma update_kwargs_pipeline_id : kwargs !! "pipeline_id" = Some (KStr pipeline_id).
Proof.
  unfold kwargs, pipelines.update_kwargs.
  repeat case_match; by simplify_map_eq.
Qed.

Lemma update_kwargs_name :
  kwargs !! "name" = if truthy name then Some (KStr (default "" name)) else None.
Proof.
  unfold kwargs, pipelines.update_kwargs.
  repeat case_match; by simplify_map_eq.
Qed.

Lemma update_kwargs_storage :
  kwargs !! "storage"
  = if truthy root_path then Some (KStr (default "" root_path)) else None.
Proof.
  unfold kwargs, pipelines.update_kwargs.
  repeat case_match; by simplify_map_eq.
Qed.

Lemma update_kwargs_target :
  kwargs !! "target"
  = if truthy catalog && truthy schema
    then Some (KStr (default "" catalog ++ "." ++ default "" schema))
    else None.
Proof.
  unfold kwargs, pipelines.update_kwargs.
  repeat case_match; by simplify_map_eq.
Qed.

Lemma update_kwargs_libraries :
  kwargs !! "libraries"
  = if truthy paths
    then Some (KLibraries (pipelines.libraries_of (default [] paths)))
    else None.
Proof.
  unfold kwargs, pipelines.update_kwargs.
  repeat case_match; by simplify_map_eq.
Qed.

Lemma update_kwargs_serverless :
  kwargs !! "serverless"
  = if is_not_None serverless then Some (KBool (default false serverless)) else None.
Proof.
  unfold kwargs, pipelines.update_kwargs.
  repeat case_match; by simplify_map_eq.
Qed.

Lemma update_kwargs_dom :
  dom kwargs ⊆ {[ "pipeline_id"; "name"; "storage"; "target"; "libraries"; "serverless" ]}.
Proof.
  unfold kwargs, pipelines.update_kwargs. cbv zeta.
  repeat (apply dom_insert_if; [| set_solver]).
  rewrite dom_singleton_L. set_solver.
Qed.

End UpdateKwargs.

(** ** Partial update (C1, C2, C10) *)

(** What the update handler does once its arguments are valid: one
    request, carrying the [kwargs] built from the validated fields. *)
Lemma update_pipeline_config_tool_sends (w : Remote)
    (str_of_ValidationError : list ErrorDetails → string)
    (arguments : gmap string pyval) (input : UpdatePipelineInput.t) (log : list Call) :
  UpdatePipelineInput.validate arguments = inr input →
  (update_pipeline_config_tool w str_of_ValidationError arguments log).2
  = (log ++ [CallPipelinesUpdate
               (pipelines.update_kwargs
                  (UpdatePipelineInput.pipeline_id input)
                  (UpdatePipelineInput.name input)
                  (UpdatePipelineInput.root_path input)
                  (UpdatePipelineInput.catalog input)
                  (UpdatePipelineInput.schema input)
                  (UpdatePipelineInput.workspace_notebook_paths input)
                  (UpdatePipelineInput.serverless input))])%list.
Proof.
  intros V. unfold update_pipeline_config_tool. run_handler.
  rewrite V. cbv beta iota zeta.
  match goal with |- context [pipelines_update w ?a] =>
    destruct (pipelines_update w a) as [r|[errs|m]] end; reflexivity.
Qed.

(** C1. Partial-update frame property: the update handler sends one update
    request, and a field that the argument mapping omits is absent from
    it; the request never carries a key beyond [pipeline_id], [name],
    [storage], [target], [libraries] and [serverless].  In particular
    updating only the name sends [pipeline_id] and [name] and nothing
    else. *)
Theorem partial_update_frame (w : Remote)
    (str_of_ValidationError : list ErrorDetails → string)
    (arguments : gmap string pyval) (input : UpdatePipelineInput.t) (log : list Call) :
  UpdatePipelineInput.validate arguments = inr input →
  (∃ kwargs,
     (update_pipeline_config_tool w str_of_ValidationError arguments log).2
       = (log ++ [CallPipelinesUpdate kwargs])%list ∧
     kwargs !! "pipeline_id" = Some (KStr (UpdatePipelineInput.pipeline_id input)) ∧
     (arguments !! "name" = None → kwargs !! "name" = None) ∧
     (arguments !! "root_path" = None → kwargs !! "storage" = None) ∧
     (arguments !! "catalog" = None ∨ arguments !! "schema" = None →
        kwargs !! "target" = None) ∧
     (arguments !! "workspace_notebook_paths" = None → kwargs !! "libraries" = None) ∧
     (arguments !! "serverless" = None → kwargs !! "serverless" = None) ∧
     dom kwargs ⊆
       {[ "pipeline_id"; "name"; "storage"; "target"; "libraries"; "serverless" ]})
  ∧ (update_pipeline_config_tool w str_of_ValidationError
       {[ "pipeline_id" := VStr "pid"; "name" := VStr "new" ]} log).2
    = (log ++ [CallPipelinesUpdate
                 {[ "pipeline_id" := KStr "pid"; "name" := KStr "new" ]}])%list.
Proof.
  intros V. split.
  - eexists. split; [by apply update_pipeline_config_tool_sends |].
    apply UpdatePipelineInput_validate_inr in V
      as (_ & Hname & Hroot & Hcat & Hschema & Hpaths & Hserverless).
    split_and!.
    + apply update_kwargs_pipeline_id.
    + intros H. rewrite update_kwargs_name.
      by rewrite (absent_field_is_None _ _ _ _ Hname H).
    + intros H. rewrite update_kwargs_storage.
      by rewrite (absent_field_is_None _ _ _ _ Hroot H).
    + intros [H | H]; rewrite update_kwargs_target.
      * by rewrite (absent_field_is_None _ _ _ _ Hcat H).
      * rewrite (absent_field_is_None _ _ _ _ Hschema H). by rewrite andb_false_r.
    + intros H. rewrite update_kwargs_libraries.
      by rewrite (absent_field_is_None _ _ _ _ Hpaths H).
    + intros H. rewrite update_kwargs_serverless.
      by rewrite (absent_field_is_None _ _ _ _ Hserverless H).
    + apply update_kwargs_dom.
  - rewrite (update_pipeline_config_tool_sends w _ _
               (UpdatePipelineInput.mk "pid" (Some "new") None None None None None))
      by reflexivity.
    reflexivity.
Qed.

Lemma partial_update_frame_witness :
  (update_pipeline_config_tool Stub.accepting Stub.str_of_ValidationError
     {[ "pipeline_id" := VStr "pid"; "name" := VStr "new" ]} []).2
  = [CallPipelinesUpdate {[ "pipeline_id" := KStr "pid"; "name" := KStr "new" ]}].
Proof.
  exact (proj2 (partial_update_frame Stub.accepting Stub.str_of_ValidationError
                  {[ "pipeline_id" := VStr "pid"; "name" := VStr "new" ]}
                  (UpdatePipelineInput.mk "pid" (Some "new") None None None None None)
                  [] eq_refl)).
Defined.


(** C2, as the code has it.  The composite target is sent exactly when
    both [catalog] and [schema] are supplied and non-empty; supplying only
    one of them is not an error: the request is sent without a target, and
    the call ends as the platform answers that request. *)
Theorem target_needs_catalog_and_schema (w : Remote) (pipeline_id : string)
    (name root_path catalog schema : option string)
    (paths : option (list string)) (serverless : option bool) (log : list Call) :
  let kwargs :=
    pipelines.update_kwargs pipeline_id name root_path catalog schema paths serverless in
  (∀ t, kwargs !! "target" = Some t ↔
        ∃ c s, catalog = Some c ∧ schema = Some s ∧ c ≠ "" ∧ s ≠ "" ∧
               t = KStr (c ++ "." ++ s)) ∧
  (catalog = None ∨ schema = None → kwargs !! "target" = None) ∧
  pipelines.update_pipeline w pipeline_id name root_path catalog schema paths serverless log
    = (pipelines_update w kwargs, (log ++ [CallPipelinesUpdate kwargs])%list).
Proof.
  intros kwargs. split_and!.
  - intros t. unfold kwargs. rewrite update_kwargs_target.
    split.
    + destruct catalog as [[|a c]|], schema as [[|b s]|]; simpl; try done.
      intros [= <-]. by eexists _, _.
    + intros (c & s & -> & -> & Hc & Hs & ->). by destruct c, s.
  - unfold kwargs. rewrite update_kwargs_target.
    intros [-> | ->]; [done | by rewrite andb_false_r].
  - reflexivity.
Qed.

(** C2, as stated, fails: with only [catalog] supplied the update goes
    through, without a target, and the handler reports success. *)
Lemma catalog_alone_is_accepted :
  update_pipeline_config_tool Stub.accepting Stub.str_of_ValidationError
    {[ "pipeline_id" := VStr "pid"; "catalog" := VStr "main" ]} []
  = (Returned
       (success_envelope
          ("✅ Pipeline configuration updated successfully!" ++ nl ++ nl ++
           "Pipeline ID: pid")),
     [CallPipelinesUpdate {[ "pipeline_id" := KStr "pid" ]}])
  ∧ pipelines.update_pipeline Stub.accepting "pid" None None (Some "main") None None None []
    = (Returned tt, [CallPipelinesUpdate {[ "pipeline_id" := KStr "pid" ]}]).
Proof. split; reflexivity. Qed.

(** ** Creation and start of updates (C8, C9) *)

(** C8. For every valid pipeline-creation input the create handler submits
    one create request, in triggered mode: its [continuous] flag is false
    whatever the caller's arguments (a [continuous] key among them changes
    nothing), and its target is the composite string [catalog.schema]. *)
Theorem create_is_triggered (w : Remote)
    (str_of_ValidationError : list ErrorDetails → string)
    (arguments : gmap string pyval) (input : CreatePipelineInput.t) (log : list Call) :
  CreatePipelineInput.validate arguments = inr input →
  (∃ request,
     (create_pipeline_tool w str_of_ValidationError arguments log).2
       = (log ++ [CallPipelinesCreate request])%list ∧
     create_continuous request = false ∧
     create_target request
       = CreatePipelineInput.catalog input ++ "." ++ CreatePipelineInput.schema input) ∧
  (∀ v, create_pipeline_tool w str_of_ValidationError (<["continuous" := v]> arguments) log
        = create_pipeline_tool w str_of_ValidationError arguments log).
Proof.
  intros V. split.
  - unfold create_pipeline_tool. run_handler. rewrite V. cbv beta iota zeta.
    eexists. split.
    + match goal with |- context [pipelines_create w ?a] =>
        destruct (pipelines_create w a) as [r|[errs|m]] end; reflexivity.
    + done.
  - intros v. unfold create_pipeline_tool.
    by rewrite CreatePipelineInput_ignores_continuous.
Qed.

Lemma create_is_triggered_witness :
  ∃ request,
    (create_pipeline_tool Stub.accepting Stub.str_of_ValidationError
       Stub.create_arguments []).2
      = [CallPipelinesCreate request] ∧
    create_continuous request = false ∧
    create_target request = "main.sales".
Proof.
  destruct (create_is_triggered Stub.accepting Stub.str_of_ValidationError
              Stub.create_arguments Stub.create_input []
              ltac:(vm_compute; reflexivity))
    as [(request & Hlog & Hcontinuous & Htarget) _].
  exists request. split_and!; [exact Hlog | exact Hcontinuous | exact Htarget].
Defined.

(** C9. The start-update handler always starts the update with
    [validate_only = False]: a [validate_only] key in the argument mapping
    is ignored as an unknown field, and every start-update request the
    handler makes carries [validate_only = False]. *)
Theorem start_update_is_never_a_dry_run (w : Remote)
    (str_of_ValidationError : list ErrorDetails → string)
    (arguments : gmap string pyval) (log : list Call) :
  (∀ v, start_pipeline_update_tool w str_of_ValidationError
          (<["validate_only" := v]> arguments) log
        = start_pipeline_update_tool w str_of_ValidationError arguments log) ∧
  ∃ calls,
    (start_pipeline_update_tool w str_of_ValidationError arguments log).2
      = (log ++ calls)%list ∧
    Forall (λ c, ∃ request, c = CallPipelinesStartUpdate request ∧
                            su_validate_only request = false) calls ∧
    (rejected (StartPipelineUpdateInput.validate arguments) = false →
     List.length calls = 1%nat).
Proof.
  split.
  - intros v. unfold start_pipeline_update_tool.
    by rewrite StartPipelineUpdateInput_ignores_validate_only.
  - unfold start_pipeline_update_tool. run_handler.
    destruct (StartPipelineUpdateInput.validate arguments) as [errs|input];
      cbv beta iota zeta.
    + exists []. rewrite app_nil_r. by split_and!.
    + eexists [_]. split_and!.
      * match goal with |- context [pipelines_start_update w ?a] =>
          destruct (pipelines_start_update w a) as [r|[errs|m]] end; reflexivity.
      * constructor; [| constructor]. by eexists.
      * done.
Qed.

Lemma start_update_is_never_a_dry_run_witness :
  start_pipeline_update_tool Stub.accepting Stub.str_of_ValidationError
    (<["validate_only" := VBool true]> Stub.start_arguments) []
  = (Returned
       (success_envelope
          ("✅ Pipeline update started!" ++ nl ++ nl ++
           "Pipeline ID: pid" ++ nl ++
           "Update ID: u-run" ++ nl ++
           "Full Refresh: False" ++ nl ++ nl ++
           "Use get_pipeline_update_status to poll.")),
     [CallPipelinesStartUpdate (mkStartUpdateArgs "pid" None false None false)]).
Proof.
  rewrite (proj1 (start_update_is_never_a_dry_run Stub.accepting
                    Stub.str_of_ValidationError Stub.start_arguments [])
             (VBool true)).
  reflexivity.
Defined.

(** ** Dry runs and the status report (C3) *)

Lemma state_emoji_COMPLETED : state_emoji "COMPLETED" = "✅".
Proof. vm_compute. reflexivity. Qed.

(** C3, as the code has it.  The dry-run handler passes
    [validate_only = True] to the start-update request and the
    start-update handler passes [False]; the status handler reports a
    poll that returns [COMPLETED] with one and the same wording,
    "Pipeline Update Status / State: COMPLETED", followed by the ids and
    the platform's payload, whether or not the update was a dry run. *)
Theorem dry_run_flag_and_status_wording (w : Remote) (json_dumps : pyval → string)
    (str_of_ValidationError : list ErrorDetails → string) :
  (∀ arguments input log,
     ValidatePipelineInput.validate arguments = inr input →
     (validate_pipeline_tool w str_of_ValidationError arguments log).2
     = (log ++ [CallPipelinesStartUpdate
                  {| su_pipeline_id := ValidatePipelineInput.pipeline_id input;
                     su_refresh_selection := ValidatePipelineInput.refresh_selection input;
                     su_full_refresh := ValidatePipelineInput.full_refresh input;
                     su_full_refresh_selection :=
                       ValidatePipelineInput.full_refresh_selection input;
                     su_validate_only := true |}])%list) ∧
  (∀ arguments input log,
     StartPipelineUpdateInput.validate arguments = inr input →
     (start_pipeline_update_tool w str_of_ValidationError arguments log).2
     = (log ++ [CallPipelinesStartUpdate
                  {| su_pipeline_id := StartPipelineUpdateInput.pipeline_id input;
                     su_refresh_selection := StartPipelineUpdateInput.refresh_selection input;
                     su_full_refresh := StartPipelineUpdateInput.full_refresh input;
                     su_full_refresh_selection :=
                       StartPipelineUpdateInput.full_refresh_selection input;
                     su_validate_only := false |}])%list) ∧
  (∀ arguments input result update log,
     GetPipelineUpdateStatusInput.validate arguments = inr input →
     pipelines_get_update w
       (GetPipelineUpdateStatusInput.pipeline_id input)
       (GetPipelineUpdateStatusInput.update_id input) = Returned result →
     gur_update result = Some update →
     ui_state update = "COMPLETED" →
     get_pipeline_update_status_tool w json_dumps str_of_ValidationError arguments log
     = (Returned
          (success_envelope
             ("✅ Pipeline Update Status" ++ nl ++ nl ++
              "State: COMPLETED" ++ nl ++
              "Pipeline ID: " ++ GetPipelineUpdateStatusInput.pipeline_id input ++ nl ++
              "Update ID: " ++ GetPipelineUpdateStatusInput.update_id input ++ nl ++ nl ++
              "Full status:" ++ nl ++ json_dumps (gur_as_dict result))),
        (log ++ [CallPipelinesGetUpdate
                   (GetPipelineUpdateStatusInput.pipeline_id input)
                   (GetPipelineUpdateStatusInput.update_id input)])%list)).
Proof.
  split_and!.
  - intros arguments input log V. unfold validate_pipeline_tool. run_handler.
    rewrite V. cbv beta iota zeta.
    match goal with |- context [pipelines_start_update w ?a] =>
      destruct (pipelines_start_update w a) as [r|[errs|m]] end; reflexivity.
  - intros arguments input log V. unfold start_pipeline_update_tool. run_handler.
    rewrite V. cbv beta iota zeta.
    match goal with |- context [pipelines_start_update w ?a] =>
      destruct (pipelines_start_update w a) as [r|[errs|m]] end; reflexivity.
  - intros arguments input result update log V A Hupdate Hstate.
    unfold get_pipeline_update_status_tool. run_handler.
    rewrite V. cbv beta iota zeta. rewrite A. cbv beta iota zeta.
    rewrite Hupdate, Hstate, state_emoji_COMPLETED. reflexivity.
Qed.

Lemma dry_run_flag_and_status_wording_witness :
  get_pipeline_update_status_tool Stub.accepting Stub.json_dumps
    Stub.str_of_ValidationError (Stub.status_arguments "u-dry") []
  = (Returned
       (success_envelope
          ("✅ Pipeline Update Status" ++ nl ++ nl ++
           "State: COMPLETED" ++ nl ++
           "Pipeline ID: pid" ++ nl ++
           "Update ID: u-dry" ++ nl ++ nl ++
           "Full status:" ++ nl ++ "{validate_only: true}")),
     [CallPipelinesGetUpdate "pid" "u-dry"]).
Proof.
  rewrite (proj2 (proj2 (dry_run_flag_and_status_wording Stub.accepting Stub.json_dumps
                           Stub.str_of_ValidationError))
             (Stub.status_arguments "u-dry")
             (GetPipelineUpdateStatusInput.mk "pid" "u-dry")
             (mkGetUpdateResponse (Some (mkUpdateInfo "COMPLETED"))
                (VDict {[ "validate_only" := VBool true ]}))
             (mkUpdateInfo "COMPLETED") []
             ltac:(vm_compute; reflexivity) ltac:(vm_compute; reflexivity)
             eq_refl eq_refl).
  reflexivity.
Defined.

(** C3, as stated, fails: a dry run that completed is reported with the
    wording of any completed update; the report does not say
    "validation passed", and it differs from the report of a normal run
    only in the update id and in the payload returned by the platform. *)
Lemma completed_dry_run_report :
  Stub.dry_run_then_poll []
  = (Returned
       (success_envelope
          ("✅ Pipeline Update Status" ++ nl ++ nl ++
           "State: COMPLETED" ++ nl ++
           "Pipeline ID: pid" ++ nl ++
           "Update ID: u-dry" ++ nl ++ nl ++
           "Full status:" ++ nl ++ "{validate_only: true}")),
     [CallPipelinesStartUpdate (mkStartUpdateArgs "pid" None true None true);
      CallPipelinesGetUpdate "pid" "u-dry"])
  ∧ Stub.normal_run_then_poll []
  = (Returned
       (success_envelope
          ("✅ Pipeline Update Status" ++ nl ++ nl ++
           "State: COMPLETED" ++ nl ++
           "Pipeline ID: pid" ++ nl ++
           "Update ID: u-run" ++ nl ++ nl ++
           "Full status:" ++ nl ++ "{validate_only: false}")),
     [CallPipelinesStartUpdate (mkStartUpdateArgs "pid" None true None false);
      CallPipelinesGetUpdate "pid" "u-run"])
  ∧ contains
      (lower ("✅ Pipeline Update Status" ++ nl ++ nl ++
              "State: COMPLETED" ++ nl ++
              "Pipeline ID: pid" ++ nl ++
              "Update ID: u-dry" ++ nl ++ nl ++
              "Full status:" ++ nl ++ "{validate_only: true}"))
      "validation passed" = false.
Proof. split_and!; vm_compute; reflexivity. Qed.

(** ** Cross-field rules (C6, C7) *)

Lemma with_default_present {A} (name : string) (f : validator A) (dflt : A)
    (arguments : gmap string pyval) (v : pyval) :
  arguments !! name = Some v →
  with_default name f dflt arguments
  = match f v with
    | inl es => inl (at_loc (LField name) <$> es)
    | inr a => inr a
    end.
Proof. intros H. unfold with_default. by rewrite H. Qed.






(** The instance of a table creation holds what the two fields of the
    storage rule validated to. *)
Lemma CreateTableInput_fields_inr (arguments : gmap string pyval)
    (self : CreateTableInput.t) :
  CreateTableInput.fields arguments = inr self →
  with_default "table_type" TableTypeEnum_validator MANAGED arguments
    = inr (CreateTableInput.table_type self) ∧
  with_default "storage_location" (optional str_validator) None arguments
    = inr (CreateTableInput.storage_location self).
Proof.
  unfold CreateTableInput.fields. intros H.
  repeat case_match; simplify_eq. done.
Qed.

(** C7, as the code has it.  For a table-creation input with
    [table_type = EXTERNAL]: validation fails when [storage_location] is
    omitted, null, or empty once stripped; it succeeds and produces the
    instance when [storage_location] is a string that is not empty once
    stripped and the fields validate. *)
Theorem external_table_needs_storage (arguments : gmap string pyval) :
  arguments !! "table_type" = Some (VStr "EXTERNAL") →
  (arguments !! "storage_location" = None ∨
   arguments !! "storage_location" = Some VNone ∨
   (∃ s, arguments !! "storage_location" = Some (VStr s) ∧ strip s = "") →
   ∃ errs, CreateTableInput.validate arguments = inl errs) ∧
  (∀ s self,
     arguments !! "storage_location" = Some (VStr s) →
     strip s ≠ "" →
     CreateTableInput.fields arguments = inr self →
     CreateTableInput.validate arguments = inr self ∧
     CreateTableInput.table_type self = EXTERNAL ∧
     CreateTableInput.storage_location self = Some (strip s)).
Proof.
  intros Htype. split.
  - intros Hloc. unfold CreateTableInput.validate.
    destruct (CreateTableInput.fields arguments) as [es|self] eqn:F; [by eexists |].
    apply CreateTableInput_fields_inr in F as [Ht Hs].
    rewrite (with_default_present _ _ _ _ _ Htype) in Ht. simpl in Ht.
    exists [value_error "storage_location is required for EXTERNAL tables"].
    unfold CreateTableInput.validate_external_storage.
    injection Ht as <-.
    destruct Hloc as [H | [H | (s & H & Hblank)]].
    + rewrite with_default_absent in Hs by done. by injection Hs as <-.
    + rewrite (with_default_present _ _ _ _ _ H) in Hs. by injection Hs as <-.
    + rewrite (with_default_present _ _ _ _ _ H) in Hs. simpl in Hs.
      injection Hs as <-. by rewrite Hblank.
  - intros s self Hloc Hstrip F. unfold CreateTableInput.validate. rewrite F.
    apply CreateTableInput_fields_inr in F as [Ht Hs].
    rewrite (with_default_present _ _ _ _ _ Htype) in Ht. simpl in Ht.
    rewrite (with_default_present _ _ _ _ _ Hloc) in Hs. simpl in Hs.
    injection Ht as Ht. injection Hs as Hs.
    unfold CreateTableInput.validate_external_storage.
    rewrite <- Ht, <- Hs. split_and!; [| done | done].
    simpl. by destruct (strip s).
Qed.

Lemma external_table_needs_storage_witness :
  (∃ errs, CreateTableInput.validate Stub.external_table_without_storage = inl errs) ∧
  ∃ self, CreateTableInput.validate (Stub.external_table (VStr "s3://bucket/orders"))
          = inr self ∧
          CreateTableInput.storage_location self = Some "s3://bucket/orders".
Proof.
  split.
  - apply (external_table_needs_storage Stub.external_table_without_storage
             ltac:(vm_compute; reflexivity)).
    left. vm_compute. reflexivity.
  - destruct (CreateTableInput.fields (Stub.external_table (VStr "s3://bucket/orders")))
      as [es|self] eqn:F; [vm_compute in F; discriminate |].
    exists self.
    destruct (proj2 (external_table_needs_storage
                       (Stub.external_table (VStr "s3://bucket/orders"))
                       ltac:(vm_compute; reflexivity))
                "s3://bucket/orders" self
                ltac:(vm_compute; reflexivity) ltac:(vm_compute; discriminate) F)
      as (Hv & _ & Hs).
    split; [exact Hv | exact Hs].
Defined.

(** C7, as stated, fails: an EXTERNAL table whose [storage_location] is
    present but empty, or blank (spaces, or the no-break space U+00A0
    followed by the ideographic space U+3000), is rejected. *)
Lemma external_table_with_empty_storage :
  CreateTableInput.validate (Stub.external_table (VStr ""))
  = inl [ {| loc := [];
             msg := "Value error, storage_location is required for EXTERNAL tables";
             type := "value_error" |} ]
  ∧ CreateTableInput.validate (Stub.external_table (VStr "   "))
  = inl [ {| loc := [];
             msg := "Value error, storage_location is required for EXTERNAL tables";
             type := "value_error" |} ]
  ∧ CreateTableInput.validate
      (Stub.external_table (VStr (bytes [194; 160; 227; 128; 128]%nat)))
  = inl [ {| loc := [];
             msg := "Value error, storage_location is required for EXTERNAL tables";
             type := "value_error" |} ].
Proof. split_and!; vm_compute; reflexivity. Qed.

(** * Further properties of the handlers *)

(** ** Stripping *)

Lemma string_app_cons (a : ascii) (s t : string) :
  String a s ++ t = String a (s ++ t).
Proof. reflexivity. Qed.

Lemma string_app_nil_r (s : string) : s ++ "" = s.
Proof.
  induction s as [|a s IH]; [done |].
  by rewrite string_app_cons, IH.
Qed.

Lemma string_app_assoc (a b c : string) : (a ++ b) ++ c = a ++ b ++ c.
Proof.
  induction a as [|x a IH]; [done |].
  by rewrite !string_app_cons, IH.
Qed.

(** Splits the hypothesis that [ws] is a whitespace character into its
    twenty-five cases. *)
Ltac white_space_cases H :=
  apply bool_decide_eq_true in H; vm_compute in H;
  repeat (apply elem_of_cons in H as [-> | H]);
  [.. | by apply elem_of_nil in H].

(** Closes a case in which a string that [lstrip] left as it is would
    start with a whitespace character. *)
Ltac no_white_space_prefix :=
  rewrite ?string_app_cons; intros Heq; simplify_eq;
  repeat match goal with
         | E : is_white_space _ = false |- _ => vm_compute in E
         end;
  congruence.

Lemma lstrip_eq (s : string) :
  lstrip s
  = match s with
    | EmptyString => EmptyString
    | String a s1 =>
        if is_white_space (String a EmptyString) then lstrip s1
        else
          match s1 with
          | EmptyString => s
          | String b s2 =>
              if is_white_space (String a (String b EmptyString)) then lstrip s2
              else
                match s2 with
                | EmptyString => s
                | String c s3 =>
                    if is_white_space (String a (String b (String c EmptyString)))
                    then lstrip s3
                    else s
                end
          end
    end.
Proof. by destruct s. Qed.

Lemma lstrip_no_prefix (n : nat) :
  ∀ s ws rest, (String.length s < n)%nat →
               is_white_space ws = true → lstrip s ≠ ws ++ rest.
Proof.
  induction n as [|n IH]; intros s ws rest Hn Hws; [lia |].
  rewrite lstrip_eq.
  destruct s as [|a [|b [|c s3]]]; simpl in Hn.
  - white_space_cases Hws; no_white_space_prefix.
  - destruct (is_white_space (String a "")) eqn:E1;
      [apply IH; [simpl; lia | done] |].
    white_space_cases Hws; no_white_space_prefix.
  - destruct (is_white_space (String a "")) eqn:E1;
      [apply IH; [simpl; lia | done] |].
    destruct (is_white_space (String a (String b ""))) eqn:E2;
      [apply IH; [simpl; lia | done] |].
    white_space_cases Hws; no_white_space_prefix.
  - destruct (is_white_space (String a "")) eqn:E1;
      [apply IH; [simpl; lia | done] |].
    destruct (is_white_space (String a (String b ""))) eqn:E2;
      [apply IH; [simpl; lia | done] |].
    destruct (is_white_space (String a (String b (String c "")))) eqn:E3;
      [apply IH; [simpl; lia | done] |].
    white_space_cases Hws; no_white_space_prefix.
Qed.

Lemma rstrip_cons (a : ascii) (s : string) :
  rstrip (String a s)
  = if is_white_space (String a (rstrip s)) then "" else String a (rstrip s).
Proof. reflexivity. Qed.

Lemma is_white_space_nonempty (ws : string) : is_white_space ws = true → ws ≠ "".
Proof. intros H ->. vm_compute in H. discriminate. Qed.

Lemma rstrip_no_suffix (s ws rest : string) :
  is_white_space ws = true → rstrip s ≠ rest ++ ws.
Proof.
  intros Hws. revert rest. induction s as [|a s IH]; intros rest.
  - simpl. destruct rest; [| done]. intros Heq. simpl in Heq.
    by apply (is_white_space_nonempty ws).
  - rewrite rstrip_cons.
    destruct (is_white_space (String a (rstrip s))) eqn:E.
    + destruct rest; [| done]. intros Heq. simpl in Heq.
      by apply (is_white_space_nonempty ws).
    + destruct rest as [|b rest].
      * intros Heq. change ("" ++ ws) with ws in Heq. congruence.
      * rewrite string_app_cons. intros [= -> Heq]. by apply (IH rest).
Qed.

Lemma rstrip_prefix (s : string) : ∃ removed, s = rstrip s ++ removed.
Proof.
  induction s as [|a s [removed IH]]; [by exists "" |].
  rewrite rstrip_cons.
  destruct (is_white_space (String a (rstrip s))).
  - by eexists.
  - exists removed. by rewrite string_app_cons, <- IH.
Qed.

Lemma strip_stripped (s : string) : stripped (strip s).
Proof.
  intros ws rest Hws. unfold strip. split.
  - intros Heq. destruct (rstrip_prefix (lstrip s)) as [removed Hr].
    rewrite Heq, string_app_assoc in Hr.
    by apply (lstrip_no_prefix (S (String.length s)) s ws (rest ++ removed)) in Hr;
      [| lia |].
  - by apply rstrip_no_suffix.
Qed.

(** The no-break space (U+00A0), the ideographic space (U+3000) and the
    other characters of [white_space] are removed like the space; a letter
    outside ASCII is kept. *)
Lemma strip_unicode_white_space :
  strip (bytes [194; 160]%nat ++ " daily" ++ bytes [227; 128; 128; 10]%nat)
  = "daily" ∧
  strip (bytes [194; 160]%nat) = "" ∧
  strip (bytes [195; 160]%nat ++ " la carte ") = bytes [195; 160]%nat ++ " la carte".
Proof. split_and!; vm_compute; reflexivity. Qed.

Lemma required_str_inr (name : string) (arguments : gmap string pyval) (x : string) :
  required name str_validator arguments = inr x →
  ∃ s, arguments !! name = Some (VStr s) ∧ x = strip s.
Proof.
  unfold required. destruct (arguments !! name) as [[]|]; simpl; try done.
  intros [= <-]. by eexists.
Qed.

Lemma list_items_Forall {A} (f : validator A) (P : A → Prop) (l : list pyval) :
  (∀ v x, f v = inr x → P x) →
  ∀ i, Forall P (list_items f i l).2.
Proof.
  intros Hf. induction l as [|v l IH]; intros i; simpl; [constructor |].
  specialize (IH (S i)). destruct (list_items f (S i) l) as [es xs].
  destruct (f v) as [e|x] eqn:Hv; simpl in *; [done |].
  constructor; [by eapply Hf | done].
Qed.

Lemma list_items_str (l : list pyval) :
  ∀ i xs, list_items str_validator i l = ([], xs) →
          ∃ ss, l = VStr <$> ss ∧ xs = strip <$> ss.
Proof.
  induction l as [|v l IH]; intros i xs; simpl.
  - intros [= <-]. by exists [].
  - destruct (list_items str_validator (S i) l) as [es ys] eqn:Hl.
    destruct v; simpl; try done.
    intros [= -> <-]. destruct (IH _ _ Hl) as (ss & -> & ->).
    by exists (s :: ss).
Qed.

Lemma required_str_list_inr (name : string) (min_length : nat)
    (arguments : gmap string pyval) (xs : list string) :
  required name (list_validator str_validator min_length) arguments = inr xs →
  ∃ ss, arguments !! name = Some (VList (VStr <$> ss)) ∧ xs = strip <$> ss ∧
        (min_length ≤ List.length ss)%nat.
Proof.
  unfold required. destruct (arguments !! name) as [v|]; [| done].
  unfold list_validator. destruct v; try done.
  destruct (list_items str_validator 0 l) as [[|e es] ys] eqn:Hl; [| done].
  destruct (List.length ys <? min_length)%nat eqn:Hlen; [done |].
  intros [= <-]. destruct (list_items_str _ _ _ Hl) as (ss & -> & ->).
  exists ss. split_and!; [done | done |].
  apply Nat.ltb_ge in Hlen. by rewrite length_fmap in Hlen.
Qed.

Lemma CreatePipelineInput_validate_inr (arguments : gmap string pyval)
    (input : CreatePipelineInput.t) :
  CreatePipelineInput.validate arguments = inr input →
  required "name" str_validator arguments = inr (CreatePipelineInput.name input) ∧
  required "root_path" str_validator arguments
    = inr (CreatePipelineInput.root_path input) ∧
  required "catalog" str_validator arguments = inr (CreatePipelineInput.catalog input) ∧
  required "schema" str_validator arguments = inr (CreatePipelineInput.schema input) ∧
  required "workspace_notebook_paths" (list_validator str_validator 1) arguments
    = inr (CreatePipelineInput.workspace_notebook_paths input) ∧
  with_default "serverless" bool_validator true arguments
    = inr (CreatePipelineInput.serverless input).
Proof.
  unfold CreatePipelineInput.validate. intros H.
  repeat case_match; simplify_eq. done.
Qed.

(** X1. Every string of an accepted pipeline-creation input is stripped:
    the name, the root path, the catalog, the schema and each notebook
    path neither start nor end with whitespace, whatever the caller
    sent. *)
Theorem create_input_is_stripped (arguments : gmap string pyval)
    (input : CreatePipelineInput.t) :
  CreatePipelineInput.validate arguments = inr input →
  stripped (CreatePipelineInput.name input) ∧
  stripped (CreatePipelineInput.root_path input) ∧
  stripped (CreatePipelineInput.catalog input) ∧
  stripped (CreatePipelineInput.schema input) ∧
  Forall stripped (CreatePipelineInput.workspace_notebook_paths input).
Proof.
  intros V.
  apply CreatePipelineInput_validate_inr in V as (Hn & Hr & Hc & Hs & Hp & _).
  apply required_str_inr in Hn as (? & _ & ->), Hr as (? & _ & ->),
    Hc as (? & _ & ->), Hs as (? & _ & ->).
  apply required_str_list_inr in Hp as (ss & _ & -> & _).
  split_and!; try apply strip_stripped.
  apply Forall_fmap, Forall_forall. intros s _. apply strip_stripped.
Qed.

Lemma create_input_is_stripped_witness :
  stripped "daily" ∧ stripped "sales" ∧
  Forall stripped ["/Workspace/a.py"; "/Workspace/b.py"].
Proof.
  destruct (create_input_is_stripped Outage.padded_create_arguments
              Outage.padded_create_input ltac:(vm_compute; reflexivity))
    as (Hn & _ & _ & Hs & Hp).
  split_and!; [exact Hn | exact Hs | exact Hp].
Defined.

(** X2. One notebook library per supplied path: for every accepted
    pipeline-creation request the paths are a non-empty list of strings,
    and the create request carries, in the same order, one notebook
    library for each of them, on the stripped path. *)
Theorem create_sends_a_library_per_path (w : Remote)
    (str_of_ValidationError : list ErrorDetails → string)
    (arguments : gmap string pyval) (input : CreatePipelineInput.t) (log : list Call) :
  CreatePipelineInput.validate arguments = inr input →
  ∃ paths request,
    arguments !! "workspace_notebook_paths" = Some (VList (VStr <$> paths)) ∧
    paths ≠ [] ∧
    (create_pipeline_tool w str_of_ValidationError arguments log).2
      = (log ++ [CallPipelinesCreate request])%list ∧
    create_libraries request
      = (λ p, mkPipelineLibrary (Some (mkNotebookLibrary (strip p)))) <$> paths.
Proof.
  intros V.
  pose proof (CreatePipelineInput_validate_inr _ _ V) as (_ & _ & _ & _ & Hp & _).
  apply required_str_list_inr in Hp as (paths & Hargs & Hpaths & Hlen).
  exists paths. eexists. split_and!; [done | by destruct paths; [simpl in Hlen; lia |] | |].
  - unfold create_pipeline_tool. run_handler. rewrite V. cbv beta iota zeta.
    match goal with |- context [pipelines_create w ?a] =>
      destruct (pipelines_create w a) as [r|[errs|m]] end; reflexivity.
  - simpl. unfold pipelines.libraries_of. rewrite Hpaths.
    by rewrite <- list_fmap_compose.
Qed.

Lemma create_sends_a_library_per_path_witness :
  ∃ request,
    (create_pipeline_tool Stub.accepting Stub.str_of_ValidationError
       Outage.padded_create_arguments []).2 = [CallPipelinesCreate request] ∧
    create_libraries request
      = [ mkPipelineLibrary (Some (mkNotebookLibrary "/Workspace/a.py"));
          mkPipelineLibrary (Some (mkNotebookLibrary "/Workspace/b.py")) ].
Proof.
  destruct (create_sends_a_library_per_path Stub.accepting Stub.str_of_ValidationError
              Outage.padded_create_arguments Outage.padded_create_input []
              ltac:(vm_compute; reflexivity))
    as (paths & request & Hargs & _ & Hlog & Hlibs).
  exists request. split; [exact Hlog |].
  rewrite Hlibs.
  assert (VList (VStr <$> paths)
          = VList (VStr <$> ["/Workspace/a.py "; "/Workspace/b.py"])) as Heq.
  { apply (inj Some). rewrite <- Hargs. vm_compute. reflexivity. }
  injection Heq as Heq.
  destruct paths as [|p1 [|p2 [|p3 ps]]]; simpl in Heq; try discriminate.
  injection Heq as -> ->. reflexivity.
Defined.

(** ** Keys that are not fields *)

(** X3. The update handler ignores every key that is not a field of its
    contract: adding such a key, with any value, changes neither the
    envelope nor the request sent. *)
Theorem update_ignores_unknown_keys (w : Remote)
    (str_of_ValidationError : list ErrorDetails → string)
    (arguments : gmap string pyval) (k : string) (v : pyval) (log : list Call) :
  k ∉ UpdatePipelineInput_fields →
  update_pipeline_config_tool w str_of_ValidationError (<[k := v]> arguments) log
  = update_pipeline_config_tool w str_of_ValidationError arguments log.
Proof.
  intros Hk. unfold UpdatePipelineInput_fields in Hk.
  repeat (apply not_elem_of_cons in Hk as [? Hk]).
  unfold update_pipeline_config_tool, UpdatePipelineInput.validate.
  by rewrite !required_insert_ne, !with_default_insert_ne.
Qed.

Lemma update_ignores_unknown_keys_witness :
  update_pipeline_config_tool Stub.accepting Stub.str_of_ValidationError
    (<["owner" := VStr "me"]> Outage.pid_arguments) []
  = update_pipeline_config_tool Stub.accepting Stub.str_of_ValidationError
      Outage.pid_arguments [].
Proof.
  apply (update_ignores_unknown_keys Stub.accepting Stub.str_of_ValidationError
           Outage.pid_arguments "owner" (VStr "me") []).
  apply (bool_decide_unpack _). vm_compute. exact I.
Defined.

(** ** Bounds *)

Lemma int_validator_inr (int_of_str : string → option Z) (ge le : Z) (v : pyval) (z : Z) :
  int_validator int_of_str ge le v = inr z → ge ≤ z ≤ le.
Proof.
  unfold int_validator. intros H.
  repeat case_match; simplify_eq; lia.
Qed.

Lemma int_validator_out_of_range (int_of_str : string → option Z) (ge le n : Z) :
  ¬ (ge ≤ n ≤ le) → rejected (int_validator int_of_str ge le (VInt n)) = true.
Proof. unfold int_validator. intros H. repeat case_match; simplify_eq; try done. lia. Qed.

Lemma rejected_inl {A} (r : validated A) :
  rejected r = true → ∃ errs, r = inl errs.
Proof. destruct r; [by eexists | done]. Qed.

Lemma app_unit_inv {A} (l : list A) (c : A) : l ≠ (l ++ [c])%list.
Proof.
  intros H. apply (f_equal List.length) in H.
  rewrite length_app in H. simpl in H. lia.
Qed.

(** X4. The events handler never asks the platform for fewer than 1 or
    more than 1000 events, and asks for 100 when [max_results] is
    omitted; an integer outside 1..1000 is rejected with a validation
    envelope and no request. *)
Theorem events_max_results_is_bounded (w : Remote) (json_dumps : pyval → string)
    (int_of_str : string → option Z)
    (str_of_ValidationError : list ErrorDetails → string)
    (arguments : gmap string pyval) (log : list Call) :
  (∃ calls,
     (get_pipeline_events_tool w json_dumps int_of_str str_of_ValidationError
        arguments log).2 = (log ++ calls)%list ∧
     Forall (λ c, ∃ p n, c = CallPipelinesListEvents p n ∧ 1 ≤ n ≤ 1000 ∧
                         (arguments !! "max_results" = None → n = 100)) calls) ∧
  (∀ n, arguments !! "max_results" = Some (VInt n) → ¬ (1 ≤ n ≤ 1000) →
        ∃ errs,
          get_pipeline_events_tool w json_dumps int_of_str str_of_ValidationError
            arguments log
          = (Returned (MCPValidationError.to_mcp_response errs), log)).
Proof.
  split.
  - unfold get_pipeline_events_tool. run_handler.
    destruct (GetPipelineEventsInput.validate int_of_str arguments)
      as [errs|input] eqn:V; cbv beta iota zeta.
    + exists []. by rewrite app_nil_r.
    + eexists [_]. split.
      * match goal with |- context [pipelines_list_pipeline_events w ?a ?b] =>
          destruct (pipelines_list_pipeline_events w a b) as [r|[errs|m]] end;
          reflexivity.
      * constructor; [| constructor]. eexists _, _. split; [done |].
        unfold GetPipelineEventsInput.validate in V.
        destruct (required "pipeline_id" str_validator arguments); [done |].
        destruct (with_default "max_results" _ _ arguments) as [|n] eqn:Hm; [done |].
        injection V as <-. simpl. split.
        -- unfold with_default in Hm. destruct (arguments !! "max_results") as [v|].
           ++ destruct (int_validator int_of_str 1 1000 v) eqn:Hv; [done |].
              injection Hm as <-. by apply int_validator_inr in Hv.
           ++ injection Hm as <-. lia.
        -- intros Habs. rewrite with_default_absent in Hm by done. by injection Hm.
  - intros n Hn Hrange.
    assert (rejected (GetPipelineEventsInput.validate int_of_str arguments) = true)
      as [errs V]%rejected_inl.
    { unfold GetPipelineEventsInput.validate.
      rewrite (with_default_present _ _ _ _ _ Hn).
      pose proof (int_validator_out_of_range int_of_str 1 1000 n Hrange) as Hr.
      destruct (int_validator int_of_str 1 1000 (VInt n)); [| done].
      by destruct (required "pipeline_id" str_validator arguments). }
    exists errs. unfold get_pipeline_events_tool. run_handler. by rewrite V.
Qed.

(** X5. The one-off command handler never passes a timeout below 1 or
    above 3600 seconds to the platform, and passes 120 when [timeout] is
    omitted; an integer outside 1..3600 is rejected with a validation
    envelope and no request. *)
Theorem command_timeout_is_bounded (w : Remote) (int_of_str : string → option Z)
    (str_of_ValidationError : list ErrorDetails → string)
    (arguments : gmap string pyval) (log : list Call) :
  (∃ calls,
     (databricks_command_tool w int_of_str str_of_ValidationError arguments log).2
       = (log ++ calls)%list ∧
     Forall (λ c, ∃ cluster language code t,
                    c = CallExecuteDatabricksCommand cluster language code t ∧
                    1 ≤ t ≤ 3600 ∧
                    (arguments !! "timeout" = None → t = 120)) calls) ∧
  (∀ n, arguments !! "timeout" = Some (VInt n) → ¬ (1 ≤ n ≤ 3600) →
        ∃ errs,
          databricks_command_tool w int_of_str str_of_ValidationError arguments log
          = (Returned (MCPValidationError.to_mcp_response errs), log)).
Proof.
  split.
  - unfold databricks_command_tool. run_handler.
    destruct (DatabricksCommandInput.validate int_of_str arguments)
      as [errs|input] eqn:V; cbv beta iota zeta.
    + exists []. by rewrite app_nil_r.
    + eexists [_]. split.
      * match goal with |- context [execution_execute_databricks_command w ?a ?b ?c ?d] =>
          destruct (execution_execute_databricks_command w a b c d) as [r|e] end;
          [destruct (er_success r) |]; reflexivity.
      * constructor; [| constructor]. eexists _, _, _, _. split; [done |].
        unfold DatabricksCommandInput.validate in V.
        destruct (with_default "timeout" _ _ arguments) as [|n] eqn:Hm;
          [by repeat case_match |].
        assert (DatabricksCommandInput.timeout input = n) as ->
          by (repeat case_match; by simplify_eq).
        split.
        -- unfold with_default in Hm. destruct (arguments !! "timeout") as [v|].
           ++ destruct (int_validator int_of_str 1 3600 v) eqn:Hv; [done |].
              injection Hm as <-. by apply int_validator_inr in Hv.
           ++ injection Hm as <-. lia.
        -- intros Habs. rewrite with_default_absent in Hm by done. by injection Hm.
  - intros n Hn Hrange.
    assert (rejected (DatabricksCommandInput.validate int_of_str arguments) = true)
      as [errs V]%rejected_inl.
    { unfold DatabricksCommandInput.validate.
      rewrite (with_default_present _ _ _ _ _ Hn).
      pose proof (int_validator_out_of_range int_of_str 1 3600 n Hrange) as Hr.
      destruct (int_validator int_of_str 1 3600 (VInt n)); [| done].
      by repeat case_match. }
    exists errs. unfold databricks_command_tool. run_handler. by rewrite V.
Qed.

Lemma events_max_results_is_bounded_witness :
  ∃ errs,
    get_pipeline_events_tool Stub.accepting Stub.json_dumps Stub.int_of_str
      Stub.str_of_ValidationError (Outage.events_arguments 1001) []
    = (Returned (MCPValidationError.to_mcp_response errs), []).
Proof.
  apply (proj2 (events_max_results_is_bounded Stub.accepting Stub.json_dumps
                  Stub.int_of_str Stub.str_of_ValidationError
                  (Outage.events_arguments 1001) []) 1001).
  - vm_compute. reflexivity.
  - lia.
Defined.

(** ** Exceptions of the collaborator *)

(** Settles [reports_exceptions] for a handler unfolded down to its
    validation result [V] and to the answer [A] of the collaborator. *)
Ltac settle_report :=
  cbv beta iota zeta; simpl;
  intros Hlog Hraised;
  first
    [ by apply app_unit_inv in Hlog
    | apply app_inv_head in Hlog; injection Hlog as <-;
      simpl in Hraised;
      repeat match goal with
             | A : ?x = _, H : context [?x] |- _ => rewrite A in H
             end;
      simpl in Hraised; by simplify_eq ].

Section Reports.

Variable w : Remote.
Variable json_dumps : pyval → string.
Variable int_of_str : string → option Z.
Variable str_of_ValidationError : list ErrorDetails → string.

Lemma create_pipeline_tool_reports :
  reports_exceptions w (create_pipeline_tool w str_of_ValidationError)
    (two_clauses "❌ Error creating pipeline: ").
Proof.
  intros arguments log c e. unfold create_pipeline_tool. run_handler.
  destruct (CreatePipelineInput.validate arguments) as [errs|input] eqn:V;
    [settle_report |].
  match goal with |- context [pipelines_create w ?a] =>
    destruct (pipelines_create w a) as [r|[errs|m]] eqn:A end; settle_report.
Qed.

Lemma get_pipeline_tool_reports :
  reports_exceptions w (get_pipeline_tool w json_dumps str_of_ValidationError)
    (two_clauses "❌ Error getting pipeline: ").
Proof.
  intros arguments log c e. unfold get_pipeline_tool. run_handler.
  destruct (GetPipelineInput.validate arguments) as [errs|input] eqn:V;
    [settle_report |].
  match goal with |- context [pipelines_get w ?a] =>
    destruct (pipelines_get w a) as [r|[errs|m]] eqn:A end; settle_report.
Qed.

Lemma update_pipeline_config_tool_reports :
  reports_exceptions w (update_pipeline_config_tool w str_of_ValidationError)
    (two_clauses "❌ Error updating pipeline: ").
Proof.
  intros arguments log c e. unfold update_pipeline_config_tool. run_handler.
  destruct (UpdatePipelineInput.validate arguments) as [errs|input] eqn:V;
    [settle_report |].
  match goal with |- context [pipelines_update w ?a] =>
    destruct (pipelines_update w a) as [r|[errs|m]] eqn:A end; settle_report.
Qed.

Lemma delete_pipeline_tool_reports :
  reports_exceptions w (delete_pipeline_tool w str_of_ValidationError)
    (two_clauses "❌ Error deleting pipeline: ").
Proof.
  intros arguments log c e. unfold delete_pipeline_tool. run_handler.
  destruct (DeletePipelineInput.validate arguments) as [errs|input] eqn:V;
    [settle_report |].
  match goal with |- context [pipelines_delete w ?a] =>
    destruct (pipelines_delete w a) as [r|[errs|m]] eqn:A end; settle_report.
Qed.

Lemma start_pipeline_update_tool_reports :
  reports_exceptions w (start_pipeline_update_tool w str_of_ValidationError)
    (two_clauses "❌ Error starting update: ").
Proof.
  intros arguments log c e. unfold start_pipeline_update_tool. run_handler.
  destruct (StartPipelineUpdateInput.validate arguments) as [errs|input] eqn:V;
    [settle_report |].
  match goal with |- context [pipelines_start_update w ?a] =>
    destruct (pipelines_start_update w a) as [r|[errs|m]] eqn:A end; settle_report.
Qed.

Lemma validate_pipeline_tool_reports :
  reports_exceptions w (validate_pipeline_tool w str_of_ValidationError)
    (two_clauses "❌ Error starting validation: ").
Proof.
  intros arguments log c e. unfold validate_pipeline_tool. run_handler.
  destruct (ValidatePipelineInput.validate arguments) as [errs|input] eqn:V;
    [settle_report |].
  match goal with |- context [pipelines_start_update w ?a] =>
    destruct (pipelines_start_update w a) as [r|[errs|m]] eqn:A end; settle_report.
Qed.

Lemma get_pipeline_update_status_tool_reports :
  reports_exceptions w
    (get_pipeline_update_status_tool w json_dumps str_of_ValidationError)
    (two_clauses "❌ Error getting update status: ").
Proof.
  intros arguments log c e. unfold get_pipeline_update_status_tool. run_handler.
  destruct (GetPipelineUpdateStatusInput.validate arguments) as [errs|input] eqn:V;
    [settle_report |].
  match goal with |- context [pipelines_get_update w ?a ?b] =>
    destruct (pipelines_get_update w a b) as [r|[errs|m]] eqn:A end; settle_report.
Qed.

Lemma stop_pipeline_tool_reports :
  reports_exceptions w (stop_pipeline_tool w str_of_ValidationError)
    (two_clauses "❌ Error stopping pipeline: ").
Proof.
  intros arguments log c e. unfold stop_pipeline_tool. run_handler.
  destruct (StopPipelineInput.validate arguments) as [errs|input] eqn:V;
    [settle_report |].
  match goal with |- context [pipelines_stop w ?a] =>
    destruct (pipelines_stop w a) as [r|[errs|m]] eqn:A end; settle_report.
Qed.

Lemma get_pipeline_events_tool_reports :
  reports_exceptions w
    (get_pipeline_events_tool w json_dumps int_of_str str_of_ValidationError)
    (two_clauses "❌ Error getting pipeline events: ").
Proof.
  intros arguments log c e. unfold get_pipeline_events_tool. run_handler.
  destruct (GetPipelineEventsInput.validate int_of_str arguments)
    as [errs|input] eqn:V; [settle_report |].
  match goal with |- context [pipelines_list_pipeline_events w ?a ?b] =>
    destruct (pipelines_list_pipeline_events w a b) as [r|[errs|m]] eqn:A end;
    settle_report.
Qed.

Lemma get_schema_tool_reports :
  reports_exceptions w (get_schema_tool w str_of_ValidationError)
    (one_clause str_of_ValidationError "Error: ").
Proof.
  intros arguments log c e. unfold get_schema_tool. run_handler.
  match goal with |- context [schemas_get_schema w ?a] =>
    destruct (schemas_get_schema w a) as [r|e'] eqn:A end; settle_report.
Qed.

Lemma execute_command_with_context_tool_reports :
  reports_exceptions w (execute_command_with_context_tool w str_of_ValidationError)
    (one_clause str_of_ValidationError "Error: ").
Proof.
  intros arguments log c e. unfold execute_command_with_context_tool. run_handler.
  destruct (ExecuteCommandWithContextInput.validate arguments)
    as [errs|input] eqn:V; [settle_report |].
  match goal with |- context [execution_execute_command_with_context w ?a ?b ?c] =>
    destruct (execution_execute_command_with_context w a b c) as [r|e'] eqn:A end;
    [destruct (er_success r) |]; settle_report.
Qed.

Lemma destroy_context_tool_reports :
  reports_exceptions w (destroy_context_tool w str_of_ValidationError)
    (one_clause str_of_ValidationError "Error destroying context: ").
Proof.
  intros arguments log c e. unfold destroy_context_tool. run_handler.
  destruct (DestroyContextInput.validate arguments) as [errs|input] eqn:V;
    [settle_report |].
  match goal with |- context [execution_destroy_context w ?a ?b] =>
    destruct (execution_destroy_context w a b) as [r|e'] eqn:A end; settle_report.
Qed.

Lemma databricks_command_tool_reports :
  reports_exceptions w (databricks_command_tool w int_of_str str_of_ValidationError)
    (one_clause str_of_ValidationError "Error: ").
Proof.
  intros arguments log c e. unfold databricks_command_tool. run_handler.
  destruct (DatabricksCommandInput.validate int_of_str arguments)
    as [errs|input] eqn:V; [settle_report |].
  match goal with |- context [execution_execute_databricks_command w ?a ?b ?c ?d] =>
    destruct (execution_execute_databricks_command w a b c d) as [r|e'] eqn:A end;
    [destruct (er_success r) |]; settle_report.
Qed.

End Reports.

(** X6. When the platform answers the request of a handler with an
    exception, the handler returns an error envelope whose text is the
    prefix of that handler followed by the message of the exception,
    unchanged.  A pydantic [ValidationError] raised by the platform is
    reported by the pipeline handlers with the envelope of an input
    validation error, and by the other handlers like any exception. *)
Theorem collaborator_exceptions_are_reported (w : Remote) (json_dumps : pyval → string)
    (int_of_str : string → option Z)
    (str_of_ValidationError : list ErrorDetails → string) :
  reports_exceptions w (create_pipeline_tool w str_of_ValidationError)
    (two_clauses "❌ Error creating pipeline: ") ∧
  reports_exceptions w (get_pipeline_tool w json_dumps str_of_ValidationError)
    (two_clauses "❌ Error getting pipeline: ") ∧
  reports_exceptions w (update_pipeline_config_tool w str_of_ValidationError)
    (two_clauses "❌ Error updating pipeline: ") ∧
  reports_exceptions w (delete_pipeline_tool w str_of_ValidationError)
    (two_clauses "❌ Error deleting pipeline: ") ∧
  reports_exceptions w (start_pipeline_update_tool w str_of_ValidationError)
    (two_clauses "❌ Error starting update: ") ∧
  reports_exceptions w (validate_pipeline_tool w str_of_ValidationError)
    (two_clauses "❌ Error starting validation: ") ∧
  reports_exceptions w
    (get_pipeline_update_status_tool w json_dumps str_of_ValidationError)
    (two_clauses "❌ Error getting update status: ") ∧
  reports_exceptions w (stop_pipeline_tool w str_of_ValidationError)
    (two_clauses "❌ Error stopping pipeline: ") ∧
  reports_exceptions w
    (get_pipeline_events_tool w json_dumps int_of_str str_of_ValidationError)
    (two_clauses "❌ Error getting pipeline events: ") ∧
  reports_exceptions w (get_schema_tool w str_of_ValidationError)
    (one_clause str_of_ValidationError "Error: ") ∧
  reports_exceptions w (execute_command_with_context_tool w str_of_ValidationError)
    (one_clause str_of_ValidationError "Error: ") ∧
  reports_exceptions w (destroy_context_tool w str_of_ValidationError)
    (one_clause str_of_ValidationError "Error destroying context: ") ∧
  reports_exceptions w (databricks_command_tool w int_of_str str_of_ValidationError)
    (one_clause str_of_ValidationError "Error: ").
Proof.
  split_and!.
  - apply create_pipeline_tool_reports.
  - apply get_pipeline_tool_reports.
  - apply update_pipeline_config_tool_reports.
  - apply delete_pipeline_tool_reports.
  - apply start_pipeline_update_tool_reports.
  - apply validate_pipeline_tool_reports.
  - apply get_pipeline_update_status_tool_reports.
  - apply stop_pipeline_tool_reports.
  - apply get_pipeline_events_tool_reports.
  - apply get_schema_tool_reports.
  - apply execute_command_with_context_tool_reports.
  - apply destroy_context_tool_reports.
  - apply databricks_command_tool_reports.
Qed.

Lemma collaborator_exceptions_are_reported_witness :
  (stop_pipeline_tool (Outage.unreachable "503 Service Unavailable")
     Stub.str_of_ValidationError Outage.pid_arguments []).1
  = Returned (error_envelope "❌ Error stopping pipeline: 503 Service Unavailable")
  ∧ (stop_pipeline_tool (Outage.misconfigured Outage.two_errors)
       Stub.str_of_ValidationError Outage.pid_arguments []).1
  = Returned (MCPValidationError.to_mcp_response Outage.two_errors).
Proof.
  split.
  - apply (proj1 (proj2 (proj2 (proj2 (proj2 (proj2 (proj2 (proj2
             (collaborator_exceptions_are_reported
                (Outage.unreachable "503 Service Unavailable") Stub.json_dumps
                Stub.int_of_str Stub.str_of_ValidationError))))))))
             Outage.pid_arguments [] (CallPipelinesStop "pid")
             (OtherException "503 Service Unavailable"));
      vm_compute; reflexivity.
  - apply (proj1 (proj2 (proj2 (proj2 (proj2 (proj2 (proj2 (proj2
             (collaborator_exceptions_are_reported
                (Outage.misconfigured Outage.two_errors) Stub.json_dumps
                Stub.int_of_str Stub.str_of_ValidationError))))))))
             Outage.pid_arguments [] (CallPipelinesStop "pid")
             (ValidationError Outage.two_errors));
      vm_compute; reflexivity.
Defined.

(** ** States the handler has no emoji for *)

Lemma state_emoji_unknown (state : string) :
  state ∉ known_states → state_emoji state = "❓".
Proof.
  unfold known_states. intros H.
  repeat (apply not_elem_of_cons in H as [? H]).
  unfold state_emoji.
  by rewrite !lookup_insert_ne, lookup_singleton_ne.
Qed.

(** X7. A state that is not one of QUEUED, RUNNING, COMPLETED, FAILED and
    CANCELED is reported as it came from the platform, under the emoji
    for unknown states; a response with no update is reported with the
    state [unknown]. *)
Theorem unknown_state_is_reported_verbatim (w : Remote) (json_dumps : pyval → string)
    (str_of_ValidationError : list ErrorDetails → string)
    (arguments : gmap string pyval) (input : GetPipelineUpdateStatusInput.t)
    (result : GetUpdateResponse) (log : list Call) :
  GetPipelineUpdateStatusInput.validate arguments = inr input →
  pipelines_get_update w
    (GetPipelineUpdateStatusInput.pipeline_id input)
    (GetPipelineUpdateStatusInput.update_id input) = Returned result →
  from_option ui_state "unknown" (gur_update result) ∉ known_states →
  (get_pipeline_update_status_tool w json_dumps str_of_ValidationError arguments log).1
  = Returned
      (success_envelope
         ("❓ Pipeline Update Status" ++ nl ++ nl ++
          "State: " ++ from_option ui_state "unknown" (gur_update result) ++ nl ++
          "Pipeline ID: " ++ GetPipelineUpdateStatusInput.pipeline_id input ++ nl ++
          "Update ID: " ++ GetPipelineUpdateStatusInput.update_id input ++ nl ++ nl ++
          "Full status:" ++ nl ++ json_dumps (gur_as_dict result))).
Proof.
  intros V A Hstate.
  unfold get_pipeline_update_status_tool. run_handler.
  rewrite V. cbv beta iota zeta. rewrite A. cbv beta iota zeta. simpl.
  destruct (gur_update result) as [update|]; simpl in *;
    by rewrite (state_emoji_unknown _ Hstate).
Qed.

Lemma unknown_state_is_reported_verbatim_witness :
  (get_pipeline_update_status_tool (Outage.with_state "WAITING_FOR_RESOURCES")
     Stub.json_dumps Stub.str_of_ValidationError (Stub.status_arguments "u-1") []).1
  = Returned
      (success_envelope
         ("❓ Pipeline Update Status" ++ nl ++ nl ++
          "State: WAITING_FOR_RESOURCES" ++ nl ++
          "Pipeline ID: pid" ++ nl ++
          "Update ID: u-1" ++ nl ++ nl ++
          "Full status:" ++ nl ++ "{}")).
Proof.
  pose proof (unknown_state_is_reported_verbatim
                (Outage.with_state "WAITING_FOR_RESOURCES")
                Stub.json_dumps Stub.str_of_ValidationError (Stub.status_arguments "u-1")
                (GetPipelineUpdateStatusInput.mk "pid" "u-1")
                (mkGetUpdateResponse (Some (mkUpdateInfo "WAITING_FOR_RESOURCES"))
                   (VDict ∅))
                [] ltac:(vm_compute; reflexivity) ltac:(vm_compute; reflexivity)
                ltac:(apply (bool_decide_unpack _); vm_compute; exact I)) as H.
  vm_compute in H. vm_compute. exact H.
Defined.

(** ** A handler without a contract *)

(** X8. The schema handler validates nothing: whatever the argument
    mapping holds, it makes exactly one request to the platform, with the
    value found under [full_schema_name] as it is and with [None] when
    the key is missing, and its envelope is an error exactly when the
    platform raised on that value. *)
Theorem get_schema_always_asks (w : Remote)
    (str_of_ValidationError : list ErrorDetails → string)
    (arguments : gmap string pyval) (log : list Call) :
  let name := default VNone (arguments !! "full_schema_name") in
  (get_schema_tool w str_of_ValidationError arguments log).2
  = (log ++ [CallGetSchema name])%list
  ∧ ∃ env,
      (get_schema_tool w str_of_ValidationError arguments log).1 = Returned env ∧
      (isError env = true ↔ raised (schemas_get_schema w name) = true).
Proof.
  intros name. unfold get_schema_tool. run_handler. fold name.
  destruct (schemas_get_schema w name) as [schema|e] eqn:A;
    cbv beta iota zeta; simpl.
  - split; [done |]. eexists. split; [done |]. by rewrite isError_success.
  - split; [done |]. eexists. split; [done |]. by rewrite isError_error.
Qed.

(** ** The validation envelope *)

Lemma startswith_app (p s : string) : startswith (p ++ s) p = true.
Proof.
  induction p as [|a p IH]; simpl; [by destruct s |].
  by rewrite Ascii.eqb_refl.
Qed.

Lemma contains_startswith (s needle : string) :
  startswith s needle = true → contains s needle = true.
Proof. intros H. destruct s; simpl in *; by rewrite H. Qed.

Lemma contains_app_r (a s needle : string) :
  contains s needle = true → contains (a ++ s) needle = true.
Proof.
  intros H. induction a as [|c a IH]; simpl; [done |].
  rewrite IH. apply orb_true_r.
Qed.

Lemma contains_middle (a x b : string) : contains (a ++ x ++ b) x = true.
Proof. apply contains_app_r, contains_startswith, startswith_app. Qed.

Lemma join_elem (sep x : string) (l : list string) :
  x ∈ l → ∃ before after, join sep l = before ++ x ++ after.
Proof.
  induction l as [|y l IH]; [by intros ?%elem_of_nil |].
  intros [-> | Hx]%elem_of_cons.
  - exists "". destruct l as [|z l].
    + exists "". simpl. by rewrite string_app_nil_r.
    + by exists (sep ++ join sep (z :: l)).
  - destruct (IH Hx) as (before & after & Hj).
    destruct l as [|z l]; [by apply elem_of_nil in Hx |].
    exists (y ++ sep ++ before), after.
    change (join sep (y :: z :: l)) with (y ++ sep ++ join sep (z :: l)).
    by rewrite Hj, !string_app_assoc.
Qed.

Lemma envelope_text_error (text : string) :
  envelope_text (error_envelope text) = Some text.
Proof.
  unfold envelope_text, error_envelope, text_content.
  rewrite lookup_insert_eq.
  by rewrite lookup_insert_ne, lookup_singleton_eq.
Qed.

(** X9. The validation envelope is itemized: its single text segment
    holds, for every error of the rejected input, the line made of the
    dotted field path, the message and the error type. *)
Theorem validation_envelope_is_itemized (errors : list ErrorDetails) (e : ErrorDetails) :
  e ∈ errors →
  ∃ text,
    envelope_text (MCPValidationError.to_mcp_response errors) = Some text ∧
    contains text
      ("  - " ++ join "." (str_of_locitem <$> loc e) ++ ": " ++ msg e ++
       " (type: " ++ type e ++ ")") = true.
Proof.
  intros He. unfold MCPValidationError.to_mcp_response.
  eexists. split; [apply envelope_text_error |].
  apply contains_app_r, contains_app_r.
  destruct (join_elem nl (error_line e) (error_line <$> errors))
    as (before & after & Hj); [by apply list_elem_of_fmap_2 |].
  change (join nl (error_line <$> errors) = before ++ error_line e ++ after) in Hj.
  unfold error_line in Hj at 1. rewrite Hj.
  apply contains_middle.
Qed.

Lemma validation_envelope_is_itemized_witness :
  ∃ text,
    envelope_text (MCPValidationError.to_mcp_response Outage.two_errors) = Some text ∧
    contains text "  - columns.0.name: Input should be a valid string (type: string_type)"
    = true.
Proof.
  apply (validation_envelope_is_itemized Outage.two_errors
           {| loc := [LField "columns"; LIndex 0; LField "name"];
              msg := "Input should be a valid string"; type := "string_type" |}).
  apply list_elem_of_further, list_elem_of_here.
Defined.

(** ** Code is stripped before it is run *)

(** X10. The code that the two execution handlers send to the cluster is
    the supplied string stripped of leading and trailing whitespace, not
    the string as the caller wrote it. *)
Theorem code_is_sent_stripped (w : Remote) (int_of_str : string → option Z)
    (str_of_ValidationError : list ErrorDetails → string)
    (arguments : gmap string pyval) (log : list Call) :
  (∀ input,
     ExecuteCommandWithContextInput.validate arguments = inr input →
     ∃ code,
       arguments !! "code" = Some (VStr code) ∧
       (execute_command_with_context_tool w str_of_ValidationError arguments log).2
       = (log ++ [CallExecuteWithContext
                    (ExecuteCommandWithContextInput.cluster_id input)
                    (ExecuteCommandWithContextInput.context_id input)
                    (strip code)])%list) ∧
  (∀ input,
     DatabricksCommandInput.validate int_of_str arguments = inr input →
     ∃ code,
       arguments !! "code" = Some (VStr code) ∧
       (databricks_command_tool w int_of_str str_of_ValidationError arguments log).2
       = (log ++ [CallExecuteDatabricksCommand
                    (DatabricksCommandInput.cluster_id input)
                    (DatabricksCommandInput.language input)
                    (strip code)
                    (DatabricksCommandInput.timeout input)])%list).
Proof.
  split; intros input V.
  - assert (required "code" str_validator arguments
            = inr (ExecuteCommandWithContextInput.code input)) as Hc.
    { unfold ExecuteCommandWithContextInput.validate in V.
      repeat case_match; by simplify_eq. }
    apply required_str_inr in Hc as (code & Hcode & Hstrip).
    exists code. split; [done |]. rewrite <- Hstrip.
    unfold execute_command_with_context_tool. run_handler.
    rewrite V. cbv beta iota zeta.
    match goal with |- context [execution_execute_command_with_context w ?a ?b ?c] =>
      destruct (execution_execute_command_with_context w a b c) as [r|e] end;
      [destruct (er_success r) |]; reflexivity.
  - assert (required "code" str_validator arguments
            = inr (DatabricksCommandInput.code input)) as Hc.
    { unfold DatabricksCommandInput.validate in V.
      repeat case_match; by simplify_eq. }
    apply required_str_inr in Hc as (code & Hcode & Hstrip).
    exists code. split; [done |]. rewrite <- Hstrip.
    unfold databricks_command_tool. run_handler.
    rewrite V. cbv beta iota zeta.
    match goal with |- context [execution_execute_databricks_command w ?a ?b ?c ?d] =>
      destruct (execution_execute_databricks_command w a b c d) as [r|e] end;
      [destruct (er_success r) |]; reflexivity.
Qed.

Lemma code_is_sent_stripped_witness :
  (execute_command_with_context_tool Stub.accepting Stub.str_of_ValidationError
     Outage.execute_arguments []).2
  = [CallExecuteWithContext "c1" "ctx" "print(1)"].
Proof.
  destruct (proj1 (code_is_sent_stripped Stub.accepting Stub.int_of_str
                     Stub.str_of_ValidationError Outage.execute_arguments [])
              (ExecuteCommandWithContextInput.mk "c1" "ctx" "print(1)")
              ltac:(vm_compute; reflexivity)) as (code & Hcode & Hlog).
  rewrite Hlog.
  assert (Some (VStr code) = Some (VStr (bytes [194; 160]%nat ++ " print(1)  ")))
    as [= ->]
    by (rewrite <- Hcode; vm_compute; reflexivity).
  reflexivity.
Defined.

(** ** Schemas, tables and files *)

(** Unfolds a store handler down to the answer of the store. *)
Ltac run_store :=
  unfold store_try_except, mbind, PyStore_bind, mret, PyStore_ret, store_lift,
    construct, store_call;
  cbv beta iota zeta.

Lemma required_absent {A} (name : string) (f : validator A)
    (arguments : gmap string pyval) :
  arguments !! name = None → required name f arguments = inl [missing name].
Proof. intros H. unfold required. by rewrite H. Qed.

Lemma follows_update_schema (arguments : gmap string pyval) :
  follows update_schema_definition arguments →
  arguments !! "catalog_name" = None ∧ arguments !! "schema_name" = None.
Proof.
  intros [Hdom _]. simpl in Hdom.
  split; apply not_elem_of_dom; set_solver.
Qed.

Lemma follows_delete_schema (arguments : gmap string pyval) :
  follows delete_schema_definition arguments →
  arguments !! "catalog_name" = None ∧ arguments !! "schema_name" = None.
Proof.
  intros [Hdom _]. simpl in Hdom.
  split; apply not_elem_of_dom; set_solver.
Qed.

(** X11. The schemas advertised for [update_schema] and [delete_schema]
    name the schema by [full_schema_name], while their handlers require
    [catalog_name] and [schema_name]: every request that follows the
    advertised schema is rejected with a validation envelope that lists
    both as missing, and reaches no collaborator. *)
Theorem advertised_schema_requests_are_rejected (st : Store)
    (str_of_ValidationError : list ErrorDetails → string)
    (arguments : gmap string pyval) (log : list StoreCall) :
  (follows update_schema_definition arguments →
   ∃ errs,
     update_schema_tool st str_of_ValidationError arguments log
       = (Returned (MCPValidationError.to_mcp_response errs), log) ∧
     {| loc := [LField "catalog_name"]; msg := "Field required"; type := "missing" |}
       ∈ errs ∧
     {| loc := [LField "schema_name"]; msg := "Field required"; type := "missing" |}
       ∈ errs) ∧
  (follows delete_schema_definition arguments →
   ∃ errs,
     delete_schema_tool st str_of_ValidationError arguments log
       = (Returned (MCPValidationError.to_mcp_response errs), log) ∧
     {| loc := [LField "catalog_name"]; msg := "Field required"; type := "missing" |}
       ∈ errs ∧
     {| loc := [LField "schema_name"]; msg := "Field required"; type := "missing" |}
       ∈ errs).
Proof.
  split.
  - intros [Hc Hs]%follows_update_schema.
    unfold update_schema_tool, UpdateSchemaInput.validate, UpdateSchemaInput.fields.
    rewrite (required_absent _ _ _ Hc), (required_absent _ _ _ Hs).
    run_store. eexists. split; [reflexivity |].
    split; [apply list_elem_of_here | apply list_elem_of_further, list_elem_of_here].
  - intros [Hc Hs]%follows_delete_schema.
    unfold delete_schema_tool, DeleteSchemaInput.validate.
    rewrite (required_absent _ _ _ Hc), (required_absent _ _ _ Hs).
    run_store. eexists. split; [reflexivity |].
    split; [apply list_elem_of_here | apply list_elem_of_further, list_elem_of_here].
Qed.

Lemma advertised_schema_requests_are_rejected_witness :
  ∃ errs,
    update_schema_tool Shelf.accepting Stub.str_of_ValidationError
      Shelf.advertised_update []
    = (Returned (MCPValidationError.to_mcp_response errs), []) ∧
    {| loc := [LField "catalog_name"]; msg := "Field required"; type := "missing" |}
      ∈ errs ∧
    {| loc := [LField "schema_name"]; msg := "Field required"; type := "missing" |}
      ∈ errs.
Proof.
  apply (proj1 (advertised_schema_requests_are_rejected Shelf.accepting
                  Stub.str_of_ValidationError Shelf.advertised_update [])).
  split.
  - apply (bool_decide_unpack _). vm_compute. exact I.
  - repeat constructor. vm_compute. by eexists.
Defined.

(** X12. Deleting a schema never forces: the [force] argument is checked as
    a boolean and then dropped, so two requests that differ only in a
    valid value of [force] get the same envelope and send the same
    delete request, the one for [catalog_name.schema_name]. *)
Theorem delete_schema_ignores_force (st : Store)
    (str_of_ValidationError : list ErrorDetails → string)
    (arguments : gmap string pyval) (v1 v2 : pyval) (b1 b2 : bool)
    (log : list StoreCall) :
  bool_validator v1 = inr b1 →
  bool_validator v2 = inr b2 →
  delete_schema_tool st str_of_ValidationError (<["force" := v1]> arguments) log
  = delete_schema_tool st str_of_ValidationError (<["force" := v2]> arguments) log
  ∧ ∀ input,
      DeleteSchemaInput.validate (<["force" := v1]> arguments) = inr input →
      (delete_schema_tool st str_of_ValidationError (<["force" := v1]> arguments) log).2
      = (log ++ [CallDeleteSchema
                   (DeleteSchemaInput.catalog_name input ++ "." ++
                    DeleteSchemaInput.schema_name input)])%list.
Proof.
  intros H1 H2. split.
  - unfold delete_schema_tool, DeleteSchemaInput.validate.
    rewrite !required_insert_ne by done.
    rewrite !(with_default_present "force" _ _ _ _ (lookup_insert_eq _ _ _)).
    rewrite H1, H2.
    destruct (required "catalog_name" str_validator arguments),
             (required "schema_name" str_validator arguments); reflexivity.
  - intros input V. unfold delete_schema_tool. run_store. rewrite V.
    cbv beta iota zeta.
    match goal with |- context [schemas_delete_schema st ?a] =>
      destruct (schemas_delete_schema st a) as [r|[errs|m]] end; reflexivity.
Qed.

Lemma delete_schema_ignores_force_witness :
  delete_schema_tool Shelf.accepting Stub.str_of_ValidationError
    (<["force" := VBool true]> Shelf.schema_arguments) []
  = (Returned (success_envelope "✅ Schema 'main.sales' deleted successfully!"),
     [CallDeleteSchema "main.sales"]).
Proof.
  rewrite (proj1 (delete_schema_ignores_force Shelf.accepting Stub.str_of_ValidationError
                    Shelf.schema_arguments (VBool true) (VBool false) true false []
                    eq_refl eq_refl)).
  vm_compute. reflexivity.
Defined.

Lemma UpdateSchemaInput_validate_inr (arguments : gmap string pyval)
    (input : UpdateSchemaInput.t) :
  UpdateSchemaInput.validate arguments = inr input →
  truthy (UpdateSchemaInput.new_name input) || truthy (UpdateSchemaInput.comment input)
  = true.
Proof.
  unfold UpdateSchemaInput.validate, UpdateSchemaInput.validate_at_least_one_update.
  destruct (UpdateSchemaInput.fields arguments) as [es|self]; [done |].
  destruct (truthy (UpdateSchemaInput.new_name self)
            || truthy (UpdateSchemaInput.comment self)) eqn:H; simpl; [| done].
  by intros [= <-].
Qed.

Lemma UpdateSchemaInput_fields_inr (arguments : gmap string pyval)
    (self : UpdateSchemaInput.t) :
  UpdateSchemaInput.fields arguments = inr self →
  required "catalog_name" str_validator arguments
    = inr (UpdateSchemaInput.catalog_name self) ∧
  required "schema_name" str_validator arguments
    = inr (UpdateSchemaInput.schema_name self) ∧
  with_default "new_name" (optional str_validator) None arguments
    = inr (UpdateSchemaInput.new_name self) ∧
  with_default "comment" (optional str_validator) None arguments
    = inr (UpdateSchemaInput.comment self).
Proof.
  unfold UpdateSchemaInput.fields. intros H.
  repeat case_match; simplify_eq. done.
Qed.

Lemma UpdateSchemaInput_validate_fields (arguments : gmap string pyval)
    (input : UpdateSchemaInput.t) :
  UpdateSchemaInput.validate arguments = inr input →
  UpdateSchemaInput.fields arguments = inr input.
Proof.
  unfold UpdateSchemaInput.validate, UpdateSchemaInput.validate_at_least_one_update.
  destruct (UpdateSchemaInput.fields arguments) as [es|self]; [done |].
  case_match; [done |]. by intros [= <-].
Qed.

(** X13. Every schema update that reaches the collaborator is the one the
    arguments ask for, and changes something.  The handler makes one
    request when the arguments validate and none otherwise; the request
    names the schema as the stripped [catalog_name] argument, a dot and the
    stripped [schema_name] argument; its new name and comment are the
    validated values of the arguments of these names, of which one at
    least is a non-empty string; it never carries an owner. *)
Theorem schema_update_requests_change_something (st : Store)
    (str_of_ValidationError : list ErrorDetails → string)
    (arguments : gmap string pyval) (log : list StoreCall) :
  ∃ calls,
    (update_schema_tool st str_of_ValidationError arguments log).2
      = (log ++ calls)%list ∧
    List.length calls
      = (if rejected (UpdateSchemaInput.validate arguments) then 0 else 1)%nat ∧
    Forall (λ c, ∃ catalog_name schema_name new_name comment,
                   arguments !! "catalog_name" = Some (VStr catalog_name) ∧
                   arguments !! "schema_name" = Some (VStr schema_name) ∧
                   with_default "new_name" (optional str_validator) None arguments
                     = inr new_name ∧
                   with_default "comment" (optional str_validator) None arguments
                     = inr comment ∧
                   c = CallUpdateSchema
                         (strip catalog_name ++ "." ++ strip schema_name)
                         new_name comment None ∧
                   truthy new_name || truthy comment = true) calls.
Proof.
  unfold update_schema_tool. run_store.
  destruct (UpdateSchemaInput.validate arguments) as [errs|input] eqn:V;
    cbv beta iota zeta.
  - exists []. by rewrite app_nil_r.
  - eexists [_]. split_and!.
    + match goal with |- context [schemas_update_schema st ?a ?b ?c ?d] =>
        destruct (schemas_update_schema st a b c d) as [r|[errs|m]] end; reflexivity.
    + done.
    + constructor; [| constructor].
      pose proof (UpdateSchemaInput_validate_inr _ _ V) as Hsome.
      apply UpdateSchemaInput_validate_fields, UpdateSchemaInput_fields_inr
        in V as (Hc & Hs & Hn & Hm).
      apply required_str_inr in Hc as (catalog_name & Hc & ->).
      apply required_str_inr in Hs as (schema_name & Hs & ->).
      by exists catalog_name, schema_name, (UpdateSchemaInput.new_name input),
        (UpdateSchemaInput.comment input).
Qed.

(** A request padded with a no-break space and an ideographic space
    reaches the store under the stripped names. *)
Lemma padded_schema_update_is_sent_stripped :
  (update_schema_tool Shelf.accepting Stub.str_of_ValidationError
     Shelf.padded_rename_arguments []).2
  = [CallUpdateSchema "main.sales" (Some "orders") None None].
Proof. vm_compute. reflexivity. Qed.

(** ** Tables *)

Lemma list_validator_min_length {A} (f : validator A) (n : nat) (v : pyval)
    (xs : list A) :
  list_validator f n v = inr xs → (n ≤ List.length xs)%nat.
Proof.
  unfold list_validator. destruct v; try done.
  destruct (list_items f 0 l) as [[|e es] ys]; [| done].
  destruct (List.length ys <? n)%nat eqn:H; [done |].
  intros [= <-]. by apply Nat.ltb_ge.
Qed.

Lemma comprehension_length {A B} (f : A → outcome B) (l : list A) (ys : list B) :
  comprehension f l = Returned ys → List.length ys = List.length l.
Proof.
  revert ys. induction l as [|x l IH]; intros ys; simpl; [by intros [= <-] |].
  destruct (f x); [| done].
  destruct (comprehension f l) as [zs|]; [| done].
  intros [= <-]. simpl. f_equal. by apply IH.
Qed.

Lemma comprehension_raises {A B} (f : A → outcome B) (l : list A) (x : A) :
  x ∈ l → raised (f x) = true → raised (comprehension f l) = true.
Proof.
  induction l as [|y l IH]; [by intros ?%elem_of_nil |].
  intros [-> | Hx]%elem_of_cons Hr; simpl.
  - by destruct (f y).
  - destruct (f y); [| done].
    specialize (IH Hx Hr). by destruct (comprehension f l).
Qed.

Lemma CreateTableInput_validate_inr (arguments : gmap string pyval)
    (input : CreateTableInput.t) :
  CreateTableInput.validate arguments = inr input →
  CreateTableInput.columns input ≠ [] ∧
  (CreateTableInput.table_type input = EXTERNAL →
   ∃ raw, arguments !! "storage_location" = Some (VStr raw) ∧
          CreateTableInput.storage_location input = Some (strip raw) ∧
          strip raw ≠ "" ∧ stripped (strip raw)).
Proof.
  unfold CreateTableInput.validate.
  destruct (CreateTableInput.fields arguments) as [es|self] eqn:F; [done |].
  unfold CreateTableInput.validate_external_storage.
  destruct (_ && _) eqn:Hcheck; [done |]. intros [= <-]. split.
  - assert (required "columns" (list_validator ColumnModel.validate 1) arguments
            = inr (CreateTableInput.columns self)) as Hcols.
    { unfold CreateTableInput.fields in F. repeat case_match; by simplify_eq. }
    unfold required in Hcols. destruct (arguments !! "columns") as [v|]; [| done].
    destruct (list_validator ColumnModel.validate 1 v) as [|xs] eqn:Hv; [done |].
    injection Hcols as <-. apply list_validator_min_length in Hv.
    destruct xs; [simpl in Hv; lia | done].
  - intros Hext. rewrite Hext in Hcheck. simpl in Hcheck.
    apply negb_false_iff in Hcheck.
    apply CreateTableInput_fields_inr in F as [_ Hs].
    destruct (CreateTableInput.storage_location self) as [s|] eqn:Hloc; [| done].
    unfold with_default in Hs.
    destruct (arguments !! "storage_location") as [[| | |raw| |]|]; simpl in Hs;
      try done.
    injection Hs as <-. exists raw.
    split_and!; [done | done | by destruct (strip raw) | apply strip_stripped].
Qed.

(** X14. Every table creation that reaches the collaborator has at least
    one column, and one that asks for an EXTERNAL table carries as storage
    location the stripped [storage_location] argument, a string that is
    not empty and neither starts nor ends with a whitespace character
    (a no-break space counts as one). *)
Theorem table_requests_are_complete (st : Store)
    (ColumnTypeName : string → outcome string)
    (str_of_ValidationError : list ErrorDetails → string)
    (arguments : gmap string pyval) (log : list StoreCall) :
  ∃ calls,
    (create_table_tool st ColumnTypeName str_of_ValidationError arguments log).2
      = (log ++ calls)%list ∧
    Forall (λ c, ∃ catalog_name schema_name table_name columns table_type
                   comment storage_location,
                   c = CallCreateTable catalog_name schema_name table_name columns
                         table_type comment storage_location ∧
                   columns ≠ [] ∧
                   (table_type = TableType_EXTERNAL →
                    ∃ raw, arguments !! "storage_location" = Some (VStr raw) ∧
                           storage_location = Some (strip raw) ∧
                           strip raw ≠ "" ∧ stripped (strip raw))) calls.
Proof.
  unfold create_table_tool. run_store.
  destruct (CreateTableInput.validate arguments) as [errs|input] eqn:V;
    cbv beta iota zeta.
  - exists []. by rewrite app_nil_r.
  - destruct (comprehension (ColumnModel_to_sdk ColumnTypeName)
                (CreateTableInput.columns input)) as [columns|[errs|m]] eqn:Hc;
      cbv beta iota zeta; try (exists []; by rewrite app_nil_r).
    eexists [_]. split.
    + match goal with |- context [tables_create_table st ?a ?b ?c ?d ?e ?f ?g] =>
        destruct (tables_create_table st a b c d e f g) as [r|[errs|m]] end;
        reflexivity.
    + constructor; [| constructor]. eexists _, _, _, _, _, _, _. split; [done |].
      apply CreateTableInput_validate_inr in V as [Hcols Hext].
      apply comprehension_length in Hc. split.
      * intros ->. by destruct (CreateTableInput.columns input).
      * intros Ht. apply Hext.
        by destruct (CreateTableInput.table_type input).
Qed.

(** X15. A table with a column whose type name is not a member of the
    SDK's enumeration is not created: the handler returns an error
    envelope and makes no request, although the input validated. *)
Theorem unknown_column_type_creates_nothing (st : Store)
    (ColumnTypeName : string → outcome string)
    (str_of_ValidationError : list ErrorDetails → string)
    (arguments : gmap string pyval) (input : CreateTableInput.t)
    (column : ColumnModel.t) (log : list StoreCall) :
  CreateTableInput.validate arguments = inr input →
  column ∈ CreateTableInput.columns input →
  raised (ColumnTypeName (ColumnModel.type_name column)) = true →
  ∃ env,
    create_table_tool st ColumnTypeName str_of_ValidationError arguments log
      = (Returned env, log) ∧
    isError env = true.
Proof.
  intros V Hcol Hraised.
  assert (raised (comprehension (ColumnModel_to_sdk ColumnTypeName)
                    (CreateTableInput.columns input)) = true) as Hc.
  { apply (comprehension_raises _ _ column); [done |].
    unfold ColumnModel_to_sdk.
    by destruct (ColumnTypeName (ColumnModel.type_name column)). }
  unfold create_table_tool. run_store. rewrite V. cbv beta iota zeta.
  destruct (comprehension (ColumnModel_to_sdk ColumnTypeName)
              (CreateTableInput.columns input)) as [columns|[errs|m]];
    [done | |]; cbv beta iota zeta; eexists; split; reflexivity.
Qed.

Lemma unknown_column_type_creates_nothing_witness :
  ∃ env,
    create_table_tool Shelf.accepting Shelf.ColumnTypeName Stub.str_of_ValidationError
      Shelf.bad_column_table []
    = (Returned env, []) ∧
    isError env = true.
Proof.
  apply (unknown_column_type_creates_nothing Shelf.accepting Shelf.ColumnTypeName
           Stub.str_of_ValidationError Shelf.bad_column_table
           (CreateTableInput.mk "main" "sales" "orders"
              [ColumnModel.mk "id" "INTEGER" None] MANAGED None None)
           (ColumnModel.mk "id" "INTEGER" None) []).
  - vm_compute. reflexivity.
  - apply list_elem_of_here.
  - vm_compute. reflexivity.
Defined.

(** ** Files *)

(** X16. The content that the write handler stores is the supplied string
    stripped of leading and trailing whitespace; the language is PYTHON
    and the file is overwritten unless the request says otherwise. *)
Theorem file_content_is_written_stripped (st : Store)
    (str_of_ValidationError : list ErrorDetails → string)
    (arguments : gmap string pyval) (input : WritePipelineFileInput.t)
    (log : list StoreCall) :
  WritePipelineFileInput.validate arguments = inr input →
  ∃ content,
    arguments !! "content" = Some (VStr content) ∧
    (write_pipeline_file_tool st str_of_ValidationError arguments log).2
      = (log ++ [CallWriteFile (WritePipelineFileInput.path input) (strip content)
                   (WritePipelineFileInput.language input)
                   (WritePipelineFileInput.overwrite input)])%list ∧
    (arguments !! "language" = None → WritePipelineFileInput.language input = "PYTHON") ∧
    (arguments !! "overwrite" = None → WritePipelineFileInput.overwrite input = true).
Proof.
  intros V.
  assert (required "content" str_validator arguments
            = inr (WritePipelineFileInput.content input) ∧
          with_default "language" str_validator "PYTHON" arguments
            = inr (WritePipelineFileInput.language input) ∧
          with_default "overwrite" bool_validator true arguments
            = inr (WritePipelineFileInput.overwrite input)) as (Hc & Hl & Ho).
  { unfold WritePipelineFileInput.validate in V. repeat case_match; by simplify_eq. }
  apply required_str_inr in Hc as (content & Hcontent & Hstrip).
  exists content. split_and!; [done | | |].
  - rewrite <- Hstrip. unfold write_pipeline_file_tool. run_store. rewrite V.
    cbv beta iota zeta.
    match goal with |- context [workspace_files_write_file st ?a ?b ?c ?d] =>
      destruct (workspace_files_write_file st a b c d) as [r|[errs|m]] end;
      reflexivity.
  - intros H. rewrite with_default_absent in Hl by done. by injection Hl.
  - intros H. rewrite with_default_absent in Ho by done. by injection Ho.
Qed.

Lemma file_content_is_written_stripped_witness :
  (write_pipeline_file_tool Shelf.accepting Stub.str_of_ValidationError
     Shelf.write_arguments []).2
  = [CallWriteFile "/Workspace/etl.py" "x = 1" "PYTHON" true].
Proof.
  destruct (file_content_is_written_stripped Shelf.accepting Stub.str_of_ValidationError
              Shelf.write_arguments
              (WritePipelineFileInput.mk "/Workspace/etl.py" "x = 1" "PYTHON" true) []
              ltac:(vm_compute; reflexivity)) as (content & Hcontent & Hlog & _).
  rewrite Hlog.
  assert (Some (VStr content)
          = Some (VStr (bytes [194; 160; 10]%nat ++ "x = 1" ++ bytes [10]%nat)))
    as [= ->] by (rewrite <- Hcontent; vm_compute; reflexivity).
  vm_compute. reflexivity.
Defined.

(** X17. A path is deleted recursively only on request: when the
    arguments hold no [recursive] key the delete request is not
    recursive, and a recursive request comes from a [recursive] value
    that reads as true. *)
Theorem delete_is_recursive_only_on_request (st : Store)
    (str_of_ValidationError : list ErrorDetails → string)
    (arguments : gmap string pyval) (log : list StoreCall) :
  ∃ calls,
    (delete_pipeline_path_tool st str_of_ValidationError arguments log).2
      = (log ++ calls)%list ∧
    Forall (λ c, ∃ path recursive,
                   c = CallDeletePath path recursive ∧
                   (recursive = true →
                    ∃ v, arguments !! "recursive" = Some v ∧
                         bool_validator v = inr true)) calls.
Proof.
  unfold delete_pipeline_path_tool. run_store.
  destruct (DeletePipelinePathInput.validate arguments) as [errs|input] eqn:V;
    cbv beta iota zeta.
  - exists []. by rewrite app_nil_r.
  - eexists [_]. split.
    + match goal with |- context [workspace_files_delete_path st ?a ?b] =>
        destruct (workspace_files_delete_path st a b) as [r|[errs|m]] end;
        reflexivity.
    + constructor; [| constructor]. eexists _, _. split; [done |].
      intros Hr.
      assert (with_default "recursive" bool_validator false arguments
              = inr (DeletePipelinePathInput.recursive input)) as Hd.
      { unfold DeletePipelinePathInput.validate in V. repeat case_match; by simplify_eq. }
      rewrite Hr in Hd. unfold with_default in Hd.
      destruct (arguments !! "recursive") as [v|]; [| done].
      exists v. split; [done |].
      destruct (bool_validator v); [done | by injection Hd as ->].
Qed.

(** ** The response envelope of every handler (C4) *)

(** The four ways a handler of the store can end. *)
Lemma meets_contract_rejected {I} (st : Store) (conversion_fails : I → bool)
    (errs : list ErrorDetails) (log : list StoreCall) :
  meets_contract st (inl errs) conversion_fails log
    (Returned (MCPValidationError.to_mcp_response errs), log).
Proof.
  exists (MCPValidationError.to_mcp_response errs), [].
  rewrite app_nil_r. split_and!; [done | apply well_formed_to_mcp_response | | |].
  - rewrite isError_to_mcp_response. split; [by left | done].
  - by intros ? [= ->].
  - by intros ? [=].
Qed.

Lemma meets_contract_unconverted {I} (st : Store) (conversion_fails : I → bool)
    (input : I) (text : string) (log : list StoreCall) :
  conversion_fails input = true →
  meets_contract st (inr input) conversion_fails log
    (Returned (error_envelope text), log).
Proof.
  intros Hc. exists (error_envelope text), [].
  rewrite app_nil_r. split_and!; [done | apply well_formed_error | | |].
  - rewrite isError_error. split; [| done]. intros _. right. left. by exists input.
  - by intros ? [=].
  - done.
Qed.

Lemma meets_contract_flagged {I} (st : Store) (conversion_fails : I → bool)
    (input : I) (text : string) (c : StoreCall) (log : list StoreCall) :
  conversion_fails input = false →
  store_call_failed st c = true →
  meets_contract st (inr input) conversion_fails log
    (Returned (error_envelope text), (log ++ [c])%list).
Proof.
  intros Hconv Hc. exists (error_envelope text), [c].
  split_and!; [done | apply well_formed_error | | |].
  - rewrite isError_error. split; [| done]. intros _. right. right. by constructor.
  - by intros ? [=].
  - intros ? [= <-]. congruence.
Qed.

Lemma meets_contract_success {I} (st : Store) (conversion_fails : I → bool)
    (input : I) (text : string) (c : StoreCall) (log : list StoreCall) :
  conversion_fails input = false →
  store_call_failed st c = false →
  meets_contract st (inr input) conversion_fails log
    (Returned (success_envelope text), (log ++ [c])%list).
Proof.
  intros Hconv Hc. exists (success_envelope text), [c].
  split_and!; [done | apply well_formed_success | | |].
  - rewrite isError_success. split; [done |].
    intros [? | [(? & [= <-] & ?) | H]]; [done | congruence |].
    apply Exists_cons in H as [H | H]; [congruence | by apply Exists_nil in H].
  - by intros ? [=].
  - intros ? [= <-]. congruence.
Qed.

(** Unfolds a handler of the store down to the answer of the store. *)
Ltac run_store_handler :=
  unfold store_validate_input;
  unfold store_try_except, store_try_except_Exception,
    store_try_except_ValidationError, mbind, PyStore_bind, mret, PyStore_ret,
    store_lift, construct, store_call;
  cbv beta iota zeta.

(** Settles the contract once the validation result, the conversion and
    the answer of the store have been destructed. *)
Ltac settle_store :=
  cbv beta iota zeta;
  lazymatch goal with
  | |- meets_contract _ _ _ _ (Returned (success_envelope _), _) =>
      apply meets_contract_success; use_answer
  | |- meets_contract _ (inl _) _ _ _ =>
      apply meets_contract_rejected
  | |- meets_contract _ _ _ ?log (Returned (error_envelope _), ?log) =>
      apply meets_contract_unconverted; use_answer
  | |- meets_contract _ _ _ ?log (Returned (MCPValidationError.to_mcp_response _), ?log) =>
      unfold MCPValidationError.to_mcp_response;
      apply meets_contract_unconverted; use_answer
  | |- meets_contract _ _ _ _ (Returned (error_envelope _), _) =>
      apply meets_contract_flagged; use_answer
  | |- meets_contract _ _ _ _ (Returned (MCPValidationError.to_mcp_response _), _) =>
      unfold MCPValidationError.to_mcp_response;
      apply meets_contract_flagged; use_answer
  end.

(** Destructs the answer of the store to the request the handler makes. *)
Ltac store_answers :=
  match goal with
  | |- context [match ?answer with _ => _ end] =>
      lazymatch type of answer with
      | outcome _ => destruct answer as [?|[?|?]] eqn:?
      end
  end.

Section StoreContracts.

Variable st : Store.
Variable ColumnTypeName : string → outcome string.
Variable str_of_ValidationError : list ErrorDetails → string.
Variable format_value : pyval → string.
Variable format_LanguageEnum : LanguageEnum → string.

Lemma list_catalogs_tool_contract :
  store_envelope_contract st ListCatalogsInput.validate converts_nothing
    (list_catalogs_tool st str_of_ValidationError).
Proof.
  intros arguments log. unfold list_catalogs_tool. run_store_handler.
  unfold ListCatalogsInput.validate. cbv beta iota zeta.
  store_answers; settle_store.
Qed.

Lemma get_catalog_tool_contract :
  store_envelope_contract st GetCatalogInput.validate converts_nothing
    (get_catalog_tool st str_of_ValidationError).
Proof.
  intros arguments log. unfold get_catalog_tool. run_store_handler.
  destruct (GetCatalogInput.validate arguments) as [errs|input] eqn:V;
    [settle_store |].
  cbv beta iota zeta. store_answers; settle_store.
Qed.

Lemma list_schemas_tool_contract :
  store_envelope_contract st ListSchemasInput.validate converts_nothing
    (list_schemas_tool st str_of_ValidationError).
Proof.
  intros arguments log. unfold list_schemas_tool. run_store_handler.
  destruct (ListSchemasInput.validate arguments) as [errs|input] eqn:V;
    [settle_store |].
  cbv beta iota zeta. store_answers; settle_store.
Qed.

Lemma create_schema_tool_contract :
  store_envelope_contract st CreateSchemaInput.validate converts_nothing
    (create_schema_tool st str_of_ValidationError).
Proof.
  intros arguments log. unfold create_schema_tool. run_store_handler.
  destruct (CreateSchemaInput.validate arguments) as [errs|input] eqn:V;
    [settle_store |].
  cbv beta iota zeta. store_answers; settle_store.
Qed.

Lemma update_schema_tool_contract :
  store_envelope_contract st UpdateSchemaInput.validate converts_nothing
    (update_schema_tool st str_of_ValidationError).
Proof.
  intros arguments log. unfold update_schema_tool. run_store_handler.
  destruct (UpdateSchemaInput.validate arguments) as [errs|input] eqn:V;
    [settle_store |].
  cbv beta iota zeta. store_answers; settle_store.
Qed.

Lemma delete_schema_tool_contract :
  store_envelope_contract st DeleteSchemaInput.validate converts_nothing
    (delete_schema_tool st str_of_ValidationError).
Proof.
  intros arguments log. unfold delete_schema_tool. run_store_handler.
  destruct (DeleteSchemaInput.validate arguments) as [errs|input] eqn:V;
    [settle_store |].
  cbv beta iota zeta. store_answers; settle_store.
Qed.

Lemma list_tables_tool_contract :
  store_envelope_contract st ListTablesInput.validate converts_nothing
    (list_tables_tool st str_of_ValidationError).
Proof.
  intros arguments log. unfold list_tables_tool. run_store_handler.
  destruct (ListTablesInput.validate arguments) as [errs|input] eqn:V;
    [settle_store |].
  cbv beta iota zeta. store_answers; settle_store.
Qed.

Lemma get_table_tool_contract :
  store_envelope_contract st no_model converts_nothing
    (get_table_tool st str_of_ValidationError).
Proof.
  intros arguments log. unfold get_table_tool, no_model. run_store_handler.
  store_answers; settle_store.
Qed.

Lemma delete_table_tool_contract :
  store_envelope_contract st no_model converts_nothing
    (delete_table_tool st str_of_ValidationError format_value).
Proof.
  intros arguments log. unfold delete_table_tool, no_model. run_store_handler.
  store_answers; settle_store.
Qed.

Lemma create_table_tool_contract :
  store_envelope_contract st CreateTableInput.validate
    (columns_conversion_fails ColumnTypeName)
    (create_table_tool st ColumnTypeName str_of_ValidationError).
Proof.
  intros arguments log. unfold create_table_tool. run_store_handler.
  destruct (CreateTableInput.validate arguments) as [errs|input] eqn:V;
    [settle_store |].
  cbv beta iota zeta. unfold columns_conversion_fails.
  destruct (comprehension (ColumnModel_to_sdk ColumnTypeName)
              (CreateTableInput.columns input)) as [columns|[errs|m]] eqn:Hc;
    [| settle_store | settle_store].
  cbv beta iota zeta. store_answers; settle_store.
Qed.

Lemma list_pipeline_files_tool_contract :
  store_envelope_contract st PathInput.validate converts_nothing
    (list_pipeline_files_tool st str_of_ValidationError).
Proof.
  intros arguments log. unfold list_pipeline_files_tool. run_store_handler.
  destruct (PathInput.validate arguments) as [errs|input] eqn:V; [settle_store |].
  cbv beta iota zeta. store_answers; settle_store.
Qed.

Lemma get_pipeline_file_status_tool_contract :
  store_envelope_contract st PathInput.validate converts_nothing
    (get_pipeline_file_status_tool st str_of_ValidationError).
Proof.
  intros arguments log. unfold get_pipeline_file_status_tool. run_store_handler.
  destruct (PathInput.validate arguments) as [errs|input] eqn:V; [settle_store |].
  cbv beta iota zeta. store_answers; settle_store.
Qed.

Lemma read_pipeline_file_tool_contract :
  store_envelope_contract st PathInput.validate converts_nothing
    (read_pipeline_file_tool st str_of_ValidationError).
Proof.
  intros arguments log. unfold read_pipeline_file_tool. run_store_handler.
  destruct (PathInput.validate arguments) as [errs|input] eqn:V; [settle_store |].
  cbv beta iota zeta. store_answers; settle_store.
Qed.

Lemma write_pipeline_file_tool_contract :
  store_envelope_contract st WritePipelineFileInput.validate converts_nothing
    (write_pipeline_file_tool st str_of_ValidationError).
Proof.
  intros arguments log. unfold write_pipeline_file_tool. run_store_handler.
  destruct (WritePipelineFileInput.validate arguments) as [errs|input] eqn:V;
    [settle_store |].
  cbv beta iota zeta. store_answers; settle_store.
Qed.

Lemma create_pipeline_directory_tool_contract :
  store_envelope_contract st PathInput.validate converts_nothing
    (create_pipeline_directory_tool st str_of_ValidationError).
Proof.
  intros arguments log. unfold create_pipeline_directory_tool. run_store_handler.
  destruct (PathInput.validate arguments) as [errs|input] eqn:V; [settle_store |].
  cbv beta iota zeta. store_answers; settle_store.
Qed.

Lemma delete_pipeline_path_tool_contract :
  store_envelope_contract st DeletePipelinePathInput.validate converts_nothing
    (delete_pipeline_path_tool st str_of_ValidationError).
Proof.
  intros arguments log. unfold delete_pipeline_path_tool. run_store_handler.
  destruct (DeletePipelinePathInput.validate arguments) as [errs|input] eqn:V;
    [settle_store |].
  cbv beta iota zeta. store_answers; settle_store.
Qed.

Lemma create_context_tool_contract :
  store_envelope_contract st CreateContextInput.validate converts_nothing
    (create_context_tool st str_of_ValidationError format_LanguageEnum).
Proof.
  intros arguments log. unfold create_context_tool. run_store_handler.
  destruct (CreateContextInput.validate arguments) as [errs|input] eqn:V;
    [settle_store |].
  cbv beta iota zeta. store_answers; settle_store.
Qed.

End StoreContracts.

(** C4, as the code has it.  Each of the thirty handlers of
    [tools/spark_declarative_pipelines.py], [tools/unity_catalog.py] and
    [tools/compute.py] returns, and never raises, a well-formed response
    envelope.  Its [isError] flag is set if and only if validation
    rejected the arguments, or the collaborator failed a request, or, for
    [create_table_tool] alone, the conversion of a validated column to the
    SDK's column type failed.  Rejected arguments give the itemized
    validation envelope and reach no collaborator, a table whose columns
    cannot be converted reaches none either, an exception raised by a
    collaborator is turned into an [isError] envelope, and a success
    envelope carries no [isError]. *)
Theorem tool_invocation_envelope (w : Remote) (st : Store)
    (json_dumps : pyval → string) (int_of_str : string → option Z)
    (str_of_ValidationError : list ErrorDetails → string)
    (ColumnTypeName : string → outcome string)
    (format_value : pyval → string)
    (format_LanguageEnum : LanguageEnum → string) :
  (* tools/spark_declarative_pipelines.py *)
  envelope_contract w CreatePipelineInput.validate
    (create_pipeline_tool w str_of_ValidationError) ∧
  envelope_contract w GetPipelineInput.validate
    (get_pipeline_tool w json_dumps str_of_ValidationError) ∧
  envelope_contract w UpdatePipelineInput.validate
    (update_pipeline_config_tool w str_of_ValidationError) ∧
  envelope_contract w DeletePipelineInput.validate
    (delete_pipeline_tool w str_of_ValidationError) ∧
  envelope_contract w StartPipelineUpdateInput.validate
    (start_pipeline_update_tool w str_of_ValidationError) ∧
  envelope_contract w ValidatePipelineInput.validate
    (validate_pipeline_tool w str_of_ValidationError) ∧
  envelope_contract w GetPipelineUpdateStatusInput.validate
    (get_pipeline_update_status_tool w json_dumps str_of_ValidationError) ∧
  envelope_contract w StopPipelineInput.validate
    (stop_pipeline_tool w str_of_ValidationError) ∧
  envelope_contract w (GetPipelineEventsInput.validate int_of_str)
    (get_pipeline_events_tool w json_dumps int_of_str str_of_ValidationError) ∧
  store_envelope_contract st PathInput.validate converts_nothing
    (list_pipeline_files_tool st str_of_ValidationError) ∧
  store_envelope_contract st PathInput.validate converts_nothing
    (get_pipeline_file_status_tool st str_of_ValidationError) ∧
  store_envelope_contract st PathInput.validate converts_nothing
    (read_pipeline_file_tool st str_of_ValidationError) ∧
  store_envelope_contract st WritePipelineFileInput.validate converts_nothing
    (write_pipeline_file_tool st str_of_ValidationError) ∧
  store_envelope_contract st PathInput.validate converts_nothing
    (create_pipeline_directory_tool st str_of_ValidationError) ∧
  store_envelope_contract st DeletePipelinePathInput.validate converts_nothing
    (delete_pipeline_path_tool st str_of_ValidationError) ∧
  (* tools/unity_catalog.py *)
  store_envelope_contract st ListCatalogsInput.validate converts_nothing
    (list_catalogs_tool st str_of_ValidationError) ∧
  store_envelope_contract st GetCatalogInput.validate converts_nothing
    (get_catalog_tool st str_of_ValidationError) ∧
  store_envelope_contract st ListSchemasInput.validate converts_nothing
    (list_schemas_tool st str_of_ValidationError) ∧
  envelope_contract w no_model
    (get_schema_tool w str_of_ValidationError) ∧
  store_envelope_contract st CreateSchemaInput.validate converts_nothing
    (create_schema_tool st str_of_ValidationError) ∧
  store_envelope_contract st UpdateSchemaInput.validate converts_nothing
    (update_schema_tool st str_of_ValidationError) ∧
  store_envelope_contract st DeleteSchemaInput.validate converts_nothing
    (delete_schema_tool st str_of_ValidationError) ∧
  store_envelope_contract st ListTablesInput.validate converts_nothing
    (list_tables_tool st str_of_ValidationError) ∧
  store_envelope_contract st no_model converts_nothing
    (get_table_tool st str_of_ValidationError) ∧
  store_envelope_contract st CreateTableInput.validate
    (columns_conversion_fails ColumnTypeName)
    (create_table_tool st ColumnTypeName str_of_ValidationError) ∧
  store_envelope_contract st no_model converts_nothing
    (delete_table_tool st str_of_ValidationError format_value) ∧
  (* tools/compute.py *)
  store_envelope_contract st CreateContextInput.validate converts_nothing
    (create_context_tool st str_of_ValidationError format_LanguageEnum) ∧
  envelope_contract w ExecuteCommandWithContextInput.validate
    (execute_command_with_context_tool w str_of_ValidationError) ∧
  envelope_contract w DestroyContextInput.validate
    (destroy_context_tool w str_of_ValidationError) ∧
  envelope_contract w (DatabricksCommandInput.validate int_of_str)
    (databricks_command_tool w int_of_str str_of_ValidationError).
Proof.
  split_and!.
  - apply create_pipeline_tool_contract.
  - apply get_pipeline_tool_contract.
  - apply update_pipeline_config_tool_contract.
  - apply delete_pipeline_tool_contract.
  - apply start_pipeline_update_tool_contract.
  - apply validate_pipeline_tool_contract.
  - apply get_pipeline_update_status_tool_contract.
  - apply stop_pipeline_tool_contract.
  - apply get_pipeline_events_tool_contract.
  - apply list_pipeline_files_tool_contract.
  - apply get_pipeline_file_status_tool_contract.
  - apply read_pipeline_file_tool_contract.
  - apply write_pipeline_file_tool_contract.
  - apply create_pipeline_directory_tool_contract.
  - apply delete_pipeline_path_tool_contract.
  - apply list_catalogs_tool_contract.
  - apply get_catalog_tool_contract.
  - apply list_schemas_tool_contract.
  - apply get_schema_tool_contract.
  - apply create_schema_tool_contract.
  - apply update_schema_tool_contract.
  - apply delete_schema_tool_contract.
  - apply list_tables_tool_contract.
  - apply get_table_tool_contract.
  - apply create_table_tool_contract.
  - apply delete_table_tool_contract.
  - apply create_context_tool_contract.
  - apply execute_command_with_context_tool_contract.
  - apply destroy_context_tool_contract.
  - apply databricks_command_tool_contract.
Qed.

(** C4, as stated, fails: a table request that validation accepts, with a
    column whose type name [INTEGER] is not a member of the SDK's
    enumeration, comes back flagged as an error although validation did
    not fail and no collaborator was asked anything. *)
Lemma accepted_table_is_flagged_without_a_failure :
  rejected (CreateTableInput.validate Shelf.bad_column_table) = false ∧
  create_table_tool Shelf.accepting Shelf.ColumnTypeName Stub.str_of_ValidationError
    Shelf.bad_column_table []
  = (Returned
       (error_envelope
          ("Error creating table: " ++ "'INTEGER' is not a valid ColumnTypeName")),
     []) ∧
  isError
    (error_envelope
       ("Error creating table: " ++ "'INTEGER' is not a valid ColumnTypeName"))
  = true.
Proof. split_and!; vm_compute; reflexivity. Qed.
